(** * AI Productivity Hub: the serverless handlers and the habit toggle

    A shallow embedding of the five edge functions under
    [supabase/functions/*/index.ts] (support chat, habit insights,
    knowledge query, ATS optimizer, job assistant) and of [toggleHabit]
    from [src/pages/HabitTracker.tsx].

    Conventions of the embedding.
    - A JavaScript string is a Rocq [string] holding its UTF-8 bytes.  The
      only characters the handlers look for are ASCII (the braces of the
      extraction regex), and those never occur inside a multi-byte sequence.
      Request and response bodies are taken as text that is already decoded.
    - A number is a binary64: [JSON.parse] rounds a literal to the nearest
      one, and what is kept is the exact decimal of that value.
    - Exceptions are values of [exn]; a computation that can throw returns an
      [outcome].  The text of an engine-raised message (TypeError,
      SyntaxError) is the engine's own and is not invented here: a response
      built from a caught exception keeps the exception itself.
    - [console.log] and [console.error] are not modelled. *)

From Stdlib Require Import String Ascii List ZArith NArith Bool Lia.
From Stdlib Require Import DecimalString Permutation.
Import ListNotations.
Local Open Scope list_scope.
Local Open Scope string_scope.

(** ** Characters and strings *)

Module Chars.

Definition dquote : ascii := ascii_of_nat 34.
Definition backslash : ascii := ascii_of_nat 92.
Definition lf : ascii := ascii_of_nat 10.

Definition code (c : ascii) : N := N_of_ascii c.

Definition between (lo hi : N) (c : ascii) : bool :=
  (N.leb lo (code c) && N.leb (code c) hi)%bool.

Definition is_digit : ascii -> bool := between 48 57.
Definition is_lower : ascii -> bool := between 97 122.

(** JSON white space: space, tab, line feed, carriage return. *)
Definition is_ws (c : ascii) : bool :=
  let n := code c in
  (N.eqb n 32 || N.eqb n 9 || N.eqb n 10 || N.eqb n 13)%bool.

Definition hex_value (c : ascii) : option N :=
  let n := code c in
  if between 48 57 c then Some (n - 48)%N
  else if between 97 102 c then Some (n - 87)%N
  else if between 65 70 c then Some (n - 55)%N
  else None.

Definition byte (n : N) : ascii := ascii_of_N n.

(** UTF-8 form of a code point; a lone surrogate gets the generalised
    three-byte form, so that distinct JavaScript strings stay distinct. *)
Definition utf8 (cp : N) : list ascii :=
  if N.ltb cp 128 then [byte cp]
  else if N.ltb cp 2048 then
    [byte (192 + cp / 64); byte (128 + cp mod 64)]
  else if N.ltb cp 65536 then
    [byte (224 + cp / 4096); byte (128 + (cp / 64) mod 64);
     byte (128 + cp mod 64)]
  else
    [byte (240 + cp / 262144); byte (128 + (cp / 4096) mod 64);
     byte (128 + (cp / 64) mod 64); byte (128 + cp mod 64)].

Definition is_high_surrogate (u : N) : bool :=
  (N.leb 55296 u && N.leb u 56319)%bool.
Definition is_low_surrogate (u : N) : bool :=
  (N.leb 56320 u && N.leb u 57343)%bool.

Fixpoint string_of_chars (l : list ascii) : string :=
  match l with
  | [] => EmptyString
  | c :: r => String c (string_of_chars r)
  end.

Definition string_of_rev (l : list ascii) : string :=
  string_of_chars (rev l).

End Chars.

Definition DQ : string := String Chars.dquote EmptyString.
Definition NL : string := String Chars.lf EmptyString.

(** [s.includes(t)] *)
Definition includes (needle hay : string) : bool :=
  match index 0 needle hay with
  | Some _ => true
  | None => false
  end.

(** Decimal rendering of a natural number, as [`${n}`] gives it. *)
Definition nat_to_string (n : nat) : string :=
  NilEmpty.string_of_uint (Nat.to_uint n).

(** ** Exceptions *)

Inductive exn : Type :=
| Error (message : string)     (* [throw new Error(message)] in the handler *)
| TypeError (what : string)    (* raised by the engine; [what] names the operation *)
| SyntaxError.                 (* raised by [JSON.parse], [req.json()], [response.json()] *)

Inductive outcome (A : Type) : Type :=
| Ok (a : A)
| Throw (e : exn).
Arguments Ok {A} a.
Arguments Throw {A} e.

Definition obind {A B} (c : outcome A) (k : A -> outcome B) : outcome B :=
  match c with
  | Ok a => k a
  | Throw e => Throw e
  end.

(** ** JavaScript values that JSON can produce, and [undefined] *)

(** A number is a binary64, held as the exact decimal
    [mantissa * 10 ^ exponent] of its value, or an infinity.  One value has
    one representation: an integer is [Number n 0]; a fraction has a
    negative exponent and a mantissa that does not end in 0.  The two zeros
    are not told apart: nothing in the program can see the difference, and
    both print as [0]. *)
Inductive number : Type :=
| Number (mantissa exponent : Z)
| Infinity (negative : bool).

Module Binary64.

Local Open Scope Z_scope.

Fixpoint strip_zeros (fuel : nat) (m e : Z) : number :=
  match fuel with
  | O => Number m e
  | S k =>
      if Z.eqb m 0 then Number 0 0
      else if Z.leb 0 e then Number m e
      else if Z.eqb (m mod 10) 0 then strip_zeros k (m / 10) (e + 1)
      else Number m e
  end.

(** [m * 10 ^ e] in the one representation. *)
Definition decimal (m e : Z) : number :=
  if Z.leb 0 e then Number (m * 10 ^ e) 0
  else strip_zeros (Z.to_nat (Z.log2 (Z.abs m)) + 1) m e.

(** [q * 2 ^ e] *)
Definition dyadic (q e : Z) : number :=
  if Z.leb 0 e then Number (q * 2 ^ e) 0
  else decimal (q * 5 ^ (- e)) e.

(** [n / d] rounded to the nearest integer, a tie to the even one. *)
Definition round_half_even (n d : Z) : Z :=
  let f := n / d in
  let r := n mod d in
  if Z.ltb d (2 * r) then f + 1
  else if Z.eqb d (2 * r) then (if Z.even f then f else f + 1)
  else f.

(** The fraction [num / den] in units of [2 ^ e]. *)
Definition scaled (num den e : Z) : Z * Z :=
  if Z.leb 0 e then (num, den * 2 ^ e) else (num * 2 ^ (- e), den).

(** The binary64 nearest to [m * 10 ^ e] for [m > 0]: 53 significant bits,
    or fewer at the bottom of the range, where the unit is [2 ^ -1074]; a
    value that rounds to [2 ^ 1024] or more is an infinity.  The first two
    tests settle literals far outside the range without computing the power
    of ten ([2 ^ 3 < 10]): at least [2 ^ 1025], and below [2 ^ -1075]. *)
Definition round_positive (m e : Z) : number :=
  let a := Z.log2 m in
  if (Z.leb 0 e && Z.ltb 1024 (a + 3 * e))%bool then Infinity false
  else if (Z.ltb e 0 && Z.leb (a + 1 + 3 * e) (-1075))%bool then Number 0 0
  else
    let num := if Z.leb 0 e then m * 10 ^ e else m in
    let den := if Z.leb 0 e then 1 else 10 ^ (- e) in
    let e0 := Z.max (Z.log2 num - Z.log2 den - 52) (-1074) in
    let (n0, d0) := scaled num den e0 in
    let e1 := if (Z.ltb (n0 / d0) (2 ^ 52) && Z.ltb (-1074) e0)%bool
              then e0 - 1 else e0 in
    let (n1, d1) := scaled num den e1 in
    let q := round_half_even n1 d1 in
    if Z.leb (2 ^ 1024) (q * 2 ^ (Z.max e1 0)) then Infinity false
    else dyadic q e1.

Definition negate (x : number) : number :=
  match x with
  | Number m e => Number (- m) e
  | Infinity s => Infinity (negb s)
  end.

(** The Number value of the decimal [m * 10 ^ e]. *)
Definition of_decimal (m e : Z) : number :=
  if Z.eqb m 0 then Number 0 0
  else if Z.ltb m 0 then negate (round_positive (- m) e)
  else round_positive m e.

Definition eqb (x y : number) : bool :=
  match x, y with
  | Number m e, Number m' e' => (Z.eqb m m' && Z.eqb e e')%bool
  | Infinity s, Infinity s' => Bool.eqb s s'
  | _, _ => false
  end.

Definition digit_count (m : Z) : Z :=
  Z.of_nat (String.length (NilEmpty.string_of_uint (N.to_uint (Z.to_N m)))).

(** The digits of Number::toString for the binary64 [m * 10 ^ e] ([m > 0]
    with [d] digits): the pair [(s, n)] with the fewest digits in [s] such
    that [s * 10 ^ (n - k)], [k] the number of digits of [s], has this
    binary64 as its Number value; among several, the one closest to it.
    With [k] digits there are two candidates, the first [k] digits of [m]
    and their successor. *)
Fixpoint shortest_from (fuel : nat) (k : Z) (m e d : Z) : Z * Z :=
  match fuel with
  | O => (m, d + e)
  | S fuel' =>
      if Z.leb d k then (m, d + e)
      else
        let unit := 10 ^ (d - k) in
        let lo := m / unit in
        let r := m mod unit in
        let hi := lo + 1 in
        let lo_ok := eqb (of_decimal lo (e + d - k)) (decimal m e) in
        let hi_ok := eqb (of_decimal hi (e + d - k)) (decimal m e) in
        let up :=
          (Z.ltb unit (2 * r) || (Z.eqb unit (2 * r) && Z.odd lo))%bool in
        let pick_hi :=
          if Z.eqb hi (10 ^ k) then (1, d + e + 1) else (hi, d + e) in
        if (lo_ok && hi_ok)%bool then (if up then pick_hi else (lo, d + e))
        else if lo_ok then (lo, d + e)
        else if hi_ok then pick_hi
        else shortest_from fuel' (k + 1) m e d
  end.

(** Seventeen digits tell any two binary64 apart. *)
Definition shortest (m e : Z) : Z * Z :=
  shortest_from 17 1 m e (digit_count m).

End Binary64.

#[warnings="-register-all"]
Inductive value : Type :=
| VUndef
| VNull
| VBool (b : bool)
| VNum (n : number)
| VStr (s : string)
| VArr (items : list value)
| VObj (fields : list (string * value)).

Definition num_of_nat (n : nat) : value := VNum (Number (Z.of_nat n) 0).

(** ** JSON.parse *)

Module JSON.

Import Chars.

(** *** Number literals

    An optional minus sign; an integer part that is 0 or starts with a
    non-zero digit; an optional fraction (a point and at least one digit);
    an optional exponent (e or E, an optional sign, at least one digit). *)

Fixpoint digits_value (l : list ascii) (acc : Z) : Z :=
  match l with
  | [] => acc
  | c :: r => digits_value r (10 * acc + Z.of_N (code c - 48))
  end.

Fixpoint take_digits (l : list ascii) : list ascii * list ascii :=
  match l with
  | [] => ([], [])
  | c :: r =>
      if is_digit c then
        let (ds, rest) := take_digits r in (c :: ds, rest)
      else ([], l)
  end.

Definition int_part_ok (ds : list ascii) : bool :=
  match ds with
  | [] => false
  | [_] => true
  | c :: _ => negb (N.eqb (code c) 48)
  end.

Definition number_of_literal (lit : list ascii) : option number :=
  let (neg, l1) :=
    match lit with
    | c :: r => if N.eqb (code c) 45 then (true, r) else (false, lit)
    | [] => (false, lit)
    end in
  let (ip, l2) := take_digits l1 in
  if negb (int_part_ok ip) then None else
  let frac :=
    match l2 with
    | c :: r =>
        if N.eqb (code c) 46 then
          let (fp, l3) := take_digits r in
          match fp with [] => None | _ => Some (fp, l3) end
        else Some ([], l2)
    | [] => Some ([], l2)
    end in
  match frac with
  | None => None
  | Some (fp, l3) =>
      let expo :=
        match l3 with
        | [] => Some 0%Z
        | c :: r =>
            if (N.eqb (code c) 101 || N.eqb (code c) 69)%bool then
              let (eneg, r') :=
                match r with
                | s :: r2 =>
                    if N.eqb (code s) 45 then (true, r2)
                    else if N.eqb (code s) 43 then (false, r2)
                    else (false, r)
                | [] => (false, r)
                end in
              let (ep, rest) := take_digits r' in
              match ep, rest with
              | _ :: _, [] =>
                  let x := digits_value ep 0 in
                  Some (if eneg then (- x)%Z else x)
              | _, _ => None
              end
            else None
        end in
      match expo with
      | None => None
      | Some x =>
          let m := digits_value (ip ++ fp)%list 0 in
          let m := if neg then (- m)%Z else m in
          Some (Binary64.of_decimal m (x - Z.of_nat (length fp)))
      end
  end.

(** *** Tokens *)

Inductive token : Type :=
| TLBrace | TRBrace | TLBrack | TRBrack | TColon | TComma
| TStr (s : string)
| TNum (n : number)
| TTrue | TFalse | TNull.

(** What a string literal holds while it is being read: a byte copied from
    the input, or the code unit of a [\uXXXX] escape. *)
Inductive sitem : Type :=
| Raw (c : ascii)
| Unit16 (u : N).

Fixpoint decode_items (l : list sitem) : list ascii :=
  match l with
  | [] => []
  | Raw c :: r => c :: decode_items r
  | Unit16 u :: r =>
      match r with
      | Unit16 v :: r' =>
          if (is_high_surrogate u && is_low_surrogate v)%bool then
            (utf8 (65536 + (u - 55296) * 1024 + (v - 56320)) ++ decode_items r')%list
          else (utf8 u ++ decode_items r)%list
      | _ => (utf8 u ++ decode_items r)%list
      end
  end.

Inductive lex_mode : Type :=
| LTop
| LStr (acc : list sitem)                 (* inside a string, items reversed *)
| LEsc (acc : list sitem)                 (* after a backslash *)
| LUni (acc : list sitem) (hex : list N)  (* after [\u], digits reversed *)
| LNum (acc : list ascii)                 (* inside a number, reversed *)
| LWord (acc : list ascii).               (* inside true / false / null *)

Definition is_numchar (c : ascii) : bool :=
  let n := code c in
  (is_digit c || N.eqb n 45 || N.eqb n 43 || N.eqb n 46
   || N.eqb n 101 || N.eqb n 69)%bool.

Definition word_token (acc : list ascii) : option token :=
  let w := string_of_rev acc in
  if String.eqb w "true" then Some TTrue
  else if String.eqb w "false" then Some TFalse
  else if String.eqb w "null" then Some TNull
  else None.

Definition num_token (acc : list ascii) : option token :=
  match number_of_literal (rev acc) with
  | Some n => Some (TNum n)
  | None => None
  end.

(** One character read between tokens. *)
Definition top_step (c : ascii) (out : list token)
  : option (lex_mode * list token) :=
  let n := code c in
  if is_ws c then Some (LTop, out)
  else if N.eqb n 123 then Some (LTop, TLBrace :: out)
  else if N.eqb n 125 then Some (LTop, TRBrace :: out)
  else if N.eqb n 91 then Some (LTop, TLBrack :: out)
  else if N.eqb n 93 then Some (LTop, TRBrack :: out)
  else if N.eqb n 58 then Some (LTop, TColon :: out)
  else if N.eqb n 44 then Some (LTop, TComma :: out)
  else if N.eqb n 34 then Some (LStr [], out)
  else if (is_digit c || N.eqb n 45)%bool then Some (LNum [c], out)
  else if is_lower c then Some (LWord [c], out)
  else None.

Definition escape_char (c : ascii) : option ascii :=
  let n := code c in
  if N.eqb n 34 then Some c
  else if N.eqb n 92 then Some c
  else if N.eqb n 47 then Some c
  else if N.eqb n 98 then Some (byte 8)
  else if N.eqb n 102 then Some (byte 12)
  else if N.eqb n 110 then Some (byte 10)
  else if N.eqb n 114 then Some (byte 13)
  else if N.eqb n 116 then Some (byte 9)
  else None.

Definition hex4 (rev_digits : list N) : N :=
  fold_right (fun d acc => (acc * 16 + d)%N) 0%N rev_digits.

Fixpoint lex (s : string) (m : lex_mode) (out : list token)
  : option (list token) :=
  match s with
  | EmptyString =>
      match m with
      | LTop => Some (rev out)
      | LNum acc =>
          match num_token acc with
          | Some t => Some (rev (t :: out))
          | None => None
          end
      | LWord acc =>
          match word_token acc with
          | Some t => Some (rev (t :: out))
          | None => None
          end
      | _ => None
      end
  | String c r =>
      match m with
      | LTop =>
          match top_step c out with
          | Some (m', out') => lex r m' out'
          | None => None
          end
      | LStr acc =>
          if N.eqb (code c) 34 then
            lex r LTop (TStr (string_of_chars (decode_items (rev acc))) :: out)
          else if N.eqb (code c) 92 then lex r (LEsc acc) out
          else if N.ltb (code c) 32 then None
          else lex r (LStr (Raw c :: acc)) out
      | LEsc acc =>
          if N.eqb (code c) 117 then lex r (LUni acc []) out
          else
            match escape_char c with
            | Some e => lex r (LStr (Raw e :: acc)) out
            | None => None
            end
      | LUni acc hex =>
          match hex_value c with
          | None => None
          | Some d =>
              match hex with
              | [_; _; _] => lex r (LStr (Unit16 (hex4 (d :: hex)) :: acc)) out
              | _ => lex r (LUni acc (d :: hex)) out
              end
          end
      | LNum acc =>
          if is_numchar c then lex r (LNum (c :: acc)) out
          else
            match num_token acc with
            | None => None
            | Some t =>
                match top_step c (t :: out) with
                | Some (m', out') => lex r m' out'
                | None => None
                end
            end
      | LWord acc =>
          if is_lower c then lex r (LWord (c :: acc)) out
          else
            match word_token acc with
            | None => None
            | Some t =>
                match top_step c (t :: out) with
                | Some (m', out') => lex r m' out'
                | None => None
                end
            end
      end
  end.

Definition tokens (s : string) : option (list token) := lex s LTop [].

(** *** The grammar, as a pushdown automaton over the tokens *)

(** The keys of an object come in the order that [Object.keys], a spread
    and [JSON.stringify] see: the array indices (a canonical decimal below
    [2 ^ 32 - 1]) first, in ascending order, then the other keys in the
    order they were created. *)
Definition array_index (k : string) : option N :=
  let l := list_ascii_of_string k in
  match l with
  | [] => None
  | _ =>
      if forallb is_digit l then
        let n := Z.to_N (digits_value l 0) in
        if (String.eqb (NilEmpty.string_of_uint (N.to_uint n)) k
            && N.ltb n 4294967295)%bool
        then Some n else None
      else None
  end.

Fixpoint has_key (fields : list (string * value)) (k : string) : bool :=
  match fields with
  | [] => false
  | (k', _) :: r => (String.eqb k' k || has_key r k)%bool
  end.

Fixpoint replace_field (fields : list (string * value)) (k : string)
    (v : value) : list (string * value) :=
  match fields with
  | [] => []
  | (k', v') :: r =>
      if String.eqb k' k then (k', v) :: r
      else (k', v') :: replace_field r k v
  end.

Fixpoint insert_index (fields : list (string * value)) (i : N) (k : string)
    (v : value) : list (string * value) :=
  match fields with
  | [] => [(k, v)]
  | (k', v') :: r =>
      match array_index k' with
      | Some j =>
          if N.ltb i j then (k, v) :: fields
          else (k', v') :: insert_index r i k v
      | None => (k, v) :: fields
      end
  end.

(** [obj[k] = v] on an object under construction: a repeated key keeps its
    place and takes the later value. *)
Definition obj_set (fields : list (string * value)) (k : string) (v : value)
  : list (string * value) :=
  if has_key fields k then replace_field fields k v
  else
    match array_index k with
    | Some i => insert_index fields i k v
    | None => (fields ++ [(k, v)])%list
    end.

(** An open container waiting for the value being read. *)
Inductive frame : Type :=
| FArr (rev_items : list value)
| FObj (fields : list (string * value)) (key : string).

Inductive pstate : Type :=
| PValue (stk : list frame)                       (* a value must follow *)
| PArrFirst (stk : list frame)                    (* after [[]: a value or []] *)
| PArrNext (rev_items : list value) (stk : list frame)   (* [,] or []] *)
| PObjFirst (stk : list frame)                    (* after [{]: a key or [}] *)
| PObjKey (fields : list (string * value)) (stk : list frame)
| PObjColon (fields : list (string * value)) (key : string) (stk : list frame)
| PObjNext (fields : list (string * value)) (stk : list frame)  (* [,] or [}] *)
| PDone (v : value).

Definition deliver (v : value) (stk : list frame) : pstate :=
  match stk with
  | [] => PDone v
  | FArr items :: stk' => PArrNext (v :: items) stk'
  | FObj fields key :: stk' => PObjNext (obj_set fields key v) stk'
  end.

Definition start_value (t : token) (stk : list frame) : option pstate :=
  match t with
  | TStr s => Some (deliver (VStr s) stk)
  | TNum n => Some (deliver (VNum n) stk)
  | TTrue => Some (deliver (VBool true) stk)
  | TFalse => Some (deliver (VBool false) stk)
  | TNull => Some (deliver VNull stk)
  | TLBrace => Some (PObjFirst stk)
  | TLBrack => Some (PArrFirst stk)
  | _ => None
  end.

Definition pstep (st : pstate) (t : token) : option pstate :=
  match st with
  | PValue stk => start_value t stk
  | PArrFirst stk =>
      match t with
      | TRBrack => Some (deliver (VArr []) stk)
      | _ => start_value t (FArr [] :: stk)
      end
  | PArrNext items stk =>
      match t with
      | TComma => Some (PValue (FArr items :: stk))
      | TRBrack => Some (deliver (VArr (rev items)) stk)
      | _ => None
      end
  | PObjFirst stk =>
      match t with
      | TRBrace => Some (deliver (VObj []) stk)
      | TStr k => Some (PObjColon [] k stk)
      | _ => None
      end
  | PObjKey fields stk =>
      match t with
      | TStr k => Some (PObjColon fields k stk)
      | _ => None
      end
  | PObjColon fields k stk =>
      match t with
      | TColon => Some (PValue (FObj fields k :: stk))
      | _ => None
      end
  | PObjNext fields stk =>
      match t with
      | TComma => Some (PObjKey fields stk)
      | TRBrace => Some (deliver (VObj fields) stk)
      | _ => None
      end
  | PDone _ => None
  end.

Fixpoint prun (st : pstate) (ts : list token) : option pstate :=
  match ts with
  | [] => Some st
  | t :: r =>
      match pstep st t with
      | Some st' => prun st' r
      | None => None
      end
  end.

(** [JSON.parse(text)]: the value, or a SyntaxError. *)
Definition parse (text : string) : outcome value :=
  match tokens text with
  | None => Throw SyntaxError
  | Some ts =>
      match prun (PValue []) ts with
      | Some (PDone v) => Ok v
      | _ => Throw SyntaxError
      end
  end.

End JSON.

(** ** String methods that count UTF-16 code units *)

Module JSString.

Import Chars.

(** The code units of the JavaScript string whose UTF-8 form is [s]; a byte
    that starts no well-formed sequence is passed through as one unit. *)
Fixpoint units (s : string) : list N :=
  match s with
  | EmptyString => []
  | String b0 r =>
      let n0 := code b0 in
      if N.ltb n0 128 then n0 :: units r
      else if N.ltb n0 192 then n0 :: units r
      else if N.ltb n0 224 then
        match r with
        | String b1 r1 => ((n0 - 192) * 64 + (code b1 - 128))%N :: units r1
        | _ => n0 :: units r
        end
      else if N.ltb n0 240 then
        match r with
        | String b1 (String b2 r2) =>
            ((n0 - 224) * 4096 + (code b1 - 128) * 64 + (code b2 - 128))%N
            :: units r2
        | _ => n0 :: units r
        end
      else
        match r with
        | String b1 (String b2 (String b3 r3)) =>
            let cp := ((n0 - 240) * 262144 + (code b1 - 128) * 4096
                       + (code b2 - 128) * 64 + (code b3 - 128))%N in
            (55296 + (cp - 65536) / 1024)%N
            :: (56320 + (cp - 65536) mod 1024)%N :: units r3
        | _ => n0 :: units r
        end
  end.

(** [s.length] *)
Definition length (s : string) : nat := List.length (units s).

(** The string made of the given code units. *)
Definition of_units (us : list N) : string :=
  string_of_chars (JSON.decode_items (map JSON.Unit16 us)).

(** [s.slice(0, n)] *)
Definition slice0 (n : nat) (s : string) : string :=
  of_units (firstn n (units s)).

(** White space and line terminators, as [trim] removes them. *)
Definition is_space (u : N) : bool :=
  ((N.leb 9 u && N.leb u 13) || N.eqb u 32 || N.eqb u 160 || N.eqb u 5760
   || (N.leb 8192 u && N.leb u 8202) || N.eqb u 8232 || N.eqb u 8233
   || N.eqb u 8239 || N.eqb u 8287 || N.eqb u 12288 || N.eqb u 65279)%bool.

(** [!s.trim()] *)
Definition blank (s : string) : bool := forallb is_space (units s).

End JSString.

(** ** The JavaScript operations the handlers use *)

Module JS.

(** [Boolean(v)] *)
Definition truthy (v : value) : bool :=
  match v with
  | VUndef | VNull => false
  | VBool b => b
  | VNum (Number m _) => negb (Z.eqb m 0)
  | VNum (Infinity _) => true
  | VStr s => negb (String.eqb s EmptyString)
  | VArr _ | VObj _ => true
  end.

(** [a || b] *)
Definition or_else (a b : value) : value := if truthy a then a else b.

Fixpoint lookup (fields : list (string * value)) (k : string) : value :=
  match fields with
  | [] => VUndef
  | (k', v) :: r => if String.eqb k' k then v else lookup r k
  end.

Definition is_nullish (v : value) : bool :=
  match v with
  | VUndef | VNull => true
  | _ => false
  end.

(** [v.k] for a key that no prototype defines, apart from [length]. *)
Definition get_prop (v : value) (k : string) : outcome value :=
  match v with
  | VUndef | VNull => Throw (TypeError ("cannot read property " ++ k))
  | VObj fields => Ok (lookup fields k)
  | VArr items =>
      Ok (if String.eqb k "length" then num_of_nat (List.length items)
          else VUndef)
  | VStr s =>
      Ok (if String.eqb k "length" then num_of_nat (JSString.length s)
          else VUndef)
  | VBool _ | VNum _ => Ok VUndef
  end.

(** [v[i]] *)
Definition get_index (v : value) (i : nat) : outcome value :=
  match v with
  | VUndef | VNull => Throw (TypeError "cannot read an index")
  | VObj fields => Ok (lookup fields (nat_to_string i))
  | VArr items => Ok (nth i items VUndef)
  | VStr s =>
      Ok (match nth_error (JSString.units s) i with
          | Some u => VStr (JSString.of_units [u])
          | None => VUndef
          end)
  | VBool _ | VNum _ => Ok VUndef
  end.

(** [v.k] and [v[0]] where they cannot throw: [undefined] on anything that
    is not an object, respectively an array. *)
Definition lookup_in (v : value) (k : string) : value :=
  match v with
  | VObj fields => lookup fields k
  | _ => VUndef
  end.

Definition first_item (v : value) : value :=
  match v with
  | VArr items => nth 0 items VUndef
  | _ => VUndef
  end.

(** [v?.k] and [v?.[i]] *)
Definition opt_prop (v : value) (k : string) : outcome value :=
  if is_nullish v then Ok VUndef else get_prop v k.

Definition opt_index (v : value) (i : nat) : outcome value :=
  if is_nullish v then Ok VUndef else get_index v i.

(** *** Number::toString *)

Definition digits_of (m : Z) : string :=
  NilEmpty.string_of_uint (N.to_uint (Z.to_N (Z.abs m))).

Fixpoint zeros (n : nat) : string :=
  match n with
  | O => EmptyString
  | S k => String "0" (zeros k)
  end.

(** The digits [s] with the decimal point after the first [n] of them. *)
Definition place_digits (s : string) (n : Z) : string :=
  let k := Z.of_nat (String.length s) in
  if (Z.leb k n && Z.leb n 21)%bool then s ++ zeros (Z.to_nat (n - k))
  else if (Z.ltb 0 n && Z.leb n 21)%bool then
    substring 0 (Z.to_nat n) s ++ "." ++
    substring (Z.to_nat n) (Z.to_nat (k - n)) s
  else if (Z.ltb (-6) n && Z.leb n 0)%bool then
    "0." ++ zeros (Z.to_nat (- n)) ++ s
  else
    let e := (n - 1)%Z in
    let es := (if Z.ltb e 0 then "-" else "+") ++ digits_of e in
    if Z.eqb k 1 then s ++ "e" ++ es
    else substring 0 1 s ++ "." ++
         substring 1 (Z.to_nat (k - 1)) s ++ "e" ++ es.

(** A [Number] that is a binary64 is its own Number value. *)
Definition number_to_string (x : number) : string :=
  let x :=
    match x with
    | Number m e => Binary64.of_decimal m e
    | Infinity _ => x
    end in
  match x with
  | Infinity negative => if negative then "-Infinity" else "Infinity"
  | Number m e =>
      if Z.eqb m 0 then "0" else
      let (s, n) := Binary64.shortest (Z.abs m) e in
      (if Z.ltb m 0 then "-" else EmptyString) ++ place_digits (digits_of s) n
  end.

Definition conversion_error : exn :=
  TypeError "cannot convert object to primitive value".

(** [String(v)], the conversion a template literal applies.  An object goes
    through its [toString]: the inherited one gives [[object Object]], and
    an own property of that name, which is never a function in a value that
    came out of [JSON.parse], leaves nothing to call ([valueOf] gives the
    object back), so the conversion throws.  An array joins the conversions
    of its items with commas, [null] and [undefined] as the empty string. *)
Fixpoint to_string (v : value) : outcome string :=
  match v with
  | VUndef => Ok "undefined"
  | VNull => Ok "null"
  | VBool true => Ok "true"
  | VBool false => Ok "false"
  | VNum n => Ok (number_to_string n)
  | VStr s => Ok s
  | VArr items =>
      obind
        ((fix each (l : list value) : outcome (list string) :=
            match l with
            | [] => Ok []
            | x :: r =>
                obind (if is_nullish x then Ok EmptyString else to_string x)
                  (fun s => obind (each r) (fun ss => Ok (s :: ss)))
            end) items)
        (fun ss => Ok (String.concat "," ss))
  | VObj fields =>
      if JSON.has_key fields "toString"
      then Throw conversion_error
      else Ok "[object Object]"
  end.

(** The values [String(v)] accepts. *)
Fixpoint printable (v : value) : bool :=
  match v with
  | VArr items => forallb printable items
  | VObj fields => negb (JSON.has_key fields "toString")
  | _ => true
  end.

(** No object anywhere in [v] has a key named [toString]. *)
Fixpoint no_own_toString (v : value) : bool :=
  match v with
  | VArr items => forallb no_own_toString items
  | VObj fields =>
      (negb (JSON.has_key fields "toString") &&
       forallb (fun kv => no_own_toString (snd kv)) fields)%bool
  | _ => true
  end.

(** *** Array methods *)

Fixpoint map_outcome {A B} (f : A -> outcome B) (l : list A)
  : outcome (list B) :=
  match l with
  | [] => Ok []
  | a :: r =>
      obind (f a) (fun b => obind (map_outcome f r) (fun bs => Ok (b :: bs)))
  end.

Fixpoint mapi_outcome {A B} (f : A -> nat -> outcome B) (i : nat) (l : list A)
  : outcome (list B) :=
  match l with
  | [] => Ok []
  | a :: r =>
      obind (f a i)
        (fun b => obind (mapi_outcome f (S i) r) (fun bs => Ok (b :: bs)))
  end.

(** [v.map(f)]: only an array has a callable [map]. *)
Definition array_map {B} (v : value) (f : value -> outcome B)
  : outcome (list B) :=
  match v with
  | VArr items => map_outcome f items
  | VUndef | VNull => Throw (TypeError "cannot read property map")
  | _ => Throw (TypeError "map is not a function")
  end.

(** [v.map((x, idx) => f x idx)] *)
Definition array_mapi {B} (v : value) (f : value -> nat -> outcome B)
  : outcome (list B) :=
  match v with
  | VArr items => mapi_outcome f 0 items
  | VUndef | VNull => Throw (TypeError "cannot read property map")
  | _ => Throw (TypeError "map is not a function")
  end.

(** [strings.join(sep)] *)
Definition join (sep : string) (l : list string) : string :=
  String.concat sep l.

(** *** The extraction regex

    [/\{[\s\S]*\}/] run by a backtracking matcher: the match starts at the
    leftmost [{] from which the rest of the pattern can succeed; the star is
    greedy, so it gives back characters only until a [}] follows. *)

Definition is_open (c : ascii) : bool := N.eqb (Chars.code c) 123.
Definition is_close (c : ascii) : bool := N.eqb (Chars.code c) 125.

(** [[\s\S]*\}] anchored at the start of [s]: the longest prefix of [s] that
    ends with [}]. *)
Fixpoint star_then_close (s : string) : option string :=
  match s with
  | EmptyString => None
  | String c r =>
      match star_then_close r with
      | Some p => Some (String c p)
      | None => if is_close c then Some (String c EmptyString) else None
      end
  end.

(** [s.match(/\{[\s\S]*\}/)]: [jsonMatch[0]] when there is a match, [None]
    for [null]. *)
Fixpoint regex_match (s : string) : option string :=
  match s with
  | EmptyString => None
  | String c r =>
      if is_open c then
        match star_then_close r with
        | Some p => Some (String c p)
        | None => regex_match r
        end
      else regex_match r
  end.

(** [content.match(re)] on whatever [content] is: only a string has a
    callable [match]. *)
Definition string_match (content : value) : outcome (option string) :=
  match content with
  | VStr s => Ok (regex_match s)
  | VUndef | VNull => Throw (TypeError "cannot read property match")
  | _ => Throw (TypeError "match is not a function")
  end.

End JS.

(** ** HTTP data and the platform the handlers run on *)

Record Request : Type := mkRequest {
  req_method : string;
  req_body : string
}.

(** The body of a [Response].  The handlers only ever send [null] or
    [JSON.stringify(x)]; [JsonBody x] stands for the latter.
    [EngineErrorBody e] stands for [JSON.stringify({ error: m })] where [m]
    is the message the engine gave to the exception [e] it raised. *)
Inductive payload : Type :=
| NoBody
| JsonBody (v : value)
| EngineErrorBody (e : exn).

Record Response : Type := mkResponse {
  resp_status : nat;
  resp_headers : list (string * string);
  resp_body : payload
}.

(** One entry of the [messages] array sent to the gateway. *)
Record chat_message : Type := mkMessage {
  role : value;
  content : value
}.

(** The arguments of the one [fetch] call. *)
Record gateway_request : Type := mkGatewayRequest {
  url : string;
  authorization : string;
  content_type : string;
  model : string;
  messages : list chat_message
}.

(** What [await fetch(...)] gives: a rejection, or a response with its status
    and its body text. *)
Inductive fetch_result : Type :=
| NetworkError
| Reply (status : nat) (text : string).

Record platform : Type := mkPlatform {
  gateway : gateway_request -> fetch_result;
  environment : string -> option string      (* [Deno.env.get] *)
}.

(** ** Handler computations

    A handler reads the platform, may throw, and leaves the list of gateway
    calls it made, oldest first. *)

Definition M (A : Type) : Type :=
  platform -> list gateway_request -> outcome A * list gateway_request.

Definition ret {A} (a : A) : M A := fun _ calls => (Ok a, calls).

Definition throw {A} (e : exn) : M A := fun _ calls => (Throw e, calls).

Definition bind {A B} (c : M A) (k : A -> M B) : M B :=
  fun p calls =>
    match c p calls with
    | (Ok a, calls') => k a p calls'
    | (Throw e, calls') => (Throw e, calls')
    end.

Definition lift {A} (c : outcome A) : M A := fun _ calls => (c, calls).

(** [try { c } catch (error) { h error }] *)
Definition try_catch {A} (c : M A) (h : exn -> M A) : M A :=
  fun p calls =>
    match c p calls with
    | (Ok a, calls') => (Ok a, calls')
    | (Throw e, calls') => h e p calls'
    end.

Definition otry {A} (c : outcome A) (h : exn -> outcome A) : outcome A :=
  match c with
  | Ok a => Ok a
  | Throw e => h e
  end.

Declare Scope handler_scope.
Delimit Scope handler_scope with handler.
Notation "x <- c ;; k" := (bind c (fun x => k))
  (at level 61, c at next level, right associativity) : handler_scope.
Declare Scope outcome_scope.
Delimit Scope outcome_scope with outcome.
Notation "x <- c ;; k" := (obind c (fun x => k))
  (at level 61, c at next level, right associativity) : outcome_scope.

(** [Deno.env.get(name)] *)
Definition env_get (name : string) : M (option string) :=
  fun p calls => (Ok (environment p name), calls).

(** [await fetch(url, init)] *)
Definition fetch (g : gateway_request) : M (nat * string) :=
  fun p calls =>
    match gateway p g with
    | NetworkError => (Throw (TypeError "fetch failed"), (calls ++ [g])%list)
    | Reply status text => (Ok (status, text), (calls ++ [g])%list)
    end.

(** [await req.json()] *)
Definition req_json (req : Request) : outcome value :=
  JSON.parse (req_body req).

(** ** What the five files share, each with its own copy *)

Definition q (s : string) : string := DQ ++ s ++ DQ.

Definition corsHeaders : list (string * string) :=
  [ ("Access-Control-Allow-Origin", "*");
    ("Access-Control-Allow-Headers",
     "authorization, x-client-info, apikey, content-type") ].

(** [{ ...corsHeaders, "Content-Type": "application/json" }] *)
Definition json_headers : list (string * string) :=
  (corsHeaders ++ [("Content-Type", "application/json")])%list.

(** [new Response(null, { headers: corsHeaders })] *)
Definition preflight : Response := mkResponse 200 corsHeaders NoBody.

Definition error_object (msg : string) : value :=
  VObj [("error", VStr msg)].

(** The 429 branch. *)
Definition rate_limited : Response :=
  mkResponse 429 json_headers
    (JsonBody (error_object "Rate limit exceeded. Please try again later.")).

(** The outer [catch]: every exception is an [Error], so the body carries
    its message. *)
Definition error_response (e : exn) : Response :=
  mkResponse 500 json_headers
    match e with
    | Error msg => JsonBody (error_object msg)
    | _ => EngineErrorBody e
    end.

Definition gateway_url : string :=
  "https://ai.gateway.lovable.dev/v1/chat/completions".

Definition chat_request (key : string) (msgs : list chat_message)
  : gateway_request :=
  mkGatewayRequest gateway_url ("Bearer " ++ key) "application/json"
    "google/gemini-2.5-flash" msgs.

(** [!LOVABLE_API_KEY] is false exactly for a non-empty string. *)
Definition configured (key : option string) : option string :=
  match key with
  | Some k => if String.eqb k EmptyString then None else Some k
  | None => None
  end.

(** [response.ok] *)
Definition response_ok (status : nat) : bool :=
  (Nat.leb 200 status && Nat.leb status 299)%bool.

(** [data.choices?.[0]?.message?.content] *)
Definition choice_content (data : value) : outcome value :=
  (choices <- JS.get_prop data "choices" ;;
   first <- JS.opt_index choices 0 ;;
   msg <- JS.opt_prop first "message" ;;
   JS.opt_prop msg "content")%outcome.

(** The same, with the empty string in place of a falsy value: the
    [content] of every handler. *)
Definition completion_content (data : value) : outcome value :=
  (c <- choice_content data ;;
   Ok (JS.or_else c (VStr EmptyString)))%outcome.

(** The [try]/[catch] around the regex and [JSON.parse], with the object of
    the [jsonMatch ? ... : ...] alternative and the object of the [catch]. *)
Definition extract_with (no_match on_throw : value) (content : value)
  : outcome value :=
  otry
    (jsonMatch <- JS.string_match content ;;
     match jsonMatch with
     | Some text => JSON.parse text
     | None => Ok no_match
     end)%outcome
    (fun _ => Ok on_throw).

Definition ok_response (result : value) : Response :=
  mkResponse 200 json_headers (JsonBody result).

(** ** ai-habit-insights *)

Module HabitInsights.

Definition systemPrompt : string :=
  "You are a supportive habit tracking coach. Analyze the user's habit data and provide personalized, actionable insights." ++ NL ++
  NL ++
  "Be encouraging but honest. Identify patterns, suggest improvements, and celebrate wins." ++ NL ++
  NL ++
  "Provide 2-4 specific insights in JSON format:" ++ NL ++
  "{" ++ NL ++
  "  " ++ q "insights" ++ ": [" ++ NL ++
  "    {" ++ NL ++
  "      " ++ q "type" ++ ": " ++ q "pattern" ++ " | " ++ q "suggestion" ++ " | " ++ q "encouragement" ++ "," ++ NL ++
  "      " ++ q "message" ++ ": " ++ q "Your insight here" ++ NL ++
  "    }" ++ NL ++
  "  ]," ++ NL ++
  "  " ++ q "overallScore" ++ ": 0-100," ++ NL ++
  "  " ++ q "topPerformingHabit" ++ ": " ++ q "habit name or null" ++ "," ++ NL ++
  "  " ++ q "needsAttention" ++ ": " ++ q "habit name or null" ++ NL ++
  "}".

(** [`- ${h.name} (${h.frequency})`] *)
Definition habit_line (h : value) : outcome string :=
  (name <- JS.get_prop h "name" ;;
   name <- JS.to_string name ;;
   frequency <- JS.get_prop h "frequency" ;;
   frequency <- JS.to_string frequency ;;
   Ok ("- " ++ name ++ " (" ++ frequency ++ ")"))%outcome.

Definition log_line (l : value) : outcome string :=
  (habit_name <- JS.get_prop l "habit_name" ;;
   habit_name <- JS.to_string habit_name ;;
   logged_at <- JS.get_prop l "logged_at" ;;
   logged_at <- JS.to_string logged_at ;;
   completed <- JS.get_prop l "completed" ;;
   notes <- JS.get_prop l "notes" ;;
   note <- (if JS.truthy notes
            then (notes <- JS.to_string notes ;; Ok (" - " ++ q notes))
            else Ok EmptyString) ;;
   Ok (habit_name ++ " on " ++ logged_at ++ ": " ++
       (if JS.truthy completed then "✓ Completed" else "✗ Missed") ++
       note))%outcome.

Definition userPrompt (habitsInfo logsInfo : string) : string :=
  let logsInfo_or_default :=
    if String.eqb logsInfo EmptyString then "No logs yet" else logsInfo in
  "Analyze these habit tracking patterns:" ++ NL ++
  NL ++
  "Habits being tracked:" ++ NL ++
  habitsInfo ++ NL ++
  NL ++
  "Recent activity (last 14 days):" ++ NL ++
  logsInfo_or_default ++ NL ++
  NL ++
  "Provide personalized insights.".

Definition build_messages (habits logs : value) : outcome (list chat_message) :=
  (habit_lines <- JS.array_map habits habit_line ;;
   log_lines <- JS.array_map logs log_line ;;
   Ok [ mkMessage (VStr "system") (VStr systemPrompt);
        mkMessage (VStr "user")
          (VStr (userPrompt (JS.join NL habit_lines) (JS.join NL log_lines))) ]
  )%outcome.

Definition fallback (content : value) : value :=
  VObj [("insights",
         VArr [VObj [("type", VStr "suggestion"); ("message", content)]])].

Definition extract (content : value) : outcome value :=
  extract_with (fallback content) (fallback content) content.

Definition handle_response (response : nat * string) : outcome Response :=
  let (status, text) := response in
  if negb (response_ok status) then
    if Nat.eqb status 429 then Ok rate_limited
    else Throw (Error ("AI gateway error: " ++ nat_to_string status))
  else
    (data <- JSON.parse text ;;
     content <- completion_content data ;;
     result <- extract content ;;
     Ok (ok_response result))%outcome.

Definition serve (req : Request) : M Response :=
  if String.eqb (req_method req) "OPTIONS" then ret preflight
  else
    try_catch
      (body <- lift (req_json req) ;;
       habits <- lift (JS.get_prop body "habits") ;;
       logs <- lift (JS.get_prop body "logs") ;;
       LOVABLE_API_KEY <- env_get "LOVABLE_API_KEY" ;;
       match configured LOVABLE_API_KEY with
       | None => throw (Error "LOVABLE_API_KEY is not configured")
       | Some key =>
           msgs <- lift (build_messages habits logs) ;;
           response <- fetch (chat_request key msgs) ;;
           lift (handle_response response)
       end)%handler
      (fun error => ret (error_response error)).

End HabitInsights.

(** ** ai-ats-optimizer *)

Module AtsOptimizer.

Definition systemPrompt : string :=
  "You are an ATS (Applicant Tracking System) expert. Analyze resumes for ATS compatibility and provide optimization suggestions." ++ NL ++
  NL ++
  "Evaluate:" ++ NL ++
  "1. Keyword optimization for the target role" ++ NL ++
  "2. Formatting and structure" ++ NL ++
  "3. Quantifiable achievements" ++ NL ++
  "4. Skills alignment" ++ NL ++
  NL ++
  "Respond in JSON format:" ++ NL ++
  "{" ++ NL ++
  "  " ++ q "score" ++ ": 0-100," ++ NL ++
  "  " ++ q "missingKeywords" ++ ": [" ++ q "keyword1" ++ ", " ++ q "keyword2" ++ "]," ++ NL ++
  "  " ++ q "weakSections" ++ ": [" ++ q "section1" ++ ", " ++ q "section2" ++ "]," ++ NL ++
  "  " ++ q "suggestions" ++ ": [" ++ NL ++
  "    {" ++ NL ++
  "      " ++ q "category" ++ ": " ++ q "keywords" ++ " | " ++ q "format" ++ " | " ++ q "content" ++ " | " ++ q "structure" ++ "," ++ NL ++
  "      " ++ q "priority" ++ ": " ++ q "high" ++ " | " ++ q "medium" ++ " | " ++ q "low" ++ "," ++ NL ++
  "      " ++ q "suggestion" ++ ": " ++ q "specific suggestion" ++ NL ++
  "    }" ++ NL ++
  "  ]," ++ NL ++
  "  " ++ q "optimizedSummary" ++ ": " ++ q "An ATS-optimized professional summary" ++ "," ++ NL ++
  "  " ++ q "optimizedBullets" ++ ": [" ++ q "optimized bullet 1" ++ ", " ++ q "optimized bullet 2" ++ "]" ++ NL ++
  "}".

Definition userPrompt (targetRole resumeContent : string) : string :=
  "Analyze this resume for the role: " ++ targetRole ++ NL ++
  NL ++
  "Resume Content:" ++ NL ++
  resumeContent ++ NL ++
  NL ++
  "Provide ATS analysis and optimization suggestions.".

Definition build_messages (resumeContent targetRole : value)
  : outcome (list chat_message) :=
  (targetRole <- JS.to_string targetRole ;;
   resumeContent <- JS.to_string resumeContent ;;
   Ok [ mkMessage (VStr "system") (VStr systemPrompt);
        mkMessage (VStr "user")
          (VStr (userPrompt targetRole resumeContent)) ])%outcome.

(** The object of the [jsonMatch ? ... : ...] alternative. *)
Definition no_match_object : value :=
  VObj [("score", num_of_nat 50); ("suggestions", VArr [])].

(** The object of the [catch]. *)
Definition fallback (content : value) : value :=
  VObj [("score", num_of_nat 50); ("suggestions", VArr []);
        ("rawAnalysis", content)].

Definition extract (content : value) : outcome value :=
  extract_with no_match_object (fallback content) content.

Definition handle_response (response : nat * string) : outcome Response :=
  let (status, text) := response in
  if negb (response_ok status) then
    if Nat.eqb status 429 then Ok rate_limited
    else Throw (Error ("AI gateway error: " ++ nat_to_string status))
  else
    (data <- JSON.parse text ;;
     content <- completion_content data ;;
     result <- extract content ;;
     Ok (ok_response result))%outcome.

Definition serve (req : Request) : M Response :=
  if String.eqb (req_method req) "OPTIONS" then ret preflight
  else
    try_catch
      (body <- lift (req_json req) ;;
       resumeContent <- lift (JS.get_prop body "resumeContent") ;;
       targetRole <- lift (JS.get_prop body "targetRole") ;;
       LOVABLE_API_KEY <- env_get "LOVABLE_API_KEY" ;;
       match configured LOVABLE_API_KEY with
       | None => throw (Error "LOVABLE_API_KEY is not configured")
       | Some key =>
           msgs <- lift (build_messages resumeContent targetRole) ;;
           response <- fetch (chat_request key msgs) ;;
           lift (handle_response response)
       end)%handler
      (fun error => ret (error_response error)).

End AtsOptimizer.

(** ** ai-support-chat *)

Module SupportChat.

(** [`- ${kb.title}: ${kb.content}`] *)
Definition kb_line (kb : value) : outcome string :=
  (title <- JS.get_prop kb "title" ;;
   title <- JS.to_string title ;;
   body <- JS.get_prop kb "content" ;;
   body <- JS.to_string body ;;
   Ok ("- " ++ title ++ ": " ++ body))%outcome.

Definition kbContext (knowledgeBase : value) : outcome string :=
  (len <- JS.opt_prop knowledgeBase "length" ;;
   if JS.truthy len then
     lines <- JS.array_map knowledgeBase kb_line ;;
     Ok (NL ++ "Knowledge Base:" ++ NL ++ JS.join NL lines)
   else Ok EmptyString)%outcome.

Definition systemPrompt (kbContext : string) : string :=
  "You are a helpful, professional customer support agent. Your goal is to:" ++ NL ++
  "1. Answer questions accurately using the provided knowledge base" ++ NL ++
  "2. Be friendly and empathetic" ++ NL ++
  "3. Escalate to a human when you cannot help" ++ NL ++
  "4. Create tickets for complex issues" ++ NL ++
  NL ++
  kbContext ++ NL ++
  NL ++
  "If you cannot answer from the knowledge base, politely say so and offer to escalate." ++ NL ++
  NL ++
  "Respond in JSON format:" ++ NL ++
  "{" ++ NL ++
  "  " ++ q "reply" ++ ": " ++ q "Your response to the customer" ++ "," ++ NL ++
  "  " ++ q "shouldEscalate" ++ ": false," ++ NL ++
  "  " ++ q "suggestedTicketPriority" ++ ": " ++ q "low" ++ " | " ++ q "medium" ++ " | " ++ q "high" ++ " | null," ++ NL ++
  "  " ++ q "sentiment" ++ ": " ++ q "positive" ++ " | " ++ q "neutral" ++ " | " ++ q "negative" ++ NL ++
  "}".

(** [({ role: msg.role, content: msg.content })] *)
Definition history_entry (msg : value) : outcome chat_message :=
  (r <- JS.get_prop msg "role" ;;
   c <- JS.get_prop msg "content" ;;
   Ok (mkMessage r c))%outcome.

Definition build_messages (message conversationHistory knowledgeBase : value)
  : outcome (list chat_message) :=
  (kb <- kbContext knowledgeBase ;;
   history <- JS.array_map (JS.or_else conversationHistory (VArr []))
                history_entry ;;
   Ok ([mkMessage (VStr "system") (VStr (systemPrompt kb))] ++ history ++
       [mkMessage (VStr "user") message])%list)%outcome.

Definition fallback (content : value) : value :=
  VObj [("reply", content); ("shouldEscalate", VBool false)].

Definition extract (content : value) : outcome value :=
  extract_with (fallback content) (fallback content) content.

Definition handle_response (response : nat * string) : outcome Response :=
  let (status, text) := response in
  if negb (response_ok status) then
    if Nat.eqb status 429 then Ok rate_limited
    else Throw (Error ("AI gateway error: " ++ nat_to_string status))
  else
    (data <- JSON.parse text ;;
     content <- completion_content data ;;
     result <- extract content ;;
     Ok (ok_response result))%outcome.

Definition serve (req : Request) : M Response :=
  if String.eqb (req_method req) "OPTIONS" then ret preflight
  else
    try_catch
      (body <- lift (req_json req) ;;
       message <- lift (JS.get_prop body "message") ;;
       conversationHistory <- lift (JS.get_prop body "conversationHistory") ;;
       knowledgeBase <- lift (JS.get_prop body "knowledgeBase") ;;
       LOVABLE_API_KEY <- env_get "LOVABLE_API_KEY" ;;
       match configured LOVABLE_API_KEY with
       | None => throw (Error "LOVABLE_API_KEY is not configured")
       | Some key =>
           msgs <- lift (build_messages message conversationHistory
                           knowledgeBase) ;;
           response <- fetch (chat_request key msgs) ;;
           lift (handle_response response)
       end)%handler
      (fun error => ret (error_response error)).

End SupportChat.

(** ** ai-knowledge-query *)

Module KnowledgeQuery.

(** [`[${idx + 1}] ${doc.title}:\n${doc.content}`] *)
Definition doc_entry (doc : value) (idx : nat) : outcome string :=
  (title <- JS.get_prop doc "title" ;;
   title <- JS.to_string title ;;
   body <- JS.get_prop doc "content" ;;
   body <- JS.to_string body ;;
   Ok ("[" ++ nat_to_string (idx + 1) ++ "] " ++ title ++ ":" ++
       NL ++ body))%outcome.

Definition docsContext (documents : value) : outcome string :=
  (len <- JS.opt_prop documents "length" ;;
   if JS.truthy len then
     entries <- JS.array_mapi documents doc_entry ;;
     Ok (JS.join (NL ++ NL) entries)
   else Ok "No documents available.")%outcome.

Definition systemPrompt (docsContext : string) : string :=
  "You are a knowledge assistant. Answer questions based on the provided documents." ++ NL ++
  NL ++
  "Rules:" ++ NL ++
  "1. Only use information from the provided documents" ++ NL ++
  "2. Cite sources using [1], [2], etc." ++ NL ++
  "3. If the answer isn't in the documents, say so clearly" ++ NL ++
  "4. Generate action items when relevant" ++ NL ++
  "5. Be concise but thorough" ++ NL ++
  NL ++
  "Documents:" ++ NL ++
  docsContext ++ NL ++
  NL ++
  "Respond in JSON format:" ++ NL ++
  "{" ++ NL ++
  "  " ++ q "answer" ++ ": " ++ q "Your answer with [citations]" ++ "," ++ NL ++
  "  " ++ q "citations" ++ ": [1, 2]," ++ NL ++
  "  " ++ q "summary" ++ ": " ++ q "Brief summary if applicable" ++ "," ++ NL ++
  "  " ++ q "actionItems" ++ ": [" ++ q "action 1" ++ ", " ++ q "action 2" ++ "]," ++ NL ++
  "  " ++ q "confidence" ++ ": " ++ q "high" ++ " | " ++ q "medium" ++ " | " ++ q "low" ++ NL ++
  "}".

Definition build_messages (query documents : value) : outcome (list chat_message) :=
  (docs <- docsContext documents ;;
   Ok [ mkMessage (VStr "system") (VStr (systemPrompt docs));
        mkMessage (VStr "user") query ])%outcome.

Definition fallback (content : value) : value :=
  VObj [("answer", content); ("citations", VArr []);
        ("confidence", VStr "medium")].

Definition extract (content : value) : outcome value :=
  extract_with (fallback content) (fallback content) content.

Definition handle_response (response : nat * string) : outcome Response :=
  let (status, text) := response in
  if negb (response_ok status) then
    if Nat.eqb status 429 then Ok rate_limited
    else Throw (Error ("AI gateway error: " ++ nat_to_string status))
  else
    (data <- JSON.parse text ;;
     content <- completion_content data ;;
     result <- extract content ;;
     Ok (ok_response result))%outcome.

Definition serve (req : Request) : M Response :=
  if String.eqb (req_method req) "OPTIONS" then ret preflight
  else
    try_catch
      (body <- lift (req_json req) ;;
       query <- lift (JS.get_prop body "query") ;;
       documents <- lift (JS.get_prop body "documents") ;;
       LOVABLE_API_KEY <- env_get "LOVABLE_API_KEY" ;;
       match configured LOVABLE_API_KEY with
       | None => throw (Error "LOVABLE_API_KEY is not configured")
       | Some key =>
           msgs <- lift (build_messages query documents) ;;
           response <- fetch (chat_request key msgs) ;;
           lift (handle_response response)
       end)%handler
      (fun error => ret (error_response error)).

End KnowledgeQuery.

(** ** ai-job-assistant *)

Module JobAssistant.

(** [settings?.k || fallback], as the template literal prints it *)
Definition setting (settings : value) (k fallback : string) : outcome string :=
  (v <- JS.opt_prop settings k ;;
   JS.to_string (JS.or_else v (VStr fallback)))%outcome.

Definition systemPrompt (coverLetterLength tone : string) : string :=
  "You are an expert career coach and resume writer. Help candidates create tailored job application materials." ++ NL ++
  NL ++
  "Given a resume and job description, generate:" ++ NL ++
  "1. 5-7 tailored resume bullet points highlighting relevant experience" ++ NL ++
  "2. A compelling cover letter (" ++ coverLetterLength ++ ")" ++ NL ++
  "3. A brief recruiter-friendly summary (2-3 sentences)" ++ NL ++
  NL ++
  "Use a " ++ tone ++ " tone. Be specific and quantify achievements where possible." ++ NL ++
  NL ++
  "Respond in JSON format:" ++ NL ++
  "{" ++ NL ++
  "  " ++ q "bullets" ++ ": [" ++ q "bullet1" ++ ", " ++ q "bullet2" ++ ", ...]," ++ NL ++
  "  " ++ q "coverLetter" ++ ": " ++ q "full cover letter text" ++ "," ++ NL ++
  "  " ++ q "summary" ++ ": " ++ q "brief summary" ++ NL ++
  "}".

Definition userPrompt (resumeContent jobDescription : string) : string :=
  "Resume Content:" ++ NL ++
  resumeContent ++ NL ++
  NL ++
  "Job Description:" ++ NL ++
  jobDescription ++ NL ++
  NL ++
  "Generate tailored application materials.".

Definition build_messages (resumeContent jobDescription settings : value)
  : outcome (list chat_message) :=
  (coverLetterLength <- setting settings "coverLetterLength" "3-4 paragraphs" ;;
   tone <- setting settings "tone" "professional" ;;
   resumeContent <- JS.to_string resumeContent ;;
   jobDescription <- JS.to_string jobDescription ;;
   Ok [ mkMessage (VStr "system")
          (VStr (systemPrompt coverLetterLength tone));
        mkMessage (VStr "user")
          (VStr (userPrompt resumeContent jobDescription)) ])%outcome.

Definition fallback (content : value) : value :=
  VObj [("bullets", VArr []); ("coverLetter", content); ("summary", VStr EmptyString)].

Definition extract (content : value) : outcome value :=
  extract_with (fallback content) (fallback content) content.

(** The 402 branch, which only this file has. *)
Definition credits_exhausted : Response :=
  mkResponse 402 json_headers
    (JsonBody (error_object "AI credits exhausted. Please add funds.")).

Definition handle_response (response : nat * string) : outcome Response :=
  let (status, text) := response in
  if negb (response_ok status) then
    if Nat.eqb status 429 then Ok rate_limited
    else if Nat.eqb status 402 then Ok credits_exhausted
    else Throw (Error ("AI gateway error: " ++ nat_to_string status))
  else
    (data <- JSON.parse text ;;
     content <- completion_content data ;;
     result <- extract content ;;
     Ok (ok_response result))%outcome.

Definition serve (req : Request) : M Response :=
  if String.eqb (req_method req) "OPTIONS" then ret preflight
  else
    try_catch
      (body <- lift (req_json req) ;;
       resumeContent <- lift (JS.get_prop body "resumeContent") ;;
       jobDescription <- lift (JS.get_prop body "jobDescription") ;;
       settings <- lift (JS.get_prop body "settings") ;;
       LOVABLE_API_KEY <- env_get "LOVABLE_API_KEY" ;;
       match configured LOVABLE_API_KEY with
       | None => throw (Error "LOVABLE_API_KEY is not configured")
       | Some key =>
           msgs <- lift (build_messages resumeContent jobDescription
                           settings) ;;
           response <- fetch (chat_request key msgs) ;;
           lift (handle_response response)
       end)%handler
      (fun error => ret (error_response error)).

End JobAssistant.

(** ** The five features together *)

Inductive feature : Type :=
| SupportChat | HabitInsights | KnowledgeQuery | AtsOptimizer | JobAssistant.

Definition serve (f : feature) : Request -> M Response :=
  match f with
  | SupportChat => SupportChat.serve
  | HabitInsights => HabitInsights.serve
  | KnowledgeQuery => KnowledgeQuery.serve
  | AtsOptimizer => AtsOptimizer.serve
  | JobAssistant => JobAssistant.serve
  end.

Definition extract (f : feature) : value -> outcome value :=
  match f with
  | SupportChat => SupportChat.extract
  | HabitInsights => HabitInsights.extract
  | KnowledgeQuery => KnowledgeQuery.extract
  | AtsOptimizer => AtsOptimizer.extract
  | JobAssistant => JobAssistant.extract
  end.

(** The object each file builds in its [catch]. *)
Definition fallback (f : feature) : value -> value :=
  match f with
  | SupportChat => SupportChat.fallback
  | HabitInsights => HabitInsights.fallback
  | KnowledgeQuery => KnowledgeQuery.fallback
  | AtsOptimizer => AtsOptimizer.fallback
  | JobAssistant => JobAssistant.fallback
  end.

(** What each file does with the awaited gateway response. *)
Definition handle_response (f : feature) : nat * string -> outcome Response :=
  match f with
  | SupportChat => SupportChat.handle_response
  | HabitInsights => HabitInsights.handle_response
  | KnowledgeQuery => KnowledgeQuery.handle_response
  | AtsOptimizer => AtsOptimizer.handle_response
  | JobAssistant => JobAssistant.handle_response
  end.

(** Running a handler on a request, from an empty call log. *)
Definition run (f : feature) (p : platform) (req : Request)
  : outcome Response * list gateway_request :=
  serve f req p [].

(** ** src/pages/HabitTracker.tsx: [toggleHabit] *)

Module HabitTracker.

Record Habit : Type := mkHabit {
  h_id : string;
  h_name : string;
  h_description : option string;
  h_frequency : string;
  h_color : string;
  h_created_at : string
}.

Record HabitLog : Type := mkHabitLog {
  l_id : string;
  l_habit_id : string;
  l_completed : bool;
  l_notes : option string;
  l_logged_at : string
}.

(** The two writes [toggleHabit] can send to the [habit_logs] table. *)
Inductive db_write : Type :=
| Update (log_id : string) (completed : bool)
| Insert (habit_id : string) (user_id : option string) (completed : bool)
         (logged_at : string).

(** [{ data, error }] as the awaited query resolves to. *)
Record db_result : Type := mkDbResult {
  data : option HabitLog;
  error : option string
}.

(** What the function does, in the order it does it.  [Write w] marks the
    point where the awaited write [w] has resolved. *)
Inductive event : Type :=
| Write (w : db_write)
| SetLogs (logs : list HabitLog)
| Toast (title description : string) (destructive : bool).

(** The values the closure of one render holds. *)
Record component : Type := mkComponent {
  habits : list Habit;
  logs : list HabitLog;
  user_id : option string
}.

Definition habit_title (hs : list Habit) (habitId : string) : string :=
  match find (fun h => String.eqb (h_id h) habitId) hs with
  | Some h => h_name h
  | None => "undefined"
  end ++ " completed!".

Definition toggleHabit (db : db_write -> db_result) (c : component)
    (today habitId : string) : list event :=
  let existingLog :=
    find (fun l => (String.eqb (l_habit_id l) habitId
                    && String.eqb (l_logged_at l) today)%bool) (logs c) in
  match existingLog with
  | Some existing =>
      let w := Update (l_id existing) (negb (l_completed existing)) in
      Write w ::
      match error (db w) with
      | Some _ => [Toast "Error" "Could not update habit" true]
      | None =>
          SetLogs
            (map (fun l =>
                    if String.eqb (l_id l) (l_id existing)
                    then mkHabitLog (l_id l) (l_habit_id l)
                           (negb (l_completed l)) (l_notes l) (l_logged_at l)
                    else l) (logs c)) ::
          (if negb (l_completed existing)
           then [Toast (habit_title (habits c) habitId)
                   "Keep up the great work!" false]
           else [])
      end
  | None =>
      let w := Insert habitId (user_id c) true today in
      Write w ::
      match error (db w) with
      | Some _ => [Toast "Error" "Could not log habit" true]
      | None =>
          match data (db w) with
          | Some row =>
              [SetLogs (logs c ++ [row])%list;
               Toast (habit_title (habits c) habitId)
                 "Keep up the great work!" false]
          | None => []
          end
      end
  end.

(** The [logs] state once the queued updates have been applied. *)
Fixpoint logs_after (current : list HabitLog) (evs : list event)
  : list HabitLog :=
  match evs with
  | [] => current
  | SetLogs l :: r => logs_after l r
  | _ :: r => logs_after current r
  end.

Definition is_set_logs (e : event) : bool :=
  match e with SetLogs _ => true | _ => false end.

Definition is_write (e : event) : bool :=
  match e with Write _ => true | _ => false end.

(** Does some [setLogs] come before the first resolved write? *)
Fixpoint sets_before_write (evs : list event) : bool :=
  match evs with
  | [] => false
  | Write _ :: _ => false
  | SetLogs _ :: r => existsb is_write r
  | _ :: r => sets_before_write r
  end.

(** Does some [setLogs] come after the first resolved write? *)
Fixpoint sets_after_write (evs : list event) : bool :=
  match evs with
  | [] => false
  | Write _ :: r => existsb is_set_logs r
  | _ :: r => sets_after_write r
  end.

End HabitTracker.

(** ** Texts, as the specification describes them *)

Module Text.

Fixpoint open_free (s : string) : bool :=
  match s with
  | EmptyString => true
  | String c r => (negb (JS.is_open c) && open_free r)%bool
  end.

Fixpoint close_free (s : string) : bool :=
  match s with
  | EmptyString => true
  | String c r => (negb (JS.is_close c) && close_free r)%bool
  end.

(** Neither [{] nor [}] occurs in [s]. *)
Definition brace_free (s : string) : bool :=
  (open_free s && close_free s)%bool.

(** Some [{] of [s] has a [}] somewhere after it. *)
Fixpoint has_pair (s : string) : bool :=
  match s with
  | EmptyString => false
  | String c r =>
      ((JS.is_open c && negb (close_free r)) || has_pair r)%bool
  end.

End Text.

(** ** The handlers, seen from outside

    What a handler does before its [fetch] and how it answers afterwards,
    written as plain functions; [run_unfold] below shows that every [serve]
    is their composition. *)

(** The first name of the destructuring pattern applied to the body. *)
Definition first_field (f : feature) : string :=
  match f with
  | SupportChat => "message"
  | HabitInsights => "habits"
  | KnowledgeQuery => "query"
  | AtsOptimizer => "resumeContent"
  | JobAssistant => "resumeContent"
  end.

Definition messages_of (f : feature) (body : value)
  : outcome (list chat_message) :=
  match f with
  | SupportChat =>
      (message <- JS.get_prop body "message" ;;
       conversationHistory <- JS.get_prop body "conversationHistory" ;;
       knowledgeBase <- JS.get_prop body "knowledgeBase" ;;
       SupportChat.build_messages message conversationHistory knowledgeBase
      )%outcome
  | HabitInsights =>
      (habits <- JS.get_prop body "habits" ;;
       logs <- JS.get_prop body "logs" ;;
       HabitInsights.build_messages habits logs)%outcome
  | KnowledgeQuery =>
      (query <- JS.get_prop body "query" ;;
       documents <- JS.get_prop body "documents" ;;
       KnowledgeQuery.build_messages query documents)%outcome
  | AtsOptimizer =>
      (resumeContent <- JS.get_prop body "resumeContent" ;;
       targetRole <- JS.get_prop body "targetRole" ;;
       AtsOptimizer.build_messages resumeContent targetRole)%outcome
  | JobAssistant =>
      (resumeContent <- JS.get_prop body "resumeContent" ;;
       jobDescription <- JS.get_prop body "jobDescription" ;;
       settings <- JS.get_prop body "settings" ;;
       JobAssistant.build_messages resumeContent jobDescription settings
      )%outcome
  end.

Definition api_key (env : string -> option string) : option string :=
  configured (env "LOVABLE_API_KEY").

(** Everything up to the [fetch]: the request to send, or the exception. *)
Definition prepare (f : feature) (env : string -> option string)
    (req : Request) : outcome gateway_request :=
  (body <- req_json req ;;
   if JS.is_nullish body
   then Throw (TypeError ("cannot read property " ++ first_field f))
   else
     match api_key env with
     | None => Throw (Error "LOVABLE_API_KEY is not configured")
     | Some key =>
         msgs <- messages_of f body ;;
         Ok (chat_request key msgs)
     end)%outcome.

(** Everything after the [fetch], outer [catch] included. *)
Definition answer (f : feature) (r : fetch_result) : Response :=
  match r with
  | NetworkError => error_response (TypeError "fetch failed")
  | Reply status text =>
      match handle_response f (status, text) with
      | Ok resp => resp
      | Throw e => error_response e
      end
  end.

(** ** Reading a response *)

(** The CORS headers among the headers of a response. *)
Definition cors_headers_of (resp : Response) : list (string * string) :=
  filter (fun h => prefix "Access-Control-" (fst h)) (resp_headers resp).

(** A body of the form [{"error": message}]. *)
Definition error_form (b : payload) : Prop :=
  match b with
  | JsonBody (VObj [(k, VStr _)]) => k = "error"
  | EngineErrorBody _ => True
  | _ => False
  end.

(** The field of a fallback object that carries the completion text. *)
Definition human_readable (f : feature) (result : value) : value :=
  match f with
  | SupportChat => JS.lookup_in result "reply"
  | HabitInsights =>
      JS.lookup_in (JS.first_item (JS.lookup_in result "insights")) "message"
  | KnowledgeQuery => JS.lookup_in result "answer"
  | AtsOptimizer => JS.lookup_in result "rawAnalysis"
  | JobAssistant => JS.lookup_in result "coverLetter"
  end.

(** ** Gateway bodies for the scenarios *)

Module Mock.

Fixpoint escape (s : string) : string :=
  match s with
  | EmptyString => EmptyString
  | String c r =>
      if (Ascii.eqb c Chars.dquote || Ascii.eqb c Chars.backslash)%bool
      then String Chars.backslash (String c (escape r))
      else String c (escape r)
  end.

(** A chat-completion body whose first choice has the given content. *)
Definition chat_completion (text : string) : string :=
  "{" ++ q "choices" ++ ":[{" ++ q "message" ++ ":{" ++
  q "role" ++ ":" ++ q "assistant" ++ "," ++
  q "content" ++ ":" ++ q (escape text) ++ "}}]}".

Definition env_with (key : option string) : string -> option string :=
  fun name => if String.eqb name "LOVABLE_API_KEY" then key else None.

(** A platform whose gateway gives the same answer to every call. *)
Definition platform_with (key : option string) (r : fetch_result)
  : platform :=
  mkPlatform (fun _ => r) (env_with key).

End Mock.

(** ** The scenarios of the specification *)

Module Scenario.

(** [{"habits":[{"name":"Meditate","frequency":"daily"}],
      "logs":[{"habit_name":"Meditate","logged_at":"2024-01-01",
               "completed":true}]}] *)
Definition habits_body : string :=
  "{" ++ q "habits" ++ ":[{" ++ q "name" ++ ":" ++ q "Meditate" ++ "," ++
  q "frequency" ++ ":" ++ q "daily" ++ "}]," ++
  q "logs" ++ ":[{" ++ q "habit_name" ++ ":" ++ q "Meditate" ++ "," ++
  q "logged_at" ++ ":" ++ q "2024-01-01" ++ "," ++
  q "completed" ++ ":true}]}".

(** The mocked completion of the habit-insights scenario. *)
Definition insights_completion : string :=
  "{" ++ q "insights" ++ ":[{" ++ q "type" ++ ":" ++ q "encouragement" ++
  "," ++ q "message" ++ ":" ++ q "Great job!" ++ "}]," ++
  q "overallScore" ++ ":80," ++
  q "topPerformingHabit" ++ ":" ++ q "Meditate" ++ "," ++
  q "needsAttention" ++ ":null}".

(** The object that completion denotes. *)
Definition insights_object : value :=
  VObj [ ("insights",
          VArr [VObj [("type", VStr "encouragement");
                      ("message", VStr "Great job!")]]);
         ("overallScore", num_of_nat 80);
         ("topPerformingHabit", VStr "Meditate");
         ("needsAttention", VNull) ].

Definition insights_user_prompt : string :=
  HabitInsights.userPrompt "- Meditate (daily)"
    "Meditate on 2024-01-01: ✓ Completed".

(** The completion of the ATS scenario. *)
Definition ats_completion : string := "Sure! Here's your analysis: not json".

Definition ats_body : string :=
  "{" ++ q "resumeContent" ++ ":" ++ q "Ten years of plumbing" ++ "," ++
  q "targetRole" ++ ":" ++ q "Plumber" ++ "}".

(** One request per feature that gets as far as the gateway call. *)
Definition request (f : feature) : Request :=
  mkRequest "POST"
    match f with
    | SupportChat => "{" ++ q "message" ++ ":" ++ q "hi" ++ "}"
    | HabitInsights => habits_body
    | KnowledgeQuery => "{" ++ q "query" ++ ":" ++ q "which?" ++ "}"
    | AtsOptimizer => ats_body
    | JobAssistant => "{}"
    end.

(** A completion cut off in the middle of its JSON. *)
Definition truncated_completion : string :=
  "{" ++ q "insights" ++ ": [{" ++ q "type" ++ ": " ++ q "pattern" ++ "}".

(** A habit-tracker screen with one habit and no log yet, and a database
    that refuses every write. *)
Definition screen : HabitTracker.component :=
  HabitTracker.mkComponent
    [HabitTracker.mkHabit "h1" "Meditate" None "daily" "#10b981" "2024-01-01"]
    [] (Some "u1").

Definition refusing_db (w : HabitTracker.db_write) : HabitTracker.db_result :=
  HabitTracker.mkDbResult None (Some "permission denied").

End Scenario.

(** ** Parser states reached inside an outermost object *)

Module Rooted.

Import JSON.

(** The outermost open container of the stack is an object. *)
Fixpoint in_object (stk : list frame) : bool :=
  match stk with
  | [] => false
  | fr :: r =>
      match r with
      | [] => match fr with FObj _ _ => true | FArr _ => false end
      | _ => in_object r
      end
  end.

(** The same for an object that is being read: it may itself be the
    outermost one. *)
Definition object_at (stk : list frame) : bool :=
  match stk with
  | [] => true
  | _ => in_object stk
  end.

Definition state_ok (st : pstate) : bool :=
  match st with
  | PValue stk | PArrFirst stk | PArrNext _ stk => in_object stk
  | PObjFirst stk | PObjKey _ stk | PObjColon _ _ stk | PObjNext _ stk =>
      object_at stk
  | PDone (VObj _) => true
  | PDone _ => false
  end.

End Rooted.

(** ** The lexer, one character at a time

    [JSON.lex] written as the fold of a transition function, to reason
    about the text that follows a complete value. *)

Module LexRun.

Import JSON Chars.

Definition lex_step (c : ascii) (m : lex_mode) (out : list token)
  : option (lex_mode * list token) :=
  match m with
  | LTop => top_step c out
  | LStr acc =>
      if N.eqb (code c) 34 then
        Some (LTop, TStr (string_of_chars (decode_items (rev acc))) :: out)
      else if N.eqb (code c) 92 then Some (LEsc acc, out)
      else if N.ltb (code c) 32 then None
      else Some (LStr (Raw c :: acc), out)
  | LEsc acc =>
      if N.eqb (code c) 117 then Some (LUni acc [], out)
      else
        match escape_char c with
        | Some e => Some (LStr (Raw e :: acc), out)
        | None => None
        end
  | LUni acc hex =>
      match hex_value c with
      | None => None
      | Some d =>
          match hex with
          | [_; _; _] => Some (LStr (Unit16 (hex4 (d :: hex)) :: acc), out)
          | _ => Some (LUni acc (d :: hex), out)
          end
      end
  | LNum acc =>
      if is_numchar c then Some (LNum (c :: acc), out)
      else
        match num_token acc with
        | None => None
        | Some t => top_step c (t :: out)
        end
  | LWord acc =>
      if is_lower c then Some (LWord (c :: acc), out)
      else
        match word_token acc with
        | None => None
        | Some t => top_step c (t :: out)
        end
  end.

Fixpoint lex_run (s : string) (m : lex_mode) (out : list token)
  : option (lex_mode * list token) :=
  match s with
  | EmptyString => Some (m, out)
  | String c r =>
      match lex_step c m out with
      | Some (m', out') => lex_run r m' out'
      | None => None
      end
  end.

(** Only white space. *)
Fixpoint blank (s : string) : bool :=
  match s with
  | EmptyString => true
  | String c r => (is_ws c && blank r)%bool
  end.

End LexRun.

(** ** src/pages/HabitTracker.tsx: what the screen derives from the logs *)

Module HabitView.

Import HabitTracker.

(** [l.habit_id === habitId && l.logged_at === day] *)
Definition on_day (habitId day : string) (l : HabitLog) : bool :=
  (String.eqb (l_habit_id l) habitId && String.eqb (l_logged_at l) day)%bool.

(** [getHabitCompletion]; [today] is the date part of
    [new Date().toISOString()]. *)
Definition getHabitCompletion (ls : list HabitLog) (today habitId : string)
  : bool :=
  match find (on_day habitId today) ls with
  | Some l => l_completed l
  | None => false
  end.

(** [getStreak].  [sort] is the engine's [Array.prototype.sort] with the
    comparator of the source; [day i] is the date string the loop computes
    for [i] days before the local midnight of today. *)
Section Streak.

Variable sort : list HabitLog -> list HabitLog.
Variable day : nat -> string.

Definition completed_logs (ls : list HabitLog) (habitId : string)
  : list HabitLog :=
  sort (filter (fun l => (String.eqb (l_habit_id l) habitId
                          && l_completed l)%bool) ls).

Definition logged_on (habitLogs : list HabitLog) (i : nat) : bool :=
  existsb (fun l => String.eqb (l_logged_at l) (day i)) habitLogs.

(** The [for] loop, with [fuel] iterations left. *)
Fixpoint streak_loop (habitLogs : list HabitLog) (fuel i streak : nat)
  : nat :=
  match fuel with
  | O => streak
  | S fuel' =>
      if logged_on habitLogs i
      then streak_loop habitLogs fuel' (S i) (S streak)
      else if Nat.ltb 0 i then streak
      else streak_loop habitLogs fuel' (S i) streak
  end.

Definition getStreak (ls : list HabitLog) (habitId : string) : nat :=
  let habitLogs := completed_logs ls habitId in
  if Nat.eqb (List.length habitLogs) 0 then 0
  else streak_loop habitLogs 30 0 0.

End Streak.

(** [l.id === id ? { ...l, completed: !l.completed } : l] *)
Definition flip_log (id : string) (l : HabitLog) : HabitLog :=
  if String.eqb (l_id l) id
  then mkHabitLog (l_id l) (l_habit_id l) (negb (l_completed l))
         (l_notes l) (l_logged_at l)
  else l.

(** Some completed log of the habit bears the date [d]. *)
Definition done_on (ls : list HabitLog) (habitId d : string) : bool :=
  existsb (fun l => (String.eqb (l_habit_id l) habitId && l_completed l
                     && String.eqb (l_logged_at l) d)%bool) ls.

(** The screen after the events of one [toggleHabit] have been applied. *)
Definition after_toggle (db : db_write -> db_result) (c : component)
    (today habitId : string) : component :=
  mkComponent (habits c)
    (logs_after (logs c) (toggleHabit db c today habitId))
    (user_id c).

(** A database that accepts every write and answers an insert with the row
    it has stored. *)
Definition stores_rows (db : db_write -> db_result) : Prop :=
  (forall w, error (db w) = None) /\
  (forall habitId user day,
     exists row,
       data (db (Insert habitId user true day)) = Some row /\
       l_habit_id row = habitId /\ l_logged_at row = day /\
       l_completed row = true).

(** Such a database, for the examples. *)
Definition accepting_db (w : db_write) : db_result :=
  match w with
  | Update _ _ => mkDbResult None None
  | Insert habitId _ completed day =>
      mkDbResult (Some (mkHabitLog "row-1" habitId completed None day)) None
  end.

End HabitView.

(** ** The support screen: [sendMessage] *)

Module SupportScreen.

(** A row of [support_conversations] as the screen holds it: the three
    fields the function reads, and every other column. *)
Record conversation : Type := mkConversation {
  conv_id : string;
  conv_subject : value;
  conv_messages : list value;
  conv_other : list (string * value)
}.

(** What a [catch] can receive here: an error object handed back by the
    client library, an [Error] built from [aiData.error], or a TypeError of
    the engine. *)
Inductive thrown : Type :=
| Rejected (error : value)
| BuiltError (message : string)
| EngineTypeError.

(** The [description] of the error toast: [error.message] or the default
    text; the message of an engine error is the engine's. *)
Inductive description : Type :=
| Text (v : value)
| EngineMessage.

Inductive event : Type :=
| SetActiveConversation (c : conversation)
| SetInputValue (s : string)
| SetIsSending (b : bool)
| Invoke (body : value)
| UpdateRow (id : string) (changes : list (string * value))
| SetConversations (updater : list conversation -> list conversation)
| Toast (title : string) (d : description).

(** [{ data, error }] of [supabase.functions.invoke]. *)
Record invoke_result : Type := mkInvokeResult {
  ai_data : value;
  ai_error : value
}.

Definition apology : string :=
  "I apologize, but I could not process your request. Please try again.".

Definition chat_entry (role content : value) (timestamp : string) : value :=
  VObj [("role", role); ("content", content); ("timestamp", VStr timestamp)].

(** [inputValue.slice(0, 50) + (inputValue.length > 50 ? '...' : '')] *)
Definition subject_of (inputValue : string) : string :=
  JSString.slice0 50 inputValue ++
  (if Nat.ltb 50 (JSString.length inputValue) then "..." else EmptyString).

(** [error.message || 'Failed to send message.'] *)
Definition describe (e : thrown) : description :=
  match e with
  | Rejected error =>
      Text (JS.or_else (JS.lookup_in error "message")
              (VStr "Failed to send message."))
  | BuiltError message =>
      Text (JS.or_else (VStr message) (VStr "Failed to send message."))
  | EngineTypeError => EngineMessage
  end.

(** [{ ...c, messages, subject, updated_at }] *)
Definition saved (c : conversation) (messages : list value) (subject : value)
    (updated_at : string) : conversation :=
  mkConversation (conv_id c) subject messages
    (JSON.obj_set (conv_other c) "updated_at" (VStr updated_at)).

Section SendMessage.

(** The platform: the edge function call, the table update (its [error]),
    and the four readings of the clock, in the order they are taken. *)
Variable invoke : value -> invoke_result.
Variable update : string -> list (string * value) -> value.
Variables t_user t_reply t_saved t_listed : string.

(** The [try] block: the events it got to, and how it ended. *)
Definition attempt (inputValue : string) (active : conversation)
    (updatedMessages : list value) : list event * option thrown :=
  let body := VObj [("messages", VArr updatedMessages);
                    ("conversationId", VStr (conv_id active))] in
  let r := invoke body in
  if JS.truthy (ai_error r) then ([Invoke body], Some (Rejected (ai_error r)))
  else
    match JS.get_prop (ai_data r) "error" with
    | Throw _ => ([Invoke body], Some EngineTypeError)
    | Ok err =>
        if JS.truthy err
        then ([Invoke body],
              Some match JS.to_string err with
                   | Ok message => BuiltError message
                   | Throw _ => EngineTypeError
                   end)
        else
          let aiMessage :=
            chat_entry (VStr "assistant")
              (JS.or_else (JS.lookup_in (ai_data r) "response")
                 (VStr apology))
              t_reply in
          let finalMessages := (updatedMessages ++ [aiMessage])%list in
          let newSubject :=
            if Nat.eqb (List.length (conv_messages active)) 0
            then VStr (subject_of inputValue)
            else conv_subject active in
          let changes := [("messages", VArr finalMessages);
                          ("subject", newSubject);
                          ("updated_at", VStr t_saved)] in
          let updateError := update (conv_id active) changes in
          if JS.truthy updateError
          then ([Invoke body; UpdateRow (conv_id active) changes],
                Some (Rejected updateError))
          else
            ([Invoke body; UpdateRow (conv_id active) changes;
              SetActiveConversation
                (mkConversation (conv_id active) newSubject finalMessages
                   (conv_other active));
              SetConversations
                (map (fun c =>
                        if String.eqb (conv_id c) (conv_id active)
                        then saved c finalMessages newSubject t_listed
                        else c))],
             None)
    end.

Definition sendMessage (inputValue : string) (activeConversation
    : option conversation) (isSending : bool) : list event :=
  match activeConversation with
  | None => []
  | Some active =>
      if (JSString.blank inputValue || isSending)%bool then []
      else
        let userMessage :=
          chat_entry (VStr "user") (VStr inputValue) t_user in
        let updatedMessages := (conv_messages active ++ [userMessage])%list in
        let (evs, failure) := attempt inputValue active updatedMessages in
        ([ SetActiveConversation
             (mkConversation (conv_id active) (conv_subject active)
                updatedMessages (conv_other active));
           SetInputValue EmptyString;
           SetIsSending true ] ++
         evs ++
         match failure with
         | Some e =>
             [ Toast "Error" (describe e);
               SetActiveConversation
                 (mkConversation (conv_id active) (conv_subject active)
                    (conv_messages active) (conv_other active)) ]
         | None => []
         end ++
         [SetIsSending false])%list
  end.

End SendMessage.

(** The state of the screen that [sendMessage] writes to. *)
Record screen : Type := mkScreen {
  activeConversation : option conversation;
  inputValue : string;
  isSending : bool;
  conversations : list conversation
}.

Definition apply_event (st : screen) (e : event) : screen :=
  match e with
  | SetActiveConversation c =>
      mkScreen (Some c) (inputValue st) (isSending st) (conversations st)
  | SetInputValue s =>
      mkScreen (activeConversation st) s (isSending st) (conversations st)
  | SetIsSending b =>
      mkScreen (activeConversation st) (inputValue st) b (conversations st)
  | SetConversations updater =>
      mkScreen (activeConversation st) (inputValue st) (isSending st)
        (updater (conversations st))
  | Invoke _ | UpdateRow _ _ | Toast _ _ => st
  end.

Definition apply_events (st : screen) (evs : list event) : screen :=
  fold_left apply_event evs st.

Definition toasts (evs : list event) : list description :=
  flat_map (fun e => match e with Toast _ d => [d] | _ => [] end) evs.

(** One click on send, from a screen state. *)
Definition click (invoke : value -> invoke_result)
    (update : string -> list (string * value) -> value)
    (t_user t_reply t_saved t_listed : string) (st : screen) : list event :=
  sendMessage invoke update t_user t_reply t_saved t_listed
    (inputValue st) (activeConversation st) (isSending st).

End SupportScreen.

(** ** A support conversation for the examples *)

Module SupportScenario.

Import SupportScreen.

Definition earlier : list value :=
  [ chat_entry (VStr "user") (VStr "Where is my order?") "t0";
    chat_entry (VStr "assistant") (VStr apology) "t0b" ].

Definition ticket : conversation :=
  mkConversation "c1" (VStr "Where is my order?") earlier
    [("status", VStr "open"); ("updated_at", VStr "t0b")].

Definition other_ticket : conversation :=
  mkConversation "c2" VNull [] [("status", VStr "open")].

Definition before : screen :=
  mkScreen (Some ticket) "Any news?" false [ticket; other_ticket].

(** The function call fails with a non-2xx status. *)
Definition failing_invoke (body : value) : invoke_result :=
  mkInvokeResult VNull
    (VObj [("message",
            VStr "Edge Function returned a non-2xx status code")]).

(** The function call hands back what the handler answers when the
    completion is not JSON. *)
Definition fallback_invoke (body : value) : invoke_result :=
  mkInvokeResult (SupportChat.fallback (VStr "It ships tomorrow.")) VNull.

Definition accepting_update (id : string) (changes : list (string * value))
  : value := VNull.

End SupportScenario.

(** ** Proof steps shared by the handler lemmas *)

Ltac innermost_case c :=
  lazymatch c with
  | context [match ?d with _ => _ end] => innermost_case d
  | _ => destruct c eqn:?
  end.

Ltac run_steps :=
  unfold try_catch, bind, lift, ret, throw, env_get, fetch;
  repeat
    (cbn [obind fst snd app];
     match goal with
     | |- context [match ?c with _ => _ end] => innermost_case c
     end);
  cbn [obind fst snd app]; try reflexivity; try congruence.

(** * Properties *)


(** ** The regex finds the first [{] through the last [}] *)

Lemma star_then_close_none (s : string) :
  Text.close_free s = true -> JS.star_then_close s = None.
Proof.
  induction s as [|c r IH]; simpl; intros H; [reflexivity|].
  apply andb_true_iff in H as [Hc Hr].
  rewrite (IH Hr).
  apply negb_true_iff in Hc. now rewrite Hc.
Qed.

Lemma star_then_close_some (s : string) :
  Text.close_free s = false -> exists p, JS.star_then_close s = Some p.
Proof.
  induction s as [|c r IH]; simpl; intros H; [discriminate|].
  destruct (JS.star_then_close r) as [p|] eqn:E.
  - now exists (String c p).
  - destruct (JS.is_close c) eqn:Hc.
    + now exists (String c EmptyString).
    + simpl in H. destruct (IH H) as [p Hp]. discriminate.
Qed.

Lemma star_then_close_spans (inner post : string) :
  Text.close_free post = true ->
  JS.star_then_close (inner ++ "}" ++ post) = Some (inner ++ "}").
Proof.
  intros Hpost. induction inner as [|c r IH]; simpl in *.
  - now rewrite (star_then_close_none post Hpost).
  - now rewrite IH.
Qed.

Lemma regex_match_skips (pre s : string) :
  Text.open_free pre = true ->
  JS.regex_match (pre ++ s) = JS.regex_match s.
Proof.
  induction pre as [|c r IH]; simpl; intros H; [reflexivity|].
  apply andb_true_iff in H as [Hc Hr].
  apply negb_true_iff in Hc. rewrite Hc. now apply IH.
Qed.

Lemma regex_match_object (pre inner post : string) :
  Text.open_free pre = true ->
  Text.close_free post = true ->
  JS.regex_match (pre ++ "{" ++ inner ++ "}" ++ post)
  = Some ("{" ++ inner ++ "}").
Proof.
  intros Hpre Hpost.
  rewrite (regex_match_skips _ _ Hpre).
  change ("{" ++ inner ++ "}" ++ post) with (String "{" (inner ++ "}" ++ post)).
  change ("{" ++ inner ++ "}") with (String "{" (inner ++ "}")).
  cbn [JS.regex_match].
  replace (JS.is_open "{") with true by reflexivity.
  now rewrite (star_then_close_spans inner post Hpost).
Qed.

(** The regex matches exactly when the text has a [{] with a [}] after it. *)
Lemma regex_match_none_iff (s : string) :
  JS.regex_match s = None <-> Text.has_pair s = false.
Proof.
  induction s as [|c r IH]; simpl; [tauto|].
  destruct (JS.is_open c) eqn:Hc; simpl.
  - destruct (Text.close_free r) eqn:Hr; simpl.
    + now rewrite (star_then_close_none r Hr).
    + destruct (star_then_close_some r Hr) as [p Hp]. rewrite Hp.
      split; discriminate.
  - exact IH.
Qed.

Lemma star_then_close_inv (s p : string) :
  JS.star_then_close s = Some p ->
  exists inner post,
    s = inner ++ "}" ++ post /\ p = inner ++ "}" /\
    Text.close_free post = true.
Proof.
  revert p. induction s as [|c r IH]; simpl; intros p H; [discriminate|].
  destruct (JS.star_then_close r) as [p'|] eqn:E.
  - injection H as <-. destruct (IH p' eq_refl) as (inner & post & -> & -> & Hp).
    exists (String c inner), post. repeat split; assumption.
  - destruct (JS.is_close c) eqn:Hc; [|discriminate]. injection H as <-.
    assert (c = "}"%char) as ->.
    { unfold JS.is_close, Chars.code in Hc. apply N.eqb_eq in Hc.
      rewrite <- (ascii_N_embedding c), Hc. reflexivity. }
    exists EmptyString, r. repeat split.
    destruct (Text.close_free r) eqn:Hr; [reflexivity|].
    destruct (star_then_close_some r Hr) as [p Hp]. congruence.
Qed.

(** What the regex returns is the stretch from the first [{] of the text to
    its last [}]. *)
Lemma regex_match_inv (s m : string) :
  JS.regex_match s = Some m ->
  exists pre inner post,
    s = pre ++ "{" ++ inner ++ "}" ++ post /\
    m = "{" ++ inner ++ "}" /\
    Text.open_free pre = true /\
    Text.close_free post = true.
Proof.
  revert m. induction s as [|c r IH]; simpl; intros m H; [discriminate|].
  destruct (JS.is_open c) eqn:Hc.
  - assert (c = "{"%char) as ->.
    { unfold JS.is_open, Chars.code in Hc. apply N.eqb_eq in Hc.
      rewrite <- (ascii_N_embedding c), Hc. reflexivity. }
    destruct (JS.star_then_close r) as [p|] eqn:E.
    + injection H as <-.
      destruct (star_then_close_inv r p E) as (inner & post & -> & -> & Hp).
      exists EmptyString, inner, post. repeat split; assumption.
    + destruct (IH m H) as (pre & inner & post & -> & -> & Hpre & Hpost).
      exfalso.
      assert (Hcf : Text.close_free (pre ++ "{" ++ inner ++ "}" ++ post)
                    = false).
      { clear. induction pre as [|a pre IHp]; simpl.
        - induction inner as [|b inner IHi]; simpl; [reflexivity|].
          simpl in IHi. rewrite IHi. apply andb_false_r.
        - simpl in IHp. rewrite IHp. apply andb_false_r. }
      destruct (star_then_close_some _ Hcf) as [p Hp]. congruence.
  - destruct (IH m H) as (pre & inner & post & -> & -> & Hpre & Hpost).
    exists (String c pre), inner, post. repeat split; try assumption.
    simpl. rewrite Hc, Hpre. reflexivity.
Qed.

(** ** A text between braces parses to an object or not at all *)

Lemma top_step_extends (c : ascii) (out out' : list JSON.token)
    (m : JSON.lex_mode) :
  JSON.top_step c out = Some (m, out') ->
  exists l, rev out' = (rev out ++ l)%list.
Proof.
  unfold JSON.top_step. intros H.
  repeat match type of H with
         | (if ?b then _ else _) = _ => destruct b
         end;
    try discriminate; injection H as <- <-;
    solve [ exists []; now rewrite app_nil_r
          | eexists; simpl; reflexivity ].
Qed.

Lemma lex_extends (s : string) :
  forall (m : JSON.lex_mode) (out ts : list JSON.token),
    JSON.lex s m out = Some ts -> exists l, ts = (rev out ++ l)%list.
Proof.
  induction s as [|c r IH]; intros m out ts H; simpl in H.
  - destruct m; try discriminate.
    + injection H as <-. exists []. now rewrite app_nil_r.
    + destruct (JSON.num_token acc); [|discriminate].
      injection H as <-. eexists. simpl. reflexivity.
    + destruct (JSON.word_token acc); [|discriminate].
      injection H as <-. eexists. simpl. reflexivity.
  - destruct m.
    + destruct (JSON.top_step c out) as [[m' out']|] eqn:E; [|discriminate].
      destruct (top_step_extends _ _ _ _ E) as [l1 Hl1].
      destruct (IH _ _ _ H) as [l2 ->]. rewrite Hl1, <- app_assoc. eauto.
    + destruct (N.eqb (Chars.code c) 34).
      * destruct (IH _ _ _ H) as [l ->]. simpl. rewrite <- app_assoc. eauto.
      * destruct (N.eqb (Chars.code c) 92); [now apply IH in H|].
        destruct (N.ltb (Chars.code c) 32); [discriminate|].
        now apply IH in H.
    + destruct (N.eqb (Chars.code c) 117); [now apply IH in H|].
      destruct (JSON.escape_char c); [now apply IH in H|discriminate].
    + destruct (Chars.hex_value c); [|discriminate].
      destruct hex as [|? [|? [|? [|? ?]]]]; now apply IH in H.
    + destruct (JSON.is_numchar c); [now apply IH in H|].
      destruct (JSON.num_token acc) as [t|]; [|discriminate].
      destruct (JSON.top_step c (t :: out)) as [[m' out']|] eqn:E;
        [|discriminate].
      destruct (top_step_extends _ _ _ _ E) as [l1 Hl1].
      destruct (IH _ _ _ H) as [l2 ->]. rewrite Hl1. simpl.
      rewrite <- !app_assoc. eauto.
    + destruct (Chars.is_lower c); [now apply IH in H|].
      destruct (JSON.word_token acc) as [t|]; [|discriminate].
      destruct (JSON.top_step c (t :: out)) as [[m' out']|] eqn:E;
        [|discriminate].
      destruct (top_step_extends _ _ _ _ E) as [l1 Hl1].
      destruct (IH _ _ _ H) as [l2 ->]. rewrite Hl1. simpl.
      rewrite <- !app_assoc. eauto.
Qed.

Lemma deliver_in_object (v : value) (stk : list JSON.frame) :
  Rooted.in_object stk = true -> Rooted.state_ok (JSON.deliver v stk) = true.
Proof.
  destruct stk as [|[items|fields key] [|fr r]]; simpl; intros H;
    try discriminate; try reflexivity; exact H.
Qed.

Lemma deliver_object_at (fields : list (string * value))
    (stk : list JSON.frame) :
  Rooted.object_at stk = true ->
  Rooted.state_ok (JSON.deliver (VObj fields) stk) = true.
Proof.
  destruct stk as [|fr r]; [reflexivity|]. apply deliver_in_object.
Qed.

Lemma start_value_ok (t : JSON.token) (stk : list JSON.frame)
    (st : JSON.pstate) :
  Rooted.in_object stk = true ->
  JSON.start_value t stk = Some st -> Rooted.state_ok st = true.
Proof.
  intros Hs H. destruct t; simpl in H; try discriminate;
    injection H as <-; try (now apply deliver_in_object).
  - simpl. destruct stk; [discriminate|exact Hs].
  - exact Hs.
Qed.

Lemma in_object_push_array (items : list value) (stk : list JSON.frame) :
  Rooted.in_object stk = true ->
  Rooted.in_object (JSON.FArr items :: stk) = true.
Proof. destruct stk; [discriminate|]. intros H. exact H. Qed.

Lemma in_object_push_object (fields : list (string * value)) (key : string)
    (stk : list JSON.frame) :
  Rooted.object_at stk = true ->
  Rooted.in_object (JSON.FObj fields key :: stk) = true.
Proof. destruct stk; [reflexivity|]. intros H. exact H. Qed.

Lemma pstep_ok (st st' : JSON.pstate) (t : JSON.token) :
  Rooted.state_ok st = true ->
  JSON.pstep st t = Some st' -> Rooted.state_ok st' = true.
Proof.
  intros Hs H. destruct st; simpl in Hs, H.
  - exact (start_value_ok t stk st' Hs H).
  - destruct t;
      try (apply (start_value_ok _ _ _ (in_object_push_array [] stk Hs) H)).
    injection H as <-. now apply deliver_in_object.
  - destruct t; try discriminate; injection H as <-.
    + now apply deliver_in_object.
    + exact (in_object_push_array rev_items stk Hs).
  - destruct t; try discriminate; injection H as <-.
    + now apply deliver_object_at.
    + exact Hs.
  - destruct t; try discriminate; injection H as <-. exact Hs.
  - destruct t; try discriminate; injection H as <-.
    exact (in_object_push_object fields key stk Hs).
  - destruct t; try discriminate; injection H as <-.
    + now apply deliver_object_at.
    + exact Hs.
  - discriminate.
Qed.

Lemma prun_ok (ts : list JSON.token) :
  forall st st',
    Rooted.state_ok st = true ->
    JSON.prun st ts = Some st' -> Rooted.state_ok st' = true.
Proof.
  induction ts as [|t r IH]; simpl; intros st st' Hs H.
  - now injection H as <-.
  - destruct (JSON.pstep st t) as [st1|] eqn:E; [|discriminate].
    exact (IH st1 st' (pstep_ok st st1 t Hs E) H).
Qed.

Lemma parse_braces_is_object (rest : string) (v : value) :
  JSON.parse ("{" ++ rest) = Ok v -> exists fields, v = VObj fields.
Proof.
  unfold JSON.parse, JSON.tokens. intros H.
  change (JSON.lex ("{" ++ rest) JSON.LTop [])
    with (JSON.lex rest JSON.LTop [JSON.TLBrace]) in H.
  destruct (JSON.lex rest JSON.LTop [JSON.TLBrace]) as [ts|] eqn:El;
    [|discriminate].
  destruct (lex_extends _ _ _ _ El) as [l ->]. simpl in H.
  destruct (JSON.prun (JSON.PObjFirst []) l) as [st|] eqn:Er; [|discriminate].
  destruct st; try discriminate. injection H as <-.
  assert (Hok : Rooted.state_ok (JSON.PDone v0) = true)
    by exact (prun_ok l (JSON.PObjFirst []) _ eq_refl Er).
  simpl in Hok. destruct v0; try discriminate. eauto.
Qed.

(** ** The extraction step *)

Lemma extract_unfold (f : feature) (content : value) :
  extract f content
  = match content with
    | VStr s =>
        match JS.regex_match s with
        | Some text =>
            match JSON.parse text with
            | Ok v => Ok v
            | Throw _ => Ok (fallback f content)
            end
        | None =>
            Ok (match f with
                | AtsOptimizer => AtsOptimizer.no_match_object
                | _ => fallback f content
                end)
        end
    | _ => Ok (fallback f content)
    end.
Proof.
  destruct f, content; try reflexivity;
    unfold extract, fallback, SupportChat.extract, HabitInsights.extract,
      KnowledgeQuery.extract, AtsOptimizer.extract, JobAssistant.extract,
      extract_with, JS.string_match; cbn [obind otry];
    (destruct (JS.regex_match s) as [text|]; [|reflexivity]);
    destruct (JSON.parse text); reflexivity.
Qed.

(** C1.  For every feature: when the completion text is one well-formed
    JSON object, written between braces, with prose before and after it that
    holds no brace, the extraction step returns the object that text
    denotes, whatever its fields are. *)
Theorem extract_returns_embedded_object
    (f : feature) (pre inner post : string) (v : value) :
  Text.brace_free pre = true ->
  Text.brace_free post = true ->
  JSON.parse ("{" ++ inner ++ "}") = Ok v ->
  extract f (VStr (pre ++ "{" ++ inner ++ "}" ++ post)) = Ok v /\
  exists fields, v = VObj fields.
Proof.
  intros Hpre Hpost Hparse.
  apply andb_true_iff in Hpre as [Hpre _].
  apply andb_true_iff in Hpost as [_ Hpost].
  split.
  - rewrite extract_unfold, (regex_match_object pre inner post Hpre Hpost).
    now rewrite Hparse.
  - exact (parse_braces_is_object (inner ++ "}") v Hparse).
Qed.

Lemma extract_returns_embedded_object_witness :
  Text.brace_free "Here is the result: " = true /\
  Text.brace_free " Let me know." = true /\
  extract KnowledgeQuery
    (VStr ("Here is the result: " ++ "{" ++
           (q "answer" ++ ": " ++ q "42" ++ ", " ++ q "extra" ++ ": [1, true]")
           ++ "}" ++ " Let me know."))
  = Ok (VObj [("answer", VStr "42");
              ("extra", VArr [num_of_nat 1; VBool true])]).
Proof.
  split; [reflexivity|]. split; [reflexivity|].
  apply (extract_returns_embedded_object KnowledgeQuery);
    vm_compute; reflexivity.
Defined.

Lemma get_prop_total (v : value) (k : string) :
  JS.is_nullish v = false -> exists x, JS.get_prop v k = Ok x.
Proof. destruct v; simpl; intros H; try discriminate; eauto. Qed.

Lemma opt_prop_total (v : value) (k : string) :
  exists x, JS.opt_prop v k = Ok x.
Proof.
  unfold JS.opt_prop. destruct (JS.is_nullish v) eqn:E; eauto.
  now apply get_prop_total.
Qed.

Lemma opt_index_total (v : value) (i : nat) :
  exists x, JS.opt_index v i = Ok x.
Proof.
  unfold JS.opt_index. destruct v; simpl; eauto.
Qed.

(** Once [data] is not [null], the optional chain cannot throw. *)
Lemma completion_content_total (data : value) :
  JS.is_nullish data = false -> exists c, completion_content data = Ok c.
Proof.
  intros H. unfold completion_content, choice_content.
  destruct (get_prop_total data "choices" H) as [choices ->]. cbn [obind].
  destruct (opt_index_total choices 0) as [first ->]. cbn [obind].
  destruct (opt_prop_total first "message") as [msg ->]. cbn [obind].
  destruct (opt_prop_total msg "content") as [c ->]. cbn [obind].
  eauto.
Qed.

Lemma extract_total (f : feature) (content : value) :
  exists v, extract f content = Ok v.
Proof.
  rewrite extract_unfold. destruct content; eauto.
  destruct (JS.regex_match s) as [text|]; eauto.
  destruct (JSON.parse text); eauto.
Qed.

Lemma handle_response_ok_unfold (f : feature) (status : nat) (text : string) :
  response_ok status = true ->
  handle_response f (status, text)
  = (data <- JSON.parse text ;;
     content <- completion_content data ;;
     result <- extract f content ;;
     Ok (ok_response result))%outcome.
Proof.
  intros H. destruct f; cbn; rewrite H; reflexivity.
Qed.

(** C3.  For every feature and every completion, the extraction step ends
    normally; when the regex finds a span and [JSON.parse] throws on it, the
    result is the object of the feature's [catch].  So a gateway response
    with a success status and a body that parses to something other than
    [null] is answered with status 200, never through the handler's outer
    [catch]. *)
Theorem extract_never_throws (f : feature) (content : value) :
  (exists v, extract f content = Ok v /\
     forall s text e,
       content = VStr s -> JS.regex_match s = Some text ->
       JSON.parse text = Throw e -> v = fallback f content) /\
  (forall status text data,
     response_ok status = true -> JSON.parse text = Ok data ->
     JS.is_nullish data = false ->
     exists result, handle_response f (status, text) = Ok (ok_response result)).
Proof.
  split.
  - rewrite extract_unfold. destruct content;
      try (eexists; split; [reflexivity|]; intros; discriminate).
    destruct (JS.regex_match s) as [text|] eqn:Em.
    + destruct (JSON.parse text) as [v|e] eqn:Ep.
      * exists v. split; [reflexivity|].
        intros s' t' e' Hs Hm Hp. injection Hs as <-.
        rewrite Em in Hm. injection Hm as <-. congruence.
      * eexists. split; [reflexivity|]. reflexivity.
    + eexists. split; [reflexivity|]. intros s' t' e' Hs Hm.
      injection Hs as <-. congruence.
  - intros status text data Hok Hp Hn.
    rewrite (handle_response_ok_unfold f status text Hok), Hp. cbn [obind].
    destruct (completion_content_total data Hn) as [c ->]. cbn [obind].
    destruct (extract_total f c) as [v ->]. cbn [obind]. eauto.
Qed.

(** ** Every [serve] is [prepare], one [fetch], [answer] *)

Lemma get_prop_nullish (v : value) (k : string) :
  JS.is_nullish v = true ->
  JS.get_prop v k = Throw (TypeError ("cannot read property " ++ k)).
Proof. destruct v; simpl; intros H; try discriminate; reflexivity. Qed.

Lemma run_unfold (f : feature) (p : platform) (req : Request) :
  run f p req
  = if String.eqb (req_method req) "OPTIONS" then (Ok preflight, [])
    else
      match prepare f (environment p) req with
      | Throw e => (Ok (error_response e), [])
      | Ok g => (Ok (answer f (gateway p g)), [g])
      end.
Proof.
  unfold run, prepare, answer, api_key.
  destruct (String.eqb (req_method req) "OPTIONS") eqn:Em.
  - destruct f; cbn [serve]; unfold SupportChat.serve, HabitInsights.serve,
      KnowledgeQuery.serve, AtsOptimizer.serve, JobAssistant.serve;
      rewrite Em; reflexivity.
  - destruct (req_json req) as [body|e] eqn:Eb; cbn [obind].
    + destruct (JS.is_nullish body) eqn:En.
      * destruct f; cbn [serve first_field];
          unfold SupportChat.serve, HabitInsights.serve,
            KnowledgeQuery.serve, AtsOptimizer.serve, JobAssistant.serve;
          rewrite Em; unfold try_catch, bind, lift at 1 2; rewrite Eb;
          unfold lift;
          rewrite (get_prop_nullish body _ En); reflexivity.
      * destruct f; cbn [serve messages_of handle_response];
          unfold SupportChat.serve, HabitInsights.serve,
            KnowledgeQuery.serve, AtsOptimizer.serve, JobAssistant.serve;
          rewrite Em; unfold try_catch at 1; unfold bind at 1, lift at 1;
          rewrite Eb;
          repeat match goal with
          | |- context [JS.get_prop body ?k] =>
              let x := fresh "x" in
              destruct (get_prop_total body k En) as [x ->]
          end;
          run_steps.
    + destruct f; cbn [serve];
        unfold SupportChat.serve, HabitInsights.serve,
          KnowledgeQuery.serve, AtsOptimizer.serve, JobAssistant.serve;
        rewrite Em; unfold try_catch, bind, lift at 1; rewrite Eb;
        reflexivity.
Qed.

Lemma run_called (f : feature) (p : platform) (req : Request)
    (resp : Response) (calls : list gateway_request) (g : gateway_request) :
  run f p req = (Ok resp, calls) -> In g calls ->
  calls = [g] /\ resp = answer f (gateway p g) /\
  prepare f (environment p) req = Ok g /\
  String.eqb (req_method req) "OPTIONS" = false.
Proof.
  rewrite run_unfold. intros H Hin.
  destruct (String.eqb (req_method req) "OPTIONS").
  - injection H as <- <-. destruct Hin.
  - destruct (prepare f (environment p) req) as [g'|e].
    + injection H as <- <-. destruct Hin as [->|[]]. repeat split.
    + injection H as <- <-. destruct Hin.
Qed.

(** A handler always produces a response, after at most one gateway call. *)
Lemma run_responds (f : feature) (p : platform) (req : Request) :
  exists resp calls,
    run f p req = (Ok resp, calls) /\ (calls = [] \/ exists g, calls = [g]).
Proof.
  rewrite run_unfold.
  destruct (String.eqb (req_method req) "OPTIONS"); [eauto|].
  destruct (prepare f (environment p) req); eauto 6.
Qed.

Lemma answer_429 (f : feature) (text : string) :
  answer f (Reply 429 text) = rate_limited.
Proof. destruct f; reflexivity. Qed.

(** When the method is not OPTIONS and the request gets as far as the call,
    the run is that one call and the answer to what the gateway gave. *)
Lemma run_prepared (f : feature) (p : platform) (req : Request)
    (g : gateway_request) :
  req_method req <> "OPTIONS" ->
  prepare f (environment p) req = Ok g ->
  run f p req = (Ok (answer f (gateway p g)), [g]).
Proof.
  intros Hm Hp. apply String.eqb_neq in Hm.
  now rewrite run_unfold, Hm, Hp.
Qed.

(** C5.  In each of the five handlers, whenever the request gets as far as
    the gateway call and the gateway answers with status 429, the handler
    answers with status 429 and the body
    [{"error": "Rate limit exceeded. Please try again later."}], after that
    one call. *)
Theorem rate_limit_is_relayed
    (f : feature) (p : platform) (req : Request)
    (g : gateway_request) (text : string) :
  req_method req <> "OPTIONS" ->
  prepare f (environment p) req = Ok g ->
  gateway p g = Reply 429 text ->
  run f p req
  = (Ok (mkResponse 429 json_headers
           (JsonBody
              (VObj [("error",
                      VStr "Rate limit exceeded. Please try again later.")]))),
     [g]).
Proof.
  intros Hm Hp Hg.
  rewrite (run_prepared f p req g Hm Hp), Hg, answer_429. reflexivity.
Qed.

Lemma rate_limit_is_relayed_witness :
  let p := Mock.platform_with (Some "key") (Reply 429 "slow down") in
  let answered :=
    mkResponse 429 json_headers
      (JsonBody
         (VObj [("error",
                 VStr "Rate limit exceeded. Please try again later.")])) in
  (exists g, run SupportChat p (Scenario.request SupportChat)
             = (Ok answered, [g])) /\
  (exists g, run HabitInsights p (Scenario.request HabitInsights)
             = (Ok answered, [g])) /\
  (exists g, run KnowledgeQuery p (Scenario.request KnowledgeQuery)
             = (Ok answered, [g])) /\
  (exists g, run AtsOptimizer p (Scenario.request AtsOptimizer)
             = (Ok answered, [g])) /\
  (exists g, run JobAssistant p (Scenario.request JobAssistant)
             = (Ok answered, [g])).
Proof.
  intros p answered.
  repeat split; eexists;
    (eapply (rate_limit_is_relayed _ p _ _ "slow down");
     [ intros H; vm_compute in H; discriminate H
     | vm_compute; reflexivity
     | reflexivity ]).
Defined.

Lemma answer_402_job_assistant (text : string) :
  answer JobAssistant (Reply 402 text) = JobAssistant.credits_exhausted.
Proof. reflexivity. Qed.

Lemma answer_402_elsewhere (f : feature) (text : string) :
  f <> JobAssistant ->
  answer f (Reply 402 text) = error_response (Error "AI gateway error: 402").
Proof. destruct f; intros H; try reflexivity. now elim H. Qed.

(** C6.  Whenever the request gets as far as the gateway call and the
    gateway answers with status 402, the job assistant answers with status
    402 and [{"error": "AI credits exhausted. Please add funds."}]; no other
    handler does: each of the other four throws the generic
    [AI gateway error: 402] and answers 500. *)
Theorem payment_required_only_in_job_assistant
    (f : feature) (p : platform) (req : Request)
    (g : gateway_request) (text : string) :
  req_method req <> "OPTIONS" ->
  prepare f (environment p) req = Ok g ->
  gateway p g = Reply 402 text ->
  (f = JobAssistant ->
   run f p req
   = (Ok (mkResponse 402 json_headers
            (JsonBody
               (VObj [("error",
                       VStr "AI credits exhausted. Please add funds.")]))),
      [g])) /\
  (f <> JobAssistant ->
   run f p req
   = (Ok (mkResponse 500 json_headers
            (JsonBody (VObj [("error", VStr "AI gateway error: 402")]))),
      [g])).
Proof.
  intros Hm Hp Hg.
  rewrite (run_prepared f p req g Hm Hp), Hg. split.
  - intros ->. now rewrite answer_402_job_assistant.
  - intros Hf. now rewrite (answer_402_elsewhere f text Hf).
Qed.

Lemma payment_required_only_in_job_assistant_witness :
  let p := Mock.platform_with (Some "key") (Reply 402 "payment required") in
  let refused :=
    mkResponse 500 json_headers
      (JsonBody (VObj [("error", VStr "AI gateway error: 402")])) in
  (exists g, run JobAssistant p (Scenario.request JobAssistant)
             = (Ok (mkResponse 402 json_headers
                      (JsonBody
                         (VObj [("error",
                                 VStr "AI credits exhausted. Please add funds.")]))),
                [g])) /\
  (exists g, run SupportChat p (Scenario.request SupportChat)
             = (Ok refused, [g])) /\
  (exists g, run HabitInsights p (Scenario.request HabitInsights)
             = (Ok refused, [g])) /\
  (exists g, run KnowledgeQuery p (Scenario.request KnowledgeQuery)
             = (Ok refused, [g])) /\
  (exists g, run AtsOptimizer p (Scenario.request AtsOptimizer)
             = (Ok refused, [g])).
Proof.
  intros p refused. split.
  - eexists.
    refine (proj1 (payment_required_only_in_job_assistant JobAssistant p
                     (Scenario.request JobAssistant) _ "payment required"
                     _ _ eq_refl) eq_refl).
    + intros H; vm_compute in H; discriminate H.
    + vm_compute; reflexivity.
  - repeat split; eexists;
      (refine (proj2 (payment_required_only_in_job_assistant _ p _ _
                        "payment required" _ _ eq_refl) _);
       [ intros H; vm_compute in H; discriminate H
       | vm_compute; reflexivity
       | discriminate ]).
Defined.

Lemma prepare_without_key (f : feature) (env : string -> option string)
    (req : Request) :
  env "LOVABLE_API_KEY" = None ->
  exists e,
    prepare f env req = Throw e /\
    forall body,
      JSON.parse (req_body req) = Ok body -> JS.is_nullish body = false ->
      e = Error "LOVABLE_API_KEY is not configured".
Proof.
  intros Hkey. unfold prepare, api_key, req_json. rewrite Hkey.
  destruct (JSON.parse (req_body req)) as [body|e]; cbn [obind configured].
  - destruct (JS.is_nullish body) eqn:En.
    + eexists. split; [reflexivity|]. intros b Hb. injection Hb as <-.
      congruence.
    + eexists. split; [reflexivity|]. reflexivity.
  - exists e. split; [reflexivity|]. intros b Hb. discriminate.
Qed.

Lemma error_response_form (e : exn) :
  resp_status (error_response e) = 500 /\
  resp_headers (error_response e) = json_headers /\
  error_form (resp_body (error_response e)).
Proof. destruct e; repeat split. Qed.

(** C7, as the code has it.  When [LOVABLE_API_KEY] is absent from the
    environment, each of the five handlers answers every POST request with
    status 500 and a body of the form [{"error": ...}], and makes no gateway
    call.  The message is [LOVABLE_API_KEY is not configured] whenever the
    request body is JSON for something other than [null]; a request whose
    body cannot be read fails before the credential is looked at. *)
Theorem missing_key_answers_500_without_call
    (f : feature) (p : platform) (req : Request) :
  environment p "LOVABLE_API_KEY" = None ->
  req_method req = "POST" ->
  exists resp,
    run f p req = (Ok resp, []) /\
    resp_status resp = 500 /\
    error_form (resp_body resp) /\
    (forall body,
       JSON.parse (req_body req) = Ok body -> JS.is_nullish body = false ->
       resp_body resp
       = JsonBody (VObj [("error", VStr "LOVABLE_API_KEY is not configured")])).
Proof.
  intros Hkey Hm. rewrite run_unfold, Hm.
  change (String.eqb "POST" "OPTIONS") with false. cbv iota.
  destruct (prepare_without_key f (environment p) req Hkey) as (e & -> & He).
  exists (error_response e).
  destruct (error_response_form e) as (Hs & _ & Hf).
  repeat split; auto.
  intros body Hb Hn. now rewrite (He body Hb Hn).
Qed.

Lemma missing_key_answers_500_without_call_witness :
  let p := Mock.platform_with None (Reply 200 "{}") in
  let req := mkRequest "POST" ("{" ++ q "query" ++ ": " ++ q "hello" ++ "}") in
  exists resp,
    run KnowledgeQuery p req = (Ok resp, []) /\
    resp_status resp = 500 /\
    resp_body resp
    = JsonBody (VObj [("error", VStr "LOVABLE_API_KEY is not configured")]).
Proof.
  intros p req.
  destruct (missing_key_answers_500_without_call KnowledgeQuery p req
              eq_refl eq_refl) as (resp & Hrun & Hs & _ & Hbody).
  exists resp. repeat split; auto.
  apply (Hbody (VObj [("query", VStr "hello")])); vm_compute; reflexivity.
Defined.

(** C7, as stated, fails on a request whose body is not JSON: the handler
    still answers 500 without calling the gateway, but the exception it
    reports is the SyntaxError of [req.json()], not the configuration error. *)
Lemma missing_key_unreadable_body_counterexample :
  environment (Mock.platform_with None NetworkError) "LOVABLE_API_KEY" = None /\
  run HabitInsights (Mock.platform_with None NetworkError)
    (mkRequest "POST" "not json")
  = (Ok (mkResponse 500 json_headers (EngineErrorBody SyntaxError)), []) /\
  EngineErrorBody SyntaxError
  <> JsonBody (VObj [("error", VStr "LOVABLE_API_KEY is not configured")]).
Proof.
  split; [reflexivity|]. split; [vm_compute; reflexivity|]. discriminate.
Qed.

Lemma handle_response_headers (f : feature) (x : nat * string)
    (resp : Response) :
  handle_response f x = Ok resp -> resp_headers resp = json_headers.
Proof.
  destruct x as [status text].
  destruct f; cbn [handle_response];
    unfold SupportChat.handle_response, HabitInsights.handle_response,
      KnowledgeQuery.handle_response, AtsOptimizer.handle_response,
      JobAssistant.handle_response;
    unfold obind;
    repeat
      (cbn [negb];
       match goal with
       | |- context [match ?c with _ => _ end] => innermost_case c
       end);
    cbn [negb]; intros H; try discriminate; injection H as <-;
    reflexivity.
Qed.

Lemma answer_headers (f : feature) (r : fetch_result) :
  resp_headers (answer f r) = json_headers.
Proof.
  destruct r as [|status text]; [reflexivity|]. unfold answer.
  destruct (handle_response f (status, text)) as [resp|e] eqn:E.
  - exact (handle_response_headers f _ resp E).
  - reflexivity.
Qed.

(** C8, as the code has it.  In each of the five handlers an OPTIONS request
    is answered with status 200, no body and the two CORS headers of the
    file's [corsHeaders]; every response to any other request, whatever its
    status, carries the same two CORS headers. *)
Theorem cors_on_every_response
    (f : feature) (p : platform) (req : Request) :
  (req_method req = "OPTIONS" ->
   run f p req
   = (Ok (mkResponse 200
            [ ("Access-Control-Allow-Origin", "*");
              ("Access-Control-Allow-Headers",
               "authorization, x-client-info, apikey, content-type") ]
            NoBody), [])) /\
  (forall resp calls,
     run f p req = (Ok resp, calls) ->
     cors_headers_of resp
     = [ ("Access-Control-Allow-Origin", "*");
         ("Access-Control-Allow-Headers",
          "authorization, x-client-info, apikey, content-type") ]).
Proof.
  rewrite run_unfold. split.
  - intros ->. reflexivity.
  - intros resp calls H. unfold cors_headers_of.
    destruct (String.eqb (req_method req) "OPTIONS").
    + injection H as <- <-. reflexivity.
    + destruct (prepare f (environment p) req) as [g|e];
        injection H as <- <-.
      * rewrite answer_headers. reflexivity.
      * destruct (error_response_form e) as (_ & -> & _). reflexivity.
Qed.

Lemma cors_on_every_response_witness :
  let p := Mock.platform_with (Some "key") (Reply 503 "unavailable") in
  let g := chat_request "key"
             [ mkMessage (VStr "system") (VStr (SupportChat.systemPrompt EmptyString));
               mkMessage (VStr "user") (VStr "hi") ] in
  run SupportChat p (mkRequest "OPTIONS" EmptyString) = (Ok preflight, []) /\
  cors_headers_of (error_response (Error "AI gateway error: 503"))
  = corsHeaders.
Proof.
  intros p g. split.
  - exact (proj1 (cors_on_every_response SupportChat p
                    (mkRequest "OPTIONS" EmptyString)) eq_refl).
  - refine (proj2 (cors_on_every_response SupportChat p
             (mkRequest "POST" ("{" ++ q "message" ++ ":" ++ q "hi" ++ "}")))
             _ [g] _).
    vm_compute. reflexivity.
Defined.

(** C8, as stated, speaks of three CORS headers: the response to an OPTIONS
    request carries two. *)
Lemma preflight_cors_headers_counterexample :
  run HabitInsights (Mock.platform_with (Some "key") NetworkError)
    (mkRequest "OPTIONS" EmptyString)
  = (Ok (mkResponse 200
           [ ("Access-Control-Allow-Origin", "*");
             ("Access-Control-Allow-Headers",
              "authorization, x-client-info, apikey, content-type") ]
           NoBody), []) /\
  List.length
    (cors_headers_of
       (mkResponse 200
          [ ("Access-Control-Allow-Origin", "*");
            ("Access-Control-Allow-Headers",
             "authorization, x-client-info, apikey, content-type") ]
          NoBody)) <> 3.
Proof. split; [reflexivity|]. vm_compute. discriminate. Qed.

(** ** A success body without a completion *)

Lemma extract_empty (f : feature) :
  extract f (VStr EmptyString)
  = Ok (match f with
        | AtsOptimizer => AtsOptimizer.no_match_object
        | _ => fallback f (VStr EmptyString)
        end).
Proof. now rewrite extract_unfold. Qed.

Lemma or_else_falsy (c : value) :
  JS.truthy c = false ->
  JS.or_else c (VStr EmptyString) = VStr EmptyString.
Proof. unfold JS.or_else. now intros ->. Qed.

(** C10, as the code has it.  In each of the five handlers, when the gateway
    answers 200 with a body that is JSON for something other than [null] and
    [choices[0].message.content] is missing from it or is falsy, the
    completion is taken to be the empty string and the answer has status 200
    and a JSON object as body; for support chat, habit insights, knowledge
    query and job assistant that object is the feature's fallback, with the
    empty string in its human-readable field; for the ATS optimizer it is
    [{"score": 50, "suggestions": []}]. *)
Theorem missing_content_is_answered_200
    (f : feature) (p : platform) (req : Request)
    (g : gateway_request) (text : string) (data c : value) :
  req_method req <> "OPTIONS" ->
  prepare f (environment p) req = Ok g ->
  gateway p g = Reply 200 text ->
  JSON.parse text = Ok data ->
  choice_content data = Ok c ->
  JS.truthy c = false ->
  completion_content data = Ok (VStr EmptyString) /\
  exists fields,
    run f p req
    = (Ok (mkResponse 200 json_headers (JsonBody (VObj fields))), [g]) /\
    (f = AtsOptimizer ->
     fields = [("score", num_of_nat 50); ("suggestions", VArr [])]) /\
    (f <> AtsOptimizer ->
     VObj fields = fallback f (VStr EmptyString) /\
     human_readable f (VObj fields) = VStr EmptyString).
Proof.
  intros Hm Hprep Hg Hp Hc Hfalsy.
  assert (Hcc : completion_content data = Ok (VStr EmptyString)).
  { unfold completion_content. rewrite Hc. cbn [obind].
    now rewrite (or_else_falsy c Hfalsy). }
  split; [exact Hcc|].
  rewrite (run_prepared f p req g Hm Hprep), Hg. unfold answer.
  rewrite (handle_response_ok_unfold f 200 text eq_refl), Hp. cbn [obind].
  rewrite Hcc. cbn [obind]. rewrite extract_empty. cbn [obind].
  destruct f; eexists; (split; [reflexivity|]); split;
    intros Hf; try discriminate Hf; try (now elim Hf);
    try reflexivity; split; reflexivity.
Qed.

Lemma missing_content_is_answered_200_witness :
  let p := Mock.platform_with (Some "key")
             (Reply 200 ("{" ++ q "choices" ++ ":[]}")) in
  let answered (result : value) :=
    mkResponse 200 json_headers (JsonBody result) in
  (exists g, run SupportChat p (Scenario.request SupportChat)
             = (Ok (answered (VObj [("reply", VStr EmptyString);
                                    ("shouldEscalate", VBool false)])),
                [g])) /\
  (exists g, run AtsOptimizer p (Scenario.request AtsOptimizer)
             = (Ok (answered (VObj [("score", num_of_nat 50);
                                    ("suggestions", VArr [])])),
                [g])).
Proof.
  intros p answered. split.
  - destruct (proj2 (missing_content_is_answered_200 SupportChat p
                       (Scenario.request SupportChat)
                       (chat_request "key"
                          [ mkMessage (VStr "system")
                              (VStr (SupportChat.systemPrompt EmptyString));
                            mkMessage (VStr "user") (VStr "hi") ])
                       ("{" ++ q "choices" ++ ":[]}")
                       (VObj [("choices", VArr [])]) VUndef
                       ltac:(intros H; vm_compute in H; discriminate H)
                       ltac:(vm_compute; reflexivity) eq_refl
                       ltac:(vm_compute; reflexivity)
                       ltac:(vm_compute; reflexivity) eq_refl))
      as (fields & Hrun & _ & Hfb).
    destruct (Hfb ltac:(discriminate)) as [Hfields _].
    injection Hfields as ->. eexists. exact Hrun.
  - destruct (proj2 (missing_content_is_answered_200 AtsOptimizer p
                       (Scenario.request AtsOptimizer)
                       (chat_request "key"
                          [ mkMessage (VStr "system")
                              (VStr AtsOptimizer.systemPrompt);
                            mkMessage (VStr "user")
                              (VStr (AtsOptimizer.userPrompt "Plumber"
                                       "Ten years of plumbing")) ])
                       ("{" ++ q "choices" ++ ":[]}")
                       (VObj [("choices", VArr [])]) VUndef
                       ltac:(intros H; vm_compute in H; discriminate H)
                       ltac:(vm_compute; reflexivity) eq_refl
                       ltac:(vm_compute; reflexivity)
                       ltac:(vm_compute; reflexivity) eq_refl))
      as (fields & Hrun & Hats & _).
    rewrite (Hats eq_refl) in Hrun. eexists. exact Hrun.
Defined.

(** C10, as stated, fails on a success body that is JSON [null]: reading
    [data.choices] throws, and the handler answers 500. *)
Lemma null_success_body_counterexample :
  let p := Mock.platform_with (Some "key") (Reply 200 "null") in
  let req := mkRequest "POST" ("{" ++ q "message" ++ ":" ++ q "hi" ++ "}") in
  JSON.parse "null" = Ok VNull /\
  fst (run SupportChat p req)
  = Ok (mkResponse 500 json_headers
          (EngineErrorBody (TypeError "cannot read property choices"))) /\
  List.length (snd (run SupportChat p req)) = 1.
Proof. vm_compute. repeat split. Qed.

(** ** The habit-insights scenario *)

(** C4, as the code has it.  On the habits and logs of the scenario the
    habit-insights handler calls the gateway exactly once, with the fixed
    system prompt and a user message that contains [Meditate] and [daily];
    when the gateway returns the scenario's completion, the response has
    status 200 and the object that completion denotes as its body. *)
Theorem habit_insights_scenario (p : platform) (key : string) :
  environment p "LOVABLE_API_KEY" = Some key ->
  key <> EmptyString ->
  (forall g,
     gateway p g
     = Reply 200 (Mock.chat_completion Scenario.insights_completion)) ->
  run HabitInsights p (mkRequest "POST" Scenario.habits_body)
  = (Ok (mkResponse 200 json_headers (JsonBody Scenario.insights_object)),
     [ chat_request key
         [ mkMessage (VStr "system") (VStr HabitInsights.systemPrompt);
           mkMessage (VStr "user") (VStr Scenario.insights_user_prompt) ] ])
  /\ JSON.parse Scenario.insights_completion = Ok Scenario.insights_object
  /\ includes "Meditate" Scenario.insights_user_prompt = true
  /\ includes "daily" Scenario.insights_user_prompt = true.
Proof.
  intros Henv Hkey Hgw.
  split; [|repeat split; vm_compute; reflexivity].
  rewrite run_unfold.
  change (String.eqb (req_method (mkRequest "POST" Scenario.habits_body))
            "OPTIONS") with false. cbv iota.
  unfold prepare, api_key. rewrite Henv. unfold configured.
  destruct (String.eqb key EmptyString) eqn:Ek;
    [apply String.eqb_eq in Ek; contradiction|].
  destruct (req_json (mkRequest "POST" Scenario.habits_body))
    as [body|e] eqn:Eb; vm_compute in Eb; [injection Eb as <-|discriminate].
  cbn [obind JS.is_nullish].
  match goal with
  | |- context [messages_of HabitInsights ?b] =>
      destruct (messages_of HabitInsights b) as [msgs|e] eqn:Em;
      vm_compute in Em; [injection Em as <-|discriminate]
  end.
  cbn [obind]. rewrite Hgw. unfold answer.
  match goal with
  | |- context [handle_response HabitInsights ?x] =>
      destruct (handle_response HabitInsights x) as [resp|e] eqn:Eh;
      vm_compute in Eh; [injection Eh as <-|discriminate]
  end.
  reflexivity.
Qed.

Lemma habit_insights_scenario_witness :
  run HabitInsights
    (Mock.platform_with (Some "secret")
       (Reply 200 (Mock.chat_completion Scenario.insights_completion)))
    (mkRequest "POST" Scenario.habits_body)
  = (Ok (mkResponse 200 json_headers (JsonBody Scenario.insights_object)),
     [ chat_request "secret"
         [ mkMessage (VStr "system") (VStr HabitInsights.systemPrompt);
           mkMessage (VStr "user") (VStr Scenario.insights_user_prompt) ] ]).
Proof.
  refine (proj1 (habit_insights_scenario
            (Mock.platform_with (Some "secret")
               (Reply 200 (Mock.chat_completion Scenario.insights_completion)))
            "secret" eq_refl _ (fun _ => eq_refl))).
  discriminate.
Defined.

(** C4, as stated, has the habit name and the frequency in the system
    prompt: in the one call the handler makes, the system message contains
    neither [Meditate] nor [daily]; the user message contains both. *)
Lemma system_prompt_counterexample :
  map (fun g =>
         map (fun m =>
                (role m,
                 obind (JS.to_string (content m))
                   (fun text => Ok (includes "Meditate" text)),
                 obind (JS.to_string (content m))
                   (fun text => Ok (includes "daily" text))))
             (messages g))
      (snd (run HabitInsights
              (Mock.platform_with (Some "secret")
                 (Reply 200
                    (Mock.chat_completion Scenario.insights_completion)))
              (mkRequest "POST" Scenario.habits_body)))
  = [ [ (VStr "system", Ok false, Ok false);
        (VStr "user", Ok true, Ok true) ] ].
Proof. vm_compute. reflexivity. Qed.

(** ** A completion without a brace pair *)

(** In four of the five files the object of the [jsonMatch ? ... : ...]
    alternative is the object of the [catch]: a completion without a brace
    pair comes back verbatim in the human-readable field of the fallback. *)
Lemma no_pair_gives_fallback (f : feature) (s : string) :
  f <> AtsOptimizer ->
  Text.has_pair s = false ->
  extract f (VStr s) = Ok (fallback f (VStr s)) /\
  human_readable f (fallback f (VStr s)) = VStr s.
Proof.
  intros Hf Hs. apply regex_match_none_iff in Hs.
  rewrite extract_unfold, Hs.
  destruct f; try (now elim Hf); split; reflexivity.
Qed.

(** The object of the [catch] carries the completion in every file. *)
Lemma fallback_carries_text (f : feature) (c : value) :
  human_readable f (fallback f c) = c.
Proof. destruct f; reflexivity. Qed.

(** C2 at the ATS scenario.  The completion holds no brace, so the regex
    does not match and the handler answers with the object of the
    [jsonMatch ? ... : ...] alternative, which has no [rawAnalysis] field;
    the object the claim expects is the one of the [catch]. *)
Theorem ats_no_match_omits_raw_text :
  Text.has_pair Scenario.ats_completion = false /\
  fst (run AtsOptimizer
         (Mock.platform_with (Some "secret")
            (Reply 200 (Mock.chat_completion Scenario.ats_completion)))
         (mkRequest "POST" Scenario.ats_body))
  = Ok (mkResponse 200 json_headers
          (JsonBody (VObj [("score", num_of_nat 50);
                           ("suggestions", VArr [])]))) /\
  extract AtsOptimizer (VStr Scenario.ats_completion)
  <> Ok (VObj [("score", num_of_nat 50); ("suggestions", VArr []);
               ("rawAnalysis",
                VStr "Sure! Here's your analysis: not json")]) /\
  fallback AtsOptimizer (VStr Scenario.ats_completion)
  = VObj [("score", num_of_nat 50); ("suggestions", VArr []);
          ("rawAnalysis", VStr "Sure! Here's your analysis: not json")].
Proof.
  split; [reflexivity|]. split; [vm_compute; reflexivity|].
  split; [|reflexivity].
  rewrite extract_unfold. vm_compute. discriminate.
Qed.

Lemma extract_never_throws_witness :
  JS.regex_match Scenario.truncated_completion
  = Some Scenario.truncated_completion /\
  JSON.parse Scenario.truncated_completion = Throw SyntaxError /\
  extract HabitInsights (VStr Scenario.truncated_completion)
  = Ok (fallback HabitInsights (VStr Scenario.truncated_completion)) /\
  exists result,
    handle_response HabitInsights
      (200, Mock.chat_completion Scenario.truncated_completion)
    = Ok (ok_response result).
Proof.
  assert (Hm : JS.regex_match Scenario.truncated_completion
               = Some Scenario.truncated_completion)
    by (vm_compute; reflexivity).
  assert (Hp : JSON.parse Scenario.truncated_completion = Throw SyntaxError)
    by (vm_compute; reflexivity).
  destruct (extract_never_throws HabitInsights
              (VStr Scenario.truncated_completion))
    as [(v & Hv & Hfall) Hresp].
  split; [exact Hm|]. split; [exact Hp|]. split.
  - rewrite Hv. f_equal. exact (Hfall _ _ _ eq_refl Hm Hp).
  - refine (Hresp 200
              (Mock.chat_completion Scenario.truncated_completion)
              (VObj [("choices",
                      VArr [VObj [("message",
                                   VObj [("role", VStr "assistant");
                                         ("content",
                                          VStr Scenario.truncated_completion)
                                        ])]])])
              eq_refl _ eq_refl).
    vm_compute. reflexivity.
Defined.

(** ** The habit toggle *)

Lemma toggle_starts_with_write
    (db : HabitTracker.db_write -> HabitTracker.db_result)
    (c : HabitTracker.component) (today habitId : string) :
  exists w rest,
    HabitTracker.toggleHabit db c today habitId = HabitTracker.Write w :: rest
    /\ existsb HabitTracker.is_write rest = false
    /\ (HabitTracker.error (db w) <> None ->
        exists msg, rest = [HabitTracker.Toast "Error" msg true]).
Proof.
  unfold HabitTracker.toggleHabit.
  destruct (find _ (HabitTracker.logs c)) as [existing|];
    eexists; eexists; (split; [reflexivity|]).
  - destruct (HabitTracker.error _) eqn:E; split.
    + reflexivity.
    + intros _. eauto.
    + destruct (negb (HabitTracker.l_completed existing)); reflexivity.
    + intros H. now elim H.
  - destruct (HabitTracker.error _) eqn:E; split.
    + reflexivity.
    + intros _. eauto.
    + destruct (HabitTracker.data _); reflexivity.
    + intros H. now elim H.
Qed.

(** C9, as the code has it.  [toggleHabit] first awaits the database write
    and calls [setLogs] only after it has resolved without error: no update
    of the local logs precedes the write, and when the write fails the
    function only shows an error toast, so the logs stay as they were. *)
Theorem toggle_updates_only_after_write
    (db : HabitTracker.db_write -> HabitTracker.db_result)
    (c : HabitTracker.component) (today habitId : string) :
  let evs := HabitTracker.toggleHabit db c today habitId in
  HabitTracker.sets_before_write evs = false /\
  exists w rest,
    evs = HabitTracker.Write w :: rest /\
    (HabitTracker.error (db w) <> None ->
     HabitTracker.sets_after_write evs = false /\
     HabitTracker.logs_after (HabitTracker.logs c) evs = HabitTracker.logs c /\
     exists msg, rest = [HabitTracker.Toast "Error" msg true]).
Proof.
  intros evs. subst evs.
  destruct (toggle_starts_with_write db c today habitId)
    as (w & rest & -> & _ & Hfail).
  split; [reflexivity|]. exists w, rest. split; [reflexivity|].
  intros Herr. destruct (Hfail Herr) as [msg ->].
  repeat split. now exists msg.
Qed.

Lemma toggle_updates_only_after_write_witness :
  HabitTracker.toggleHabit Scenario.refusing_db Scenario.screen
    "2024-01-01" "h1"
  = [ HabitTracker.Write
        (HabitTracker.Insert "h1" (Some "u1") true "2024-01-01");
      HabitTracker.Toast "Error" "Could not log habit" true ] /\
  HabitTracker.logs_after (HabitTracker.logs Scenario.screen)
    (HabitTracker.toggleHabit Scenario.refusing_db Scenario.screen
       "2024-01-01" "h1")
  = HabitTracker.logs Scenario.screen.
Proof.
  split; [reflexivity|].
  destruct (toggle_updates_only_after_write Scenario.refusing_db
              Scenario.screen "2024-01-01" "h1")
    as (_ & w & rest & Hev & Hfail).
  injection Hev as <- <-.
  refine (proj1 (proj2 (Hfail _))). discriminate.
Defined.

(** C9, as stated, has the local logs updated before the write resolves and
    set again when it fails: on a refused write [toggleHabit] calls
    [setLogs] neither before nor after the write. *)
Lemma toggle_is_not_optimistic_counterexample :
  let evs :=
    HabitTracker.toggleHabit Scenario.refusing_db Scenario.screen
      "2024-01-01" "h1" in
  evs = [ HabitTracker.Write
            (HabitTracker.Insert "h1" (Some "u1") true "2024-01-01");
          HabitTracker.Toast "Error" "Could not log habit" true ] /\
  HabitTracker.sets_before_write evs = false /\
  HabitTracker.sets_after_write evs = false /\
  existsb HabitTracker.is_set_logs evs = false.
Proof. vm_compute. repeat split. Qed.

(** * Further properties of the handlers *)

(** ** Every request is answered *)

(** X1.  Whatever the request, the platform and the gateway do, a handler
    ends with a response, never with an exception, and it has called the
    gateway at most once. *)
Theorem handler_always_responds
    (f : feature) (p : platform) (req : Request) :
  exists resp calls,
    run f p req = (Ok resp, calls) /\ List.length calls <= 1.
Proof.
  destruct (run_responds f p req) as (resp & calls & H & [->|[g ->]]);
    exists resp; eexists; (split; [exact H|]); simpl; lia.
Qed.

(** ** Failures of the gateway *)

Lemma answer_other_status (f : feature) (status : nat) (text : string) :
  response_ok status = false ->
  status <> 429 ->
  (f = JobAssistant -> status <> 402) ->
  answer f (Reply status text)
  = error_response (Error ("AI gateway error: " ++ nat_to_string status)).
Proof.
  intros Hok H429 H402. apply Nat.eqb_neq in H429.
  destruct f; unfold answer; cbn [handle_response];
    unfold SupportChat.handle_response, HabitInsights.handle_response,
      KnowledgeQuery.handle_response, AtsOptimizer.handle_response,
      JobAssistant.handle_response;
    rewrite Hok, H429; cbn [negb]; try reflexivity.
  assert (H : Nat.eqb status 402 = false)
    by (apply Nat.eqb_neq; now apply H402).
  now rewrite H.
Qed.

(** X2.  A gateway response whose status is outside 200..299 and is not 429
    (nor 402, in the job assistant) is answered with status 500 and the
    message [AI gateway error: ] followed by that status in decimal: every
    request that gets as far as the call ends that way, and so does every
    run in which the call was made. *)
Theorem upstream_failure_is_reported_as_500
    (f : feature) (p : platform) (req : Request)
    (g : gateway_request) (status : nat) (text : string) :
  gateway p g = Reply status text ->
  response_ok status = false ->
  status <> 429 ->
  (f = JobAssistant -> status <> 402) ->
  (req_method req <> "OPTIONS" ->
   prepare f (environment p) req = Ok g ->
   run f p req
   = (Ok (mkResponse 500 json_headers
            (JsonBody
               (VObj [("error",
                       VStr ("AI gateway error: " ++
                             nat_to_string status))]))),
      [g])) /\
  (forall resp calls,
     run f p req = (Ok resp, calls) ->
     In g calls ->
     resp_status resp = 500 /\
     resp_body resp
     = JsonBody
         (VObj [("error",
                 VStr ("AI gateway error: " ++ nat_to_string status))])).
Proof.
  intros Hg Hok H429 H402. split.
  - intros Hm Hp.
    now rewrite (run_prepared f p req g Hm Hp), Hg,
      (answer_other_status f status text Hok H429 H402).
  - intros resp calls Hrun Hin.
    destruct (run_called f p req resp calls g Hrun Hin) as (_ & -> & _).
    rewrite Hg, (answer_other_status f status text Hok H429 H402).
    split; reflexivity.
Qed.

Lemma upstream_failure_is_reported_as_500_witness :
  let p := Mock.platform_with (Some "key") (Reply 503 "unavailable") in
  let g := chat_request "key"
             [ mkMessage (VStr "system") (VStr AtsOptimizer.systemPrompt);
               mkMessage (VStr "user")
                 (VStr (AtsOptimizer.userPrompt "Plumber"
                          "Ten years of plumbing")) ] in
  run AtsOptimizer p (Scenario.request AtsOptimizer)
  = (Ok (mkResponse 500 json_headers
           (JsonBody (VObj [("error", VStr "AI gateway error: 503")]))),
     [g]).
Proof.
  intros p g.
  refine (proj1 (upstream_failure_is_reported_as_500 AtsOptimizer p
                   (Scenario.request AtsOptimizer) g 503 "unavailable"
                   eq_refl eq_refl _ _) _ _).
  - discriminate.
  - discriminate.
  - intros H; vm_compute in H; discriminate H.
  - vm_compute. reflexivity.
Defined.

(** X3.  When the [fetch] itself is rejected, or when the gateway answers
    with a success status and a body that [response.json()] cannot read,
    the handler answers 500 with a body of the form [{"error": ...}] that
    carries the message of the engine's exception; the gateway has been
    called once.  Every request that gets as far as the call ends that way,
    and so does every run in which the call was made. *)
Theorem unusable_gateway_answer_is_500
    (f : feature) (p : platform) (req : Request) (g : gateway_request)
    (e : exn) :
  (gateway p g = NetworkError /\ e = TypeError "fetch failed") \/
  (exists status text,
     gateway p g = Reply status text /\ response_ok status = true /\
     JSON.parse text = Throw SyntaxError /\ e = SyntaxError) ->
  (req_method req <> "OPTIONS" ->
   prepare f (environment p) req = Ok g ->
   run f p req
   = (Ok (mkResponse 500 json_headers (EngineErrorBody e)), [g])) /\
  (forall resp calls,
     run f p req = (Ok resp, calls) ->
     In g calls ->
     calls = [g] /\ resp_status resp = 500 /\ error_form (resp_body resp)).
Proof.
  intros Hg.
  assert (Ha : answer f (gateway p g)
               = mkResponse 500 json_headers (EngineErrorBody e)).
  { destruct Hg as [[-> ->]|(status & text & -> & Hok & Hp & ->)].
    - reflexivity.
    - unfold answer.
      now rewrite (handle_response_ok_unfold f status text Hok), Hp. }
  split.
  - intros Hm Hp. now rewrite (run_prepared f p req g Hm Hp), Ha.
  - intros resp calls Hrun Hin.
    destruct (run_called f p req resp calls g Hrun Hin) as (-> & -> & _).
    rewrite Ha. repeat split.
Qed.

Lemma unusable_gateway_answer_is_500_witness :
  let p := Mock.platform_with (Some "key") (Reply 200 "<html>oops</html>") in
  let g := chat_request "key"
             [ mkMessage (VStr "system") (VStr AtsOptimizer.systemPrompt);
               mkMessage (VStr "user")
                 (VStr (AtsOptimizer.userPrompt "Plumber"
                          "Ten years of plumbing")) ] in
  run AtsOptimizer p (Scenario.request AtsOptimizer)
  = (Ok (mkResponse 500 json_headers (EngineErrorBody SyntaxError)), [g]).
Proof.
  intros p g.
  refine (proj1 (unusable_gateway_answer_is_500 AtsOptimizer p
                   (Scenario.request AtsOptimizer) g SyntaxError
                   (or_intror _)) _ _).
  - exists 200, "<html>oops</html>". repeat split; vm_compute; reflexivity.
  - intros H; vm_compute in H; discriminate H.
  - vm_compute. reflexivity.
Defined.

(** ** What is sent to the gateway *)

Lemma prepare_ok_inv (f : feature) (env : string -> option string)
    (req : Request) (g : gateway_request) :
  prepare f env req = Ok g ->
  exists body key msgs,
    JSON.parse (req_body req) = Ok body /\
    JS.is_nullish body = false /\
    env "LOVABLE_API_KEY" = Some key /\ key <> EmptyString /\
    messages_of f body = Ok msgs /\
    g = chat_request key msgs.
Proof.
  unfold prepare, req_json, api_key, configured. intros H.
  destruct (JSON.parse (req_body req)) as [body|e] eqn:Eb; [|discriminate].
  cbn [obind] in H.
  destruct (JS.is_nullish body) eqn:En; [discriminate|].
  destruct (env "LOVABLE_API_KEY") as [key|] eqn:Ee; [|discriminate].
  destruct (String.eqb key EmptyString) eqn:Ek; [discriminate|].
  destruct (messages_of f body) as [msgs|e] eqn:Em; [|discriminate].
  injection H as <-. exists body, key, msgs.
  repeat match goal with
         | |- _ /\ _ => split
         end; try first [reflexivity | assumption].
  intros ->. discriminate.
Qed.

Lemma messages_shape (f : feature) (body : value)
    (msgs : list chat_message) :
  messages_of f body = Ok msgs ->
  exists sys rest,
    msgs = mkMessage (VStr "system") (VStr sys) :: rest /\
    2 <= List.length msgs /\
    role (last rest (mkMessage VUndef VUndef)) = VStr "user".
Proof.
  destruct f; unfold messages_of, SupportChat.build_messages,
    HabitInsights.build_messages, KnowledgeQuery.build_messages,
    AtsOptimizer.build_messages, JobAssistant.build_messages, obind;
    intros H;
    repeat match type of H with
           | match ?c with _ => _ end = _ => destruct c; try discriminate
           end;
    injection H as <-; eexists; eexists;
    (split; [reflexivity|]); try (split; [simpl; lia|reflexivity]).
  split.
  - simpl. rewrite length_app. simpl. lia.
  - now rewrite last_last.
Qed.

(** X4.  Whenever a handler calls the gateway, the call goes to the one
    chat-completions URL with the model [google/gemini-2.5-flash], a JSON
    content type and [Bearer ] followed by the non-empty configured key;
    the message list has at least two entries, starts with a system message
    and ends with a user message. *)
Theorem gateway_call_is_well_formed
    (f : feature) (p : platform) (req : Request)
    (resp : Response) (calls : list gateway_request) (g : gateway_request) :
  run f p req = (Ok resp, calls) ->
  In g calls ->
  url g = "https://ai.gateway.lovable.dev/v1/chat/completions" /\
  model g = "google/gemini-2.5-flash" /\
  content_type g = "application/json" /\
  (exists key,
     environment p "LOVABLE_API_KEY" = Some key /\ key <> EmptyString /\
     authorization g = "Bearer " ++ key) /\
  (exists sys rest,
     messages g = mkMessage (VStr "system") (VStr sys) :: rest /\
     2 <= List.length (messages g) /\
     role (last rest (mkMessage VUndef VUndef)) = VStr "user").
Proof.
  intros Hrun Hin.
  destruct (run_called f p req resp calls g Hrun Hin) as (_ & _ & Hp & _).
  destruct (prepare_ok_inv f _ req g Hp)
    as (body & key & msgs & _ & _ & Hk & Hne & Hm & ->).
  repeat split; try reflexivity.
  - exists key. repeat split; assumption.
  - exact (messages_shape f body msgs Hm).
Qed.

Lemma gateway_call_is_well_formed_witness :
  let p := Mock.platform_with (Some "key") NetworkError in
  let req := mkRequest "POST" "{}" in
  let g := chat_request "key"
             [ mkMessage (VStr "system") (VStr AtsOptimizer.systemPrompt);
               mkMessage (VStr "user")
                 (VStr (AtsOptimizer.userPrompt "undefined" "undefined")) ] in
  run AtsOptimizer p req
  = (Ok (error_response (TypeError "fetch failed")), [g]) /\
  model g = "google/gemini-2.5-flash".
Proof.
  intros p req g.
  assert (Hrun : run AtsOptimizer p req
                 = (Ok (error_response (TypeError "fetch failed")), [g]))
    by (vm_compute; reflexivity).
  split; [exact Hrun|].
  exact (proj1 (proj2 (gateway_call_is_well_formed AtsOptimizer p req _
           [g] g Hrun (or_introl eq_refl)))).
Defined.

(** ** What the extraction step can return *)

(** X17.  The extraction regex finds a match exactly in the texts of the
    form [pre{inner}post] with no [{] in [pre] and no [}] in [post], and the
    match is [{inner}]: the stretch from the first opening brace of the text
    to its last closing brace. *)
Theorem regex_match_iff (s m : string) :
  JS.regex_match s = Some m <->
  exists pre inner post,
    s = pre ++ "{" ++ inner ++ "}" ++ post /\
    m = "{" ++ inner ++ "}" /\
    Text.open_free pre = true /\
    Text.close_free post = true.
Proof.
  split.
  - apply regex_match_inv.
  - intros (pre & inner & post & -> & -> & Hpre & Hpost).
    now apply regex_match_object.
Qed.

Lemma regex_match_iff_witness :
  JS.regex_match "so {a} and {b} it is" = Some "{a} and {b}".
Proof.
  apply (proj2 (regex_match_iff "so {a} and {b} it is" "{a} and {b}")).
  exists "so ", "a} and {b", " it is". repeat split.
Defined.

(** X5.  For every feature and every completion, what the extraction step
    returns is an object: either the one parsed from the matched span, which
    starts with a brace, or one of the feature's two literal objects. *)
Theorem extract_yields_object (f : feature) (content v : value) :
  extract f content = Ok v -> exists fields, v = VObj fields.
Proof.
  rewrite extract_unfold. intros H.
  assert (Hfb : forall c, exists fields, fallback f c = VObj fields)
    by (intros c; destruct f; eexists; reflexivity).
  destruct content; try (injection H as <-; apply Hfb).
  destruct (JS.regex_match s) as [text|] eqn:Em.
  - destruct (JSON.parse text) as [w|e] eqn:Ep.
    + injection H as <-.
      destruct (regex_match_inv s text Em)
        as (pre & inner & post & _ & -> & _).
      exact (parse_braces_is_object _ w Ep).
    + injection H as <-. apply Hfb.
  - injection H as <-. destruct f; try apply Hfb. eexists. reflexivity.
Qed.

Lemma extract_yields_object_witness :
  extract JobAssistant (VStr ("ok: {" ++ q "bullets" ++ ": 7} done"))
  = Ok (VObj [("bullets", num_of_nat 7)]) /\
  exists fields, VObj [("bullets", num_of_nat 7)] = VObj fields.
Proof.
  assert (H : extract JobAssistant
                (VStr ("ok: {" ++ q "bullets" ++ ": 7} done"))
              = Ok (VObj [("bullets", num_of_nat 7)]))
    by (vm_compute; reflexivity).
  split; [exact H|].
  exact (extract_yields_object JobAssistant _ _ H).
Defined.

(** ** Which bodies reach the gateway *)

Lemma prepare_with_key (f : feature) (env : string -> option string)
    (req : Request) (body : value) (key : string) :
  JSON.parse (req_body req) = Ok body ->
  JS.is_nullish body = false ->
  env "LOVABLE_API_KEY" = Some key -> key <> EmptyString ->
  prepare f env req
  = match messages_of f body with
    | Ok msgs => Ok (chat_request key msgs)
    | Throw e => Throw e
    end.
Proof.
  intros Hb Hn He Hk. unfold prepare, req_json, api_key, configured.
  rewrite Hb, He. cbn [obind]. rewrite Hn.
  destruct (String.eqb key EmptyString) eqn:E;
    [apply String.eqb_eq in E; contradiction|].
  destruct (messages_of f body); reflexivity.
Qed.

(** Structural induction on a value, through the items of an array and the
    fields of an object. *)
Lemma value_induction (P : value -> Prop) :
  P VUndef -> P VNull -> (forall b, P (VBool b)) -> (forall n, P (VNum n)) ->
  (forall s, P (VStr s)) ->
  (forall items, Forall P items -> P (VArr items)) ->
  (forall fields, Forall (fun kv => P (snd kv)) fields -> P (VObj fields)) ->
  forall v, P v.
Proof.
  intros Hu Hn Hb Hnum Hs Ha Ho. fix IH 1.
  intros [ | | b | n | s | items | fields];
    [exact Hu | exact Hn | apply Hb | apply Hnum | apply Hs | | ].
  - apply Ha. revert items. fix each 1.
    intros [|x r]; constructor; [apply IH | apply each].
  - apply Ho. revert fields. fix each 1.
    intros [|[k x] r]; constructor; [apply IH | apply each].
Qed.

(** What [String(v)] does on an array, item by item. *)
Lemma to_string_array (items : list value) :
  JS.to_string (VArr items)
  = obind (JS.map_outcome
             (fun x => if JS.is_nullish x then Ok EmptyString
                       else JS.to_string x) items)
      (fun ss => Ok (String.concat "," ss)).
Proof.
  cbn [JS.to_string]. f_equal.
  induction items as [|x r IH]; [reflexivity|].
  cbn [JS.map_outcome]. now rewrite <- IH.
Qed.

(** [String(v)] succeeds exactly on the printable values, and the only
    exception it raises is the TypeError of the conversion. *)
Lemma to_string_printable (v : value) :
  (JS.printable v = true -> exists s, JS.to_string v = Ok s) /\
  (JS.printable v = false -> JS.to_string v = Throw JS.conversion_error).
Proof.
  induction v as [ | | b | n | s | items IH | fields _] using value_induction;
    try (split; [intros _; cbn; eauto | discriminate]).
  - destruct b; eauto.
  - rewrite to_string_array. cbn [JS.printable].
    induction IH as [|x r [Hx1 Hx2] _ [IH1 IH2]].
    + split; [intros _; cbn; eauto | discriminate].
    + cbn [forallb JS.map_outcome]. split.
      * intros H. apply andb_prop in H as [Hx Hr].
        destruct (IH1 Hr) as [s Hs].
        destruct (JS.map_outcome _ r) as [ss|e] eqn:Er; [|discriminate].
        destruct (Hx1 Hx) as [sx Hsx].
        destruct (JS.is_nullish x); [|rewrite Hsx]; cbn [obind]; eauto.
      * intros H. apply andb_false_iff in H as [Hx|Hr].
        -- assert (Hnn : JS.is_nullish x = false)
             by (destruct x; try discriminate; reflexivity).
           now rewrite Hnn, (Hx2 Hx).
        -- specialize (IH2 Hr).
           destruct (JS.map_outcome _ r) as [ss|e] eqn:Er;
             [discriminate|]. cbn [obind] in IH2. injection IH2 as ->.
           destruct (JS.is_nullish x); [reflexivity|].
           destruct (JS.printable x).
           ++ destruct (Hx1 eq_refl) as [sx ->]. reflexivity.
           ++ now rewrite (Hx2 eq_refl).
  - cbn [JS.printable JS.to_string].
    destruct (JSON.has_key fields "toString"); split;
      try discriminate; intros _; cbn; eauto.
Qed.

Lemma to_string_throws (v : value) (e : exn) :
  JS.to_string v = Throw e -> e = JS.conversion_error.
Proof.
  intros H. destruct (JS.printable v) eqn:P.
  - destruct (proj1 (to_string_printable v) P). congruence.
  - rewrite (proj2 (to_string_printable v) P) in H. congruence.
Qed.

Lemma no_own_toString_printable (v : value) :
  JS.no_own_toString v = true -> JS.printable v = true.
Proof.
  induction v as [ | | b | n | s | items IH | fields _] using value_induction;
    try reflexivity.
  - cbn [JS.no_own_toString JS.printable].
    induction IH as [|x r Hx _ IH]; [reflexivity|].
    cbn [forallb]. intros H. apply andb_prop in H as [H1 H2].
    now rewrite (Hx H1), (IH H2).
  - cbn [JS.no_own_toString JS.printable]. intros H.
    now apply andb_prop in H as [-> _].
Qed.

Lemma no_own_toString_lookup (fields : list (string * value)) (k : string) :
  forallb (fun kv => JS.no_own_toString (snd kv)) fields = true ->
  JS.no_own_toString (JS.lookup fields k) = true.
Proof.
  induction fields as [|[k' x] r IH]; [reflexivity|].
  cbn [forallb JS.lookup snd]. intros H. apply andb_prop in H as [H1 H2].
  destruct (String.eqb k' k); auto.
Qed.

(** Reading a property of a value without such keys gives one again. *)
Lemma no_own_toString_get_prop (v x : value) (k : string) :
  JS.no_own_toString v = true ->
  JS.get_prop v k = Ok x -> JS.no_own_toString x = true.
Proof.
  destruct v as [ | | b | n | s | items | fields]; cbn [JS.get_prop];
    intros Hv H; try discriminate; injection H as <-;
    try reflexivity.
  - now destruct (String.eqb k "length").
  - now destruct (String.eqb k "length").
  - cbn [JS.no_own_toString] in Hv. apply andb_prop in Hv as [_ Hv].
    now apply no_own_toString_lookup.
Qed.

Lemma to_string_total (v : value) :
  JS.no_own_toString v = true -> exists s, JS.to_string v = Ok s.
Proof.
  intros H. apply to_string_printable. now apply no_own_toString_printable.
Qed.

Lemma setting_total (settings : value) (k fallback : string) :
  JS.no_own_toString settings = true ->
  exists s, JobAssistant.setting settings k fallback = Ok s.
Proof.
  intros H. unfold JobAssistant.setting, JS.opt_prop.
  destruct (JS.is_nullish settings) eqn:En; cbn [obind].
  - cbn. eauto.
  - destruct (get_prop_total settings k En) as [x Hx]. rewrite Hx.
    cbn [obind]. apply to_string_total. unfold JS.or_else.
    destruct (JS.truthy x); [|reflexivity].
    exact (no_own_toString_get_prop settings x k H Hx).
Qed.

Lemma messages_of_total_ats_job (f : feature) (body : value) :
  f = AtsOptimizer \/ f = JobAssistant ->
  JS.is_nullish body = false ->
  JS.no_own_toString body = true ->
  exists msgs, messages_of f body = Ok msgs.
Proof.
  intros [-> | ->] Hn Hp; unfold messages_of;
    repeat match goal with
           | |- context [JS.get_prop body ?k] =>
               let x := fresh "x" in
               let Hx := fresh "Hx" in
               destruct (get_prop_total body k Hn) as [x Hx]; rewrite Hx;
               apply (no_own_toString_get_prop body x k Hp) in Hx;
               cbn [obind]
           end.
  - unfold AtsOptimizer.build_messages.
    destruct (to_string_total _ Hx0) as [t ->]. cbn [obind].
    destruct (to_string_total _ Hx) as [r ->]. cbn [obind].
    eexists. reflexivity.
  - unfold JobAssistant.build_messages.
    destruct (setting_total x1 "coverLetterLength" "3-4 paragraphs" Hx1)
      as [c ->]. cbn [obind].
    destruct (setting_total x1 "tone" "professional" Hx1) as [t ->].
    cbn [obind].
    destruct (to_string_total _ Hx) as [r ->]. cbn [obind].
    destruct (to_string_total _ Hx0) as [j ->]. cbn [obind].
    eexists. reflexivity.
Qed.

Lemma setting_throws (settings : value) (k fallback : string) (e : exn) :
  JobAssistant.setting settings k fallback = Throw e -> e = JS.conversion_error.
Proof.
  unfold JobAssistant.setting, JS.opt_prop.
  destruct (JS.is_nullish settings) eqn:En; cbn [obind].
  - apply to_string_throws.
  - destruct (get_prop_total settings k En) as [x ->]. cbn [obind].
    apply to_string_throws.
Qed.

Lemma messages_of_unprintable_resume (f : feature) (body : value)
    (fields : list (string * value)) :
  f = AtsOptimizer \/ f = JobAssistant ->
  JS.get_prop body "resumeContent" = Ok (VObj fields) ->
  JSON.has_key fields "toString" = true ->
  messages_of f body = Throw JS.conversion_error.
Proof.
  intros Hf Hr Hk.
  assert (Hn : JS.is_nullish body = false)
    by (destruct body; try discriminate; reflexivity).
  assert (Ht : JS.to_string (VObj fields) = Throw JS.conversion_error)
    by (cbn [JS.to_string]; now rewrite Hk).
  destruct Hf as [-> | ->]; unfold messages_of; rewrite Hr; cbn [obind];
    repeat match goal with
           | |- context [JS.get_prop body ?k] =>
               let x := fresh "x" in
               destruct (get_prop_total body k Hn) as [x ->]; cbn [obind]
           end.
  - unfold AtsOptimizer.build_messages.
    destruct (JS.to_string x) as [t|e] eqn:Et; cbn [obind].
    + now rewrite Ht.
    + now rewrite (to_string_throws x e Et).
  - unfold JobAssistant.build_messages.
    destruct (JobAssistant.setting x0 "coverLetterLength" _) as [c|e] eqn:Ec;
      cbn [obind]; [|now rewrite (setting_throws _ _ _ e Ec)].
    destruct (JobAssistant.setting x0 "tone" _) as [t|e] eqn:Et;
      cbn [obind]; [|now rewrite (setting_throws _ _ _ e Et)].
    now rewrite Ht.
Qed.

(** X6.  The ATS optimizer and the job assistant check nothing in the
    request body beyond what printing it into the prompt needs.  With the
    key configured, every POST whose body is JSON for something other than
    [null], and in which no object has a key named [toString], leads to
    exactly one gateway call, whatever fields the body has or lacks.  A
    [resumeContent] that is an object with a key of that name cannot be
    converted to a string: the template literal throws, and the request is
    answered 500 without any call. *)
Theorem ats_and_job_forward_any_body
    (f : feature) (p : platform) (req : Request) (body : value)
    (key : string) :
  f = AtsOptimizer \/ f = JobAssistant ->
  req_method req = "POST" ->
  JSON.parse (req_body req) = Ok body ->
  JS.is_nullish body = false ->
  environment p "LOVABLE_API_KEY" = Some key -> key <> EmptyString ->
  (JS.no_own_toString body = true ->
   exists msgs,
     messages_of f body = Ok msgs /\
     run f p req
     = (Ok (answer f (gateway p (chat_request key msgs))),
        [chat_request key msgs])) /\
  (forall fields,
     JS.get_prop body "resumeContent" = Ok (VObj fields) ->
     JSON.has_key fields "toString" = true ->
     run f p req
     = (Ok (mkResponse 500 json_headers
              (EngineErrorBody
                 (TypeError "cannot convert object to primitive value"))),
        [])).
Proof.
  intros Hf Hm Hb Hn He Hk.
  rewrite run_unfold, Hm.
  change (String.eqb "POST" "OPTIONS") with false. cbv iota.
  rewrite (prepare_with_key f _ req body key Hb Hn He Hk). split.
  - intros Hp.
    destruct (messages_of_total_ats_job f body Hf Hn Hp) as [msgs Hmsgs].
    rewrite Hmsgs. exists msgs. split; reflexivity.
  - intros fields Hr Hts.
    now rewrite (messages_of_unprintable_resume f body fields Hf Hr Hts).
Qed.

Lemma ats_and_job_forward_any_body_witness :
  (exists msgs,
     messages_of JobAssistant (VArr []) = Ok msgs /\
     run JobAssistant (Mock.platform_with (Some "key") (Reply 429 "wait"))
       (mkRequest "POST" "[]")
     = (Ok rate_limited, [chat_request "key" msgs])) /\
  run AtsOptimizer (Mock.platform_with (Some "key") (Reply 429 "wait"))
    (mkRequest "POST"
       ("{" ++ q "resumeContent" ++ ":{" ++ q "toString" ++ ":1}}"))
  = (Ok (mkResponse 500 json_headers
           (EngineErrorBody
              (TypeError "cannot convert object to primitive value"))),
     []).
Proof.
  split.
  - refine (proj1 (ats_and_job_forward_any_body JobAssistant
              (Mock.platform_with (Some "key") (Reply 429 "wait"))
              (mkRequest "POST" "[]") (VArr []) "key"
              (or_intror eq_refl) eq_refl _ eq_refl eq_refl _) eq_refl).
    + vm_compute. reflexivity.
    + discriminate.
  - refine (proj2 (ats_and_job_forward_any_body AtsOptimizer
              (Mock.platform_with (Some "key") (Reply 429 "wait"))
              (mkRequest "POST"
                 ("{" ++ q "resumeContent" ++ ":{" ++ q "toString" ++ ":1}}"))
              (VObj [("resumeContent", VObj [("toString", num_of_nat 1)])])
              "key" (or_introl eq_refl) eq_refl _ eq_refl eq_refl _)
              [("toString", num_of_nat 1)] eq_refl eq_refl).
    + vm_compute. reflexivity.
    + discriminate.
Defined.

Lemma array_map_needs_array {B} (v : value) (f : value -> outcome B)
    (l : list B) :
  JS.array_map v f = Ok l -> exists items, v = VArr items.
Proof. destruct v; simpl; intros H; try discriminate; eauto. Qed.

(** X7.  The habit-insights handler calls the gateway only when both
    [habits] and [logs] of the body are arrays: otherwise [habits.map] or
    [logs.map] throws and the request is answered 500 without any call. *)
Theorem habit_insights_needs_arrays
    (p : platform) (req : Request) (body : value) :
  req_method req = "POST" ->
  JSON.parse (req_body req) = Ok body ->
  (forall hs ls,
     JS.get_prop body "habits" = Ok (VArr hs) ->
     JS.get_prop body "logs" = Ok (VArr ls) -> False) ->
  exists resp,
    run HabitInsights p req = (Ok resp, []) /\ resp_status resp = 500.
Proof.
  intros Hm Hb Hna. rewrite run_unfold, Hm.
  change (String.eqb "POST" "OPTIONS") with false. cbv iota.
  destruct (prepare HabitInsights (environment p) req) as [g|e] eqn:Hp.
  - exfalso.
    destruct (prepare_ok_inv _ _ _ _ Hp)
      as (body' & key & msgs & Hb' & _ & _ & _ & Hmsgs & _).
    rewrite Hb in Hb'. injection Hb' as <-.
    unfold messages_of in Hmsgs.
    destruct (JS.get_prop body "habits") as [habits|] eqn:Eh;
      [|discriminate].
    destruct (JS.get_prop body "logs") as [logs|] eqn:El; [|discriminate].
    cbn [obind] in Hmsgs. unfold HabitInsights.build_messages in Hmsgs.
    destruct (JS.array_map habits HabitInsights.habit_line) eqn:E1;
      [|discriminate].
    destruct (JS.array_map logs HabitInsights.log_line) eqn:E2;
      [|discriminate].
    destruct (array_map_needs_array _ _ _ E1) as [hs ->].
    destruct (array_map_needs_array _ _ _ E2) as [ls ->].
    exact (Hna hs ls eq_refl eq_refl).
  - eexists. split; [reflexivity|].
    now destruct (error_response_form e).
Qed.

Lemma habit_insights_needs_arrays_witness :
  exists resp,
    run HabitInsights (Mock.platform_with (Some "key") (Reply 200 "{}"))
      (mkRequest "POST" ("{" ++ q "habits" ++ ":[]}"))
    = (Ok resp, []) /\ resp_status resp = 500.
Proof.
  refine (habit_insights_needs_arrays
            (Mock.platform_with (Some "key") (Reply 200 "{}"))
            (mkRequest "POST" ("{" ++ q "habits" ++ ":[]}"))
            (VObj [("habits", VArr [])]) eq_refl _ _).
  - vm_compute. reflexivity.
  - intros hs ls _ H. vm_compute in H. discriminate.
Defined.

(** X8.  A key that is configured as the empty string counts as missing:
    a POST with a readable, non-null body is answered 500 with
    [LOVABLE_API_KEY is not configured] and the gateway is not called. *)
Theorem empty_key_counts_as_missing
    (f : feature) (p : platform) (req : Request) (body : value) :
  environment p "LOVABLE_API_KEY" = Some EmptyString ->
  req_method req = "POST" ->
  JSON.parse (req_body req) = Ok body ->
  JS.is_nullish body = false ->
  run f p req
  = (Ok (mkResponse 500 json_headers
           (JsonBody
              (VObj [("error", VStr "LOVABLE_API_KEY is not configured")]))),
     []).
Proof.
  intros He Hm Hb Hn. rewrite run_unfold, Hm.
  change (String.eqb "POST" "OPTIONS") with false. cbv iota.
  unfold prepare, req_json, api_key. rewrite Hb, He. cbn [obind].
  rewrite Hn. reflexivity.
Qed.

Lemma empty_key_counts_as_missing_witness :
  run SupportChat (Mock.platform_with (Some EmptyString) (Reply 200 "{}"))
    (mkRequest "POST" "{}")
  = (Ok (mkResponse 500 json_headers
           (JsonBody
              (VObj [("error", VStr "LOVABLE_API_KEY is not configured")]))),
     []).
Proof.
  refine (empty_key_counts_as_missing SupportChat
            (Mock.platform_with (Some EmptyString) (Reply 200 "{}"))
            (mkRequest "POST" "{}") (VObj []) eq_refl eq_refl _ eq_refl).
  vm_compute. reflexivity.
Defined.

(** ** What the prompts contain *)

Lemma prefix_app (x b : string) : prefix x (x ++ b) = true.
Proof.
  induction x as [|c x IH]; simpl; [now destruct b|].
  destruct (ascii_dec c c) as [_|H]; [exact IH|now elim H].
Qed.

Lemma includes_here (x b : string) : includes x (x ++ b) = true.
Proof.
  unfold includes. destruct x as [|c x].
  - destruct b; reflexivity.
  - pose proof (prefix_app (String c x) b) as H.
    cbn [append index] in *. now rewrite H.
Qed.

Lemma includes_skip (x a t : string) :
  includes x t = true -> includes x (a ++ t) = true.
Proof.
  unfold includes. induction a as [|c a IH]; cbn [append index]; intros H;
    [exact H|].
  destruct (prefix x (String c (a ++ t))); [reflexivity|].
  specialize (IH H). destruct (index 0 x (a ++ t)); [reflexivity|discriminate].
Qed.

Lemma includes_middle (x a b : string) : includes x (a ++ x ++ b) = true.
Proof. apply includes_skip, includes_here. Qed.

Lemma append_assoc (a b c : string) : (a ++ b) ++ c = a ++ b ++ c.
Proof. induction a as [|x a IH]; simpl; [reflexivity|now rewrite IH]. Qed.

Lemma append_empty_r (a : string) : a ++ EmptyString = a.
Proof. induction a as [|x a IH]; simpl; [reflexivity|now rewrite IH]. Qed.

(** A joined list holds each of its items. *)
Lemma join_holds (sep y : string) (ys : list string) :
  In y ys -> exists a b, JS.join sep ys = a ++ y ++ b.
Proof.
  unfold JS.join. induction ys as [|z ys IH]; intros Hin; [destruct Hin|].
  destruct Hin as [->|Hin].
  - exists EmptyString. destruct ys as [|z' ys'].
    + exists EmptyString. simpl. now rewrite append_empty_r.
    + eexists. simpl. reflexivity.
  - destruct (IH Hin) as (a & b & E). destruct ys as [|z' ys']; [destruct Hin|].
    exists (z ++ sep ++ a), b.
    change (String.concat sep (z :: z' :: ys'))
      with (z ++ sep ++ String.concat sep (z' :: ys')).
    rewrite E, !append_assoc. reflexivity.
Qed.

Lemma map_outcome_in {A B} (f : A -> outcome B) (l : list A) (ys : list B)
    (a : A) (y : B) :
  JS.map_outcome f l = Ok ys -> In a l -> f a = Ok y -> In y ys.
Proof.
  revert ys. induction l as [|x l IH]; simpl; intros ys H Hin Hf;
    [destruct Hin|].
  destruct (f x) as [b|] eqn:Ex; [|discriminate]. cbn [obind] in H.
  destruct (JS.map_outcome f l) as [bs|] eqn:El; [|discriminate].
  cbn [obind] in H. injection H as <-.
  destruct Hin as [->|Hin].
  - left. congruence.
  - right. exact (IH bs eq_refl Hin Hf).
Qed.




Lemma mapi_outcome_in {A B} (f : A -> nat -> outcome B) (l : list A) :
  forall (k i : nat) (ys : list B) (a : A) (y : B),
    JS.mapi_outcome f k l = Ok ys ->
    nth_error l i = Some a -> f a (k + i) = Ok y -> In y ys.
Proof.
  induction l as [|x l IH]; intros k i ys a y H Hn Hf.
  - destruct i; discriminate.
  - simpl in H. destruct (f x k) as [b|] eqn:Ex; [|discriminate].
    cbn [obind] in H.
    destruct (JS.mapi_outcome f (S k) l) as [bs|] eqn:El; [|discriminate].
    cbn [obind] in H. injection H as <-.
    destruct i as [|i]; simpl in Hn.
    + injection Hn as ->. rewrite Nat.add_0_r in Hf. left. congruence.
    + right. apply (IH (S k) i bs a y El Hn).
      now rewrite <- Nat.add_succ_comm in Hf.
Qed.

Lemma mapi_outcome_defined {A B} (f : A -> nat -> outcome B) (l : list A) :
  forall (k i : nat) (ys : list B) (a : A),
    JS.mapi_outcome f k l = Ok ys ->
    nth_error l i = Some a -> exists y, f a (k + i) = Ok y /\ In y ys.
Proof.
  induction l as [|x l IH]; intros k i ys a H Hn.
  - destruct i; discriminate.
  - simpl in H. destruct (f x k) as [b|] eqn:Ex; [|discriminate].
    cbn [obind] in H.
    destruct (JS.mapi_outcome f (S k) l) as [bs|] eqn:El; [|discriminate].
    cbn [obind] in H. injection H as <-.
    destruct i as [|i]; simpl in Hn.
    + injection Hn as ->. rewrite Nat.add_0_r. exists b.
      split; [exact Ex|now left].
    + destruct (IH (S k) i bs a El Hn) as (y & Hy & Hiny).
      exists y. rewrite <- Nat.add_succ_comm. split; [exact Hy|now right].
Qed.

Lemma truthy_length (n : nat) :
  JS.truthy (num_of_nat n) = negb (Nat.eqb n 0).
Proof. destruct n; reflexivity. Qed.

(** X10.  The knowledge-query handler numbers the documents from 1 in the
    order of the array: the system prompt holds, for the document at
    position [i], the entry [[i+1] title:] followed on the next line by its
    content.  When [documents] has no truthy [length] (missing, [null], an
    empty array) the prompt says [No documents available.] instead. *)
Theorem knowledge_prompt_numbers_documents (query : value) :
  (forall docs msgs i d title body,
     KnowledgeQuery.build_messages query (VArr docs) = Ok msgs ->
     nth_error docs i = Some d ->
     JS.get_prop d "title" = Ok title ->
     JS.get_prop d "content" = Ok body ->
     exists sys title_text body_text,
       msgs = [ mkMessage (VStr "system") (VStr sys);
                mkMessage (VStr "user") query ] /\
       JS.to_string title = Ok title_text /\
       JS.to_string body = Ok body_text /\
       includes ("[" ++ nat_to_string (i + 1) ++ "] " ++ title_text
                 ++ ":" ++ NL ++ body_text) sys = true) /\
  (forall documents len,
     JS.opt_prop documents "length" = Ok len ->
     JS.truthy len = false ->
     KnowledgeQuery.build_messages query documents
     = Ok [ mkMessage (VStr "system")
              (VStr (KnowledgeQuery.systemPrompt "No documents available."));
            mkMessage (VStr "user") query ]).
Proof.
  split.
  - intros docs msgs i d title body H Hn Ht Hc.
    unfold KnowledgeQuery.build_messages, KnowledgeQuery.docsContext in H.
    change (JS.opt_prop (VArr docs) "length")
      with (Ok (num_of_nat (List.length docs))) in H.
    cbn [obind] in H. rewrite truthy_length in H.
    destruct docs as [|d0 docs']; [destruct i; discriminate|].
    cbn [List.length Nat.eqb negb] in H. cbv iota in H.
    unfold JS.array_mapi in H.
    destruct (JS.mapi_outcome KnowledgeQuery.doc_entry 0 (d0 :: docs'))
      as [entries|] eqn:Em; [|discriminate].
    cbn [obind] in H. injection H as <-.
    destruct (mapi_outcome_defined _ _ _ _ _ _ Em Hn) as (entry & He & Hy).
    unfold KnowledgeQuery.doc_entry in He. rewrite Ht in He.
    cbn [obind] in He.
    destruct (JS.to_string title) as [title_text|] eqn:Et; [|discriminate].
    cbn [obind] in He. rewrite Hc in He. cbn [obind] in He.
    destruct (JS.to_string body) as [body_text|] eqn:Eb; [|discriminate].
    cbn [obind] in He. injection He as <-.
    eexists. exists title_text, body_text.
    split; [reflexivity|]. split; [reflexivity|]. split; [reflexivity|].
    set (entry := "[" ++ nat_to_string (0 + i + 1) ++ "] " ++ title_text
                  ++ ":" ++ NL ++ body_text) in *.
    destruct (join_holds (String Chars.lf NL) entry entries Hy)
      as (a & b & ->).
    unfold KnowledgeQuery.systemPrompt.
    do 18 apply includes_skip. rewrite !append_assoc.
    apply includes_skip, includes_here.
  - intros documents len Hl Hf.
    unfold KnowledgeQuery.build_messages, KnowledgeQuery.docsContext.
    rewrite Hl. cbn [obind]. rewrite Hf. reflexivity.
Qed.

Lemma knowledge_prompt_numbers_documents_witness :
  exists sys title_text body_text,
    [ mkMessage (VStr "system")
        (VStr (KnowledgeQuery.systemPrompt
                 ("[1] A:" ++ NL ++ "alpha" ++ NL ++ NL ++
                  "[2] B:" ++ NL ++ "beta")));
      mkMessage (VStr "user") (VStr "which?") ]
    = [ mkMessage (VStr "system") (VStr sys);
        mkMessage (VStr "user") (VStr "which?") ] /\
    JS.to_string (VStr "B") = Ok title_text /\
    JS.to_string (VStr "beta") = Ok body_text /\
    includes ("[" ++ nat_to_string (1 + 1) ++ "] " ++ title_text ++ ":" ++
              NL ++ body_text) sys = true.
Proof.
  refine (proj1 (knowledge_prompt_numbers_documents (VStr "which?"))
            [ VObj [("title", VStr "A"); ("content", VStr "alpha")];
              VObj [("title", VStr "B"); ("content", VStr "beta")] ]
            _ 1 (VObj [("title", VStr "B"); ("content", VStr "beta")])
            (VStr "B") (VStr "beta") _ eq_refl eq_refl eq_refl).
  vm_compute. reflexivity.
Defined.

Lemma history_entry_value (m : value) (e : chat_message) :
  SupportChat.history_entry m = Ok e ->
  e = mkMessage (JS.lookup_in m "role") (JS.lookup_in m "content").
Proof.
  unfold SupportChat.history_entry.
  destruct m; simpl; intros H; try discriminate; now injection H as <-.
Qed.

Lemma map_outcome_history (l : list value) (es : list chat_message) :
  JS.map_outcome SupportChat.history_entry l = Ok es ->
  es = map (fun m => mkMessage (JS.lookup_in m "role")
                       (JS.lookup_in m "content")) l.
Proof.
  revert es. induction l as [|m l IH]; simpl; intros es H.
  - now injection H as <-.
  - destruct (SupportChat.history_entry m) as [e|] eqn:E; [|discriminate].
    cbn [obind] in H.
    destruct (JS.map_outcome SupportChat.history_entry l) as [es'|];
      [|discriminate].
    cbn [obind] in H. injection H as <-.
    now rewrite (history_entry_value m e E), (IH es' eq_refl).
Qed.

(** X11.  The support-chat handler sends the system prompt first, then the
    conversation history in its order with only [role] and [content] of
    each entry, then the new message as a user message; a missing or falsy
    history contributes nothing. *)
Theorem support_history_is_replayed
    (message conversationHistory knowledgeBase : value)
    (msgs : list chat_message) :
  SupportChat.build_messages message conversationHistory knowledgeBase
  = Ok msgs ->
  exists sys,
    msgs
    = (mkMessage (VStr "system") (VStr sys) ::
       map (fun m => mkMessage (JS.lookup_in m "role")
                       (JS.lookup_in m "content"))
         (match conversationHistory with
          | VArr history => history
          | _ => []
          end) ++
       [mkMessage (VStr "user") message])%list.
Proof.
  unfold SupportChat.build_messages. intros H.
  destruct (SupportChat.kbContext knowledgeBase) as [kb|]; [|discriminate].
  cbn [obind] in H.
  destruct (JS.array_map (JS.or_else conversationHistory (VArr []))
              SupportChat.history_entry) as [es|] eqn:E; [|discriminate].
  cbn [obind] in H. injection H as <-. eexists.
  change ([mkMessage (VStr "system") (VStr (SupportChat.systemPrompt kb))] ++
          es ++ [mkMessage (VStr "user") message])%list
    with (mkMessage (VStr "system") (VStr (SupportChat.systemPrompt kb)) ::
          es ++ [mkMessage (VStr "user") message])%list.
  f_equal. f_equal.
  unfold JS.or_else in E.
  destruct (JS.truthy conversationHistory) eqn:Et.
  - destruct conversationHistory; try discriminate Et; simpl in E;
      try discriminate E.
    now apply map_outcome_history.
  - destruct conversationHistory; try discriminate Et; simpl in E;
      now injection E as <-.
Qed.

Lemma support_history_is_replayed_witness :
  exists sys,
    [ mkMessage (VStr "system") (VStr (SupportChat.systemPrompt EmptyString));
      mkMessage (VStr "user") (VStr "hello");
      mkMessage (VStr "assistant") (VStr "hi");
      mkMessage (VStr "user") (VStr "help") ]
    = (mkMessage (VStr "system") (VStr sys) ::
       map (fun m => mkMessage (JS.lookup_in m "role")
                       (JS.lookup_in m "content"))
         [ VObj [("role", VStr "user"); ("content", VStr "hello");
                 ("timestamp", VStr "t1")];
           VObj [("role", VStr "assistant"); ("content", VStr "hi");
                 ("timestamp", VStr "t2")] ] ++
       [mkMessage (VStr "user") (VStr "help")])%list.
Proof.
  refine (support_history_is_replayed (VStr "help")
            (VArr [ VObj [("role", VStr "user"); ("content", VStr "hello");
                          ("timestamp", VStr "t1")];
                    VObj [("role", VStr "assistant"); ("content", VStr "hi");
                          ("timestamp", VStr "t2")] ])
            VUndef _ _).
  vm_compute. reflexivity.
Defined.

(** ** Text after a complete object *)

Lemma lex_unfold_step (c : ascii) (r : string) (m : JSON.lex_mode)
    (out : list JSON.token) :
  JSON.lex (String c r) m out
  = match LexRun.lex_step c m out with
    | Some (m', out') => JSON.lex r m' out'
    | None => None
    end.
Proof.
  destruct m; cbn [JSON.lex LexRun.lex_step].
  - reflexivity.
  - destruct (N.eqb (Chars.code c) 34); [reflexivity|].
    destruct (N.eqb (Chars.code c) 92); [reflexivity|].
    destruct (N.ltb (Chars.code c) 32); reflexivity.
  - destruct (N.eqb (Chars.code c) 117); [reflexivity|].
    destruct (JSON.escape_char c); reflexivity.
  - destruct (Chars.hex_value c); [|reflexivity].
    destruct hex as [|? [|? [|? [|? ?]]]]; reflexivity.
  - destruct (JSON.is_numchar c); [reflexivity|].
    destruct (JSON.num_token acc); reflexivity.
  - destruct (Chars.is_lower c); [reflexivity|].
    destruct (JSON.word_token acc); reflexivity.
Qed.

Lemma lex_app (s1 s2 : string) :
  forall (m : JSON.lex_mode) (out : list JSON.token),
    JSON.lex (s1 ++ s2) m out
    = match LexRun.lex_run s1 m out with
      | Some (m', out') => JSON.lex s2 m' out'
      | None => None
      end.
Proof.
  induction s1 as [|c r IH]; intros m out; [reflexivity|].
  cbn [append LexRun.lex_run]. rewrite lex_unfold_step.
  destruct (LexRun.lex_step c m out) as [[m' out']|]; [apply IH|reflexivity].
Qed.

Lemma lex_run_app (s1 s2 : string) :
  forall (m : JSON.lex_mode) (out : list JSON.token),
    LexRun.lex_run (s1 ++ s2) m out
    = match LexRun.lex_run s1 m out with
      | Some (m', out') => LexRun.lex_run s2 m' out'
      | None => None
      end.
Proof.
  induction s1 as [|c r IH]; intros m out; [reflexivity|].
  cbn [append LexRun.lex_run].
  destruct (LexRun.lex_step c m out) as [[m' out']|]; [apply IH|reflexivity].
Qed.

Lemma lex_run_total (s : string) (m : JSON.lex_mode)
    (out ts : list JSON.token) :
  JSON.lex s m out = Some ts ->
  exists m' out',
    LexRun.lex_run s m out = Some (m', out') /\
    JSON.lex EmptyString m' out' = Some ts.
Proof.
  intros H. rewrite <- (append_empty_r s), lex_app in H.
  destruct (LexRun.lex_run s m out) as [[m' out']|]; [eauto|discriminate].
Qed.

(** After a closing brace that ends an accepted text the lexer is between
    tokens. *)
Lemma step_close_mode (m m' : JSON.lex_mode) (out out' ts : list JSON.token) :
  LexRun.lex_step "}" m out = Some (m', out') ->
  JSON.lex EmptyString m' out' = Some ts ->
  m' = JSON.LTop /\ ts = rev out'.
Proof.
  destruct m; cbn; intros H Hf.
  - injection H as <- <-. cbn in Hf. now injection Hf as <-.
  - injection H as <- <-. discriminate.
  - discriminate.
  - discriminate.
  - destruct (JSON.num_token acc); [|discriminate].
    injection H as <- <-. cbn in Hf. now injection Hf as <-.
  - destruct (JSON.word_token acc); [|discriminate].
    injection H as <- <-. cbn in Hf. now injection Hf as <-.
Qed.

Lemma tokens_ending_in_close (s0 : string) (ts : list JSON.token) :
  JSON.tokens (s0 ++ "}") = Some ts ->
  exists out,
    LexRun.lex_run (s0 ++ "}") JSON.LTop [] = Some (JSON.LTop, out) /\
    ts = rev out.
Proof.
  unfold JSON.tokens. intros H.
  destruct (lex_run_total _ _ _ _ H) as (m' & out' & Hr & Hf).
  rewrite lex_run_app in Hr.
  destruct (LexRun.lex_run s0 JSON.LTop []) as [[m1 out1]|] eqn:E0;
    [|discriminate].
  cbn [LexRun.lex_run] in Hr.
  destruct (LexRun.lex_step "}" m1 out1) as [[m2 out2]|] eqn:Es;
    [|discriminate].
  injection Hr as <- <-.
  destruct (step_close_mode _ _ _ _ _ Es Hf) as [-> ->].
  exists out2. split; [|reflexivity].
  rewrite lex_run_app, E0. cbn [LexRun.lex_run]. now rewrite Es.
Qed.

Lemma lex_longer (s : string) (m : JSON.lex_mode)
    (out ts : list JSON.token) :
  JSON.lex s m out = Some ts -> List.length out <= List.length ts.
Proof.
  intros H. destruct (lex_extends s m out ts H) as [l ->].
  rewrite length_app, length_rev. lia.
Qed.

Lemma top_step_longer (c : ascii) (out out' : list JSON.token)
    (m : JSON.lex_mode) :
  JSON.top_step c out = Some (m, out') ->
  List.length out <= List.length out' /\
  (Chars.is_ws c = false -> m = JSON.LTop ->
   List.length out < List.length out').
Proof.
  unfold JSON.top_step. intros H.
  destruct (Chars.is_ws c).
  - injection H as <- <-. split; [lia|discriminate].
  - repeat match type of H with
           | (if ?b then _ else _) = _ => destruct b
           end;
      try discriminate; injection H as <- <-; simpl;
      (split; [lia|]); intros _ Hm; try discriminate; lia.
Qed.

(** Read from inside a token, an accepted text yields at least that token. *)
Lemma lex_inside_adds (s : string) :
  forall (m : JSON.lex_mode) (out ts : list JSON.token),
    m <> JSON.LTop ->
    JSON.lex s m out = Some ts -> List.length out < List.length ts.
Proof.
  induction s as [|c r IH]; intros m out ts Hm H.
  - destruct m; cbn in H; try discriminate; try (now elim Hm).
    + destruct (JSON.num_token acc); [|discriminate].
      injection H as <-.
      repeat (rewrite length_app || rewrite length_rev). simpl. lia.
    + destruct (JSON.word_token acc); [|discriminate].
      injection H as <-.
      repeat (rewrite length_app || rewrite length_rev). simpl. lia.
  - rewrite lex_unfold_step in H.
    destruct (LexRun.lex_step c m out) as [[m' out']|] eqn:Es;
      [|discriminate].
    destruct m; cbn [LexRun.lex_step] in Es; try (now elim Hm).
    + destruct (N.eqb (Chars.code c) 34).
      * injection Es as <- <-. apply lex_longer in H. simpl in H. lia.
      * destruct (N.eqb (Chars.code c) 92);
          [injection Es as <- <-; (eapply IH; [|exact H]; discriminate)|].
        destruct (N.ltb (Chars.code c) 32); [discriminate|].
        injection Es as <- <-. (eapply IH; [|exact H]; discriminate).
    + destruct (N.eqb (Chars.code c) 117);
        [injection Es as <- <-; (eapply IH; [|exact H]; discriminate)|].
      destruct (JSON.escape_char c); [|discriminate].
      injection Es as <- <-. (eapply IH; [|exact H]; discriminate).
    + destruct (Chars.hex_value c); [|discriminate].
      destruct hex as [|? [|? [|? [|? ?]]]]; injection Es as <- <-;
        (eapply IH; [|exact H]; discriminate).
    + destruct (JSON.is_numchar c);
        [injection Es as <- <-; (eapply IH; [|exact H]; discriminate)|].
      destruct (JSON.num_token acc) as [t|]; [|discriminate].
      apply top_step_longer in Es as [Hl _]. apply lex_longer in H.
      simpl in Hl. lia.
    + destruct (Chars.is_lower c);
        [injection Es as <- <-; (eapply IH; [|exact H]; discriminate)|].
      destruct (JSON.word_token acc) as [t|]; [|discriminate].
      apply top_step_longer in Es as [Hl _]. apply lex_longer in H.
      simpl in Hl. lia.
Qed.

(** Read between tokens, an accepted text that is not blank yields a
    token. *)
Lemma lex_nonblank_adds (s : string) :
  forall (out ts : list JSON.token),
    LexRun.blank s = false ->
    JSON.lex s JSON.LTop out = Some ts ->
    List.length out < List.length ts.
Proof.
  induction s as [|c r IH]; intros out ts Hb H; [discriminate|].
  rewrite lex_unfold_step in H. cbn [LexRun.lex_step] in H.
  destruct (JSON.top_step c out) as [[m' out']|] eqn:Es; [|discriminate].
  destruct (top_step_longer _ _ _ _ Es) as [Hl Hlt].
  cbn [LexRun.blank] in Hb.
  destruct (Chars.is_ws c) eqn:Hw.
  - unfold JSON.top_step in Es. rewrite Hw in Es. injection Es as <- <-.
    apply (IH _ _ Hb H).
  - destruct m'.
    + specialize (Hlt eq_refl eq_refl). apply lex_longer in H. lia.
    + apply lex_inside_adds in H; [lia|discriminate].
    + apply lex_inside_adds in H; [lia|discriminate].
    + apply lex_inside_adds in H; [lia|discriminate].
    + apply lex_inside_adds in H; [lia|discriminate].
    + apply lex_inside_adds in H; [lia|discriminate].
Qed.

Lemma prun_app (a b : list JSON.token) :
  forall st,
    JSON.prun st (a ++ b)
    = match JSON.prun st a with
      | Some st' => JSON.prun st' b
      | None => None
      end.
Proof.
  induction a as [|t a IH]; intros st; [reflexivity|]. simpl.
  destruct (JSON.pstep st t); [apply IH|reflexivity].
Qed.

(** A complete value that ends with a brace, followed by anything that is
    not blank, is not JSON. *)
Lemma parse_rejects_trailing_text (s0 rest : string) (v : value) :
  JSON.parse (s0 ++ "}") = Ok v ->
  LexRun.blank rest = false ->
  JSON.parse ((s0 ++ "}") ++ rest) = Throw SyntaxError.
Proof.
  unfold JSON.parse. intros H Hb.
  destruct (JSON.tokens (s0 ++ "}")) as [ts|] eqn:Et; [|discriminate].
  destruct (tokens_ending_in_close s0 ts Et) as (out & Hr & ->).
  unfold JSON.tokens. rewrite lex_app, Hr.
  destruct (JSON.lex rest JSON.LTop out) as [ts'|] eqn:El; [|reflexivity].
  pose proof (lex_nonblank_adds rest out ts' Hb El) as Hlen.
  destruct (lex_extends rest _ out ts' El) as [l ->].
  rewrite prun_app.
  destruct (JSON.prun (JSON.PValue []) (rev out)) as [st|]; [|reflexivity].
  destruct st; try discriminate.
  destruct l as [|t l]; [|reflexivity].
  rewrite app_nil_r, length_rev in Hlen. lia.
Qed.

Lemma not_blank_with_close (mid : string) :
  LexRun.blank (mid ++ "}") = false.
Proof.
  induction mid as [|c r IH]; [reflexivity|]. cbn [append LexRun.blank].
  rewrite IH. apply andb_false_r.
Qed.

(** X12.  A completion that holds a well-formed object followed, further
    on, by another closing brace (a second object, or a stray [}] in the
    prose) is not extracted: the regex span runs to the last brace,
    [JSON.parse] rejects it, and every feature returns the object of its
    [catch] with the whole completion in it. *)
Theorem object_followed_by_brace_falls_back
    (f : feature) (pre inner mid post : string) (v : value) :
  Text.open_free pre = true ->
  Text.close_free post = true ->
  JSON.parse ("{" ++ inner ++ "}") = Ok v ->
  extract f (VStr (pre ++ ("{" ++ inner ++ "}") ++ (mid ++ "}") ++ post))
  = Ok (fallback f
          (VStr (pre ++ ("{" ++ inner ++ "}") ++ (mid ++ "}") ++ post))).
Proof.
  intros Hpre Hpost Hp.
  rewrite extract_unfold.
  assert (Hm : JS.regex_match
                 (pre ++ ("{" ++ inner ++ "}") ++ (mid ++ "}") ++ post)
               = Some (("{" ++ inner ++ "}") ++ (mid ++ "}"))).
  { replace (pre ++ ("{" ++ inner ++ "}") ++ (mid ++ "}") ++ post)
      with (pre ++ "{" ++ (inner ++ "}" ++ mid) ++ "}" ++ post).
    - rewrite (regex_match_object pre (inner ++ "}" ++ mid) post Hpre Hpost).
      f_equal. cbn [append]. f_equal. now rewrite !append_assoc.
    - cbn [append]. f_equal. f_equal. now rewrite !append_assoc. }
  rewrite Hm.
  change ("{" ++ inner ++ "}") with (("{" ++ inner) ++ "}") in *.
  rewrite (parse_rejects_trailing_text ("{" ++ inner) (mid ++ "}") v Hp
             (not_blank_with_close mid)).
  reflexivity.
Qed.

Lemma object_followed_by_brace_falls_back_witness :
  extract SupportChat
    (VStr ("A: " ++ ("{" ++ (q "reply" ++ ":" ++ q "one") ++ "}") ++
           (" B: {" ++ (q "reply" ++ ":" ++ q "two") ++ "}") ++ " end"))
  = Ok (fallback SupportChat
          (VStr ("A: " ++ ("{" ++ (q "reply" ++ ":" ++ q "one") ++ "}") ++
                 (" B: {" ++ (q "reply" ++ ":" ++ q "two") ++ "}") ++
                 " end"))).
Proof.
  refine (object_followed_by_brace_falls_back SupportChat "A: "
            (q "reply" ++ ":" ++ q "one")
            (" B: {" ++ (q "reply" ++ ":" ++ q "two")) " end"
            (VObj [("reply", VStr "one")]) eq_refl eq_refl _).
  vm_compute. reflexivity.
Defined.


(** * Further properties of the habit tracker *)

(** ** A successful toggle and what the screen shows *)

Lemma on_day_flip (id habitId d : string) (l : HabitTracker.HabitLog) :
  HabitView.on_day habitId d (HabitView.flip_log id l)
  = HabitView.on_day habitId d l.
Proof.
  unfold HabitView.flip_log.
  destruct (String.eqb (HabitTracker.l_id l) id); reflexivity.
Qed.

Lemma find_flip (id habitId d : string) (ls : list HabitTracker.HabitLog) :
  find (HabitView.on_day habitId d) (map (HabitView.flip_log id) ls)
  = option_map (HabitView.flip_log id)
      (find (HabitView.on_day habitId d) ls).
Proof.
  induction ls as [|l ls IH]; [reflexivity|]. simpl.
  rewrite on_day_flip.
  destruct (HabitView.on_day habitId d l); [reflexivity|exact IH].
Qed.

Lemma flip_log_twice (id : string) (l : HabitTracker.HabitLog) :
  HabitView.flip_log id (HabitView.flip_log id l) = l.
Proof.
  unfold HabitView.flip_log.
  destruct (String.eqb (HabitTracker.l_id l) id) eqn:E.
  - simpl. rewrite E, negb_involutive. now destruct l.
  - now rewrite E.
Qed.

Lemma find_last_row (habitId d : string) (ls : list HabitTracker.HabitLog)
    (row : HabitTracker.HabitLog) :
  find (HabitView.on_day habitId d) ls = None ->
  HabitView.on_day habitId d row = true ->
  find (HabitView.on_day habitId d) (ls ++ [row]) = Some row.
Proof.
  induction ls as [|l ls IH]; simpl; intros Hn Hr.
  - now rewrite Hr.
  - destruct (HabitView.on_day habitId d l); [discriminate|]. now apply IH.
Qed.

(** The logs after a toggle that found a log of today and whose write was
    accepted. *)
Lemma toggle_existing_logs
    (db : HabitTracker.db_write -> HabitTracker.db_result)
    (c : HabitTracker.component) (today habitId : string)
    (existing : HabitTracker.HabitLog) :
  (forall w, HabitTracker.error (db w) = None) ->
  find (HabitView.on_day habitId today) (HabitTracker.logs c)
  = Some existing ->
  HabitTracker.logs (HabitView.after_toggle db c today habitId)
  = map (HabitView.flip_log (HabitTracker.l_id existing))
      (HabitTracker.logs c).
Proof.
  intros Hdb Hf.
  unfold HabitView.after_toggle, HabitTracker.toggleHabit.
  cbn [HabitTracker.logs].
  change (find _ (HabitTracker.logs c))
    with (find (HabitView.on_day habitId today) (HabitTracker.logs c)).
  rewrite Hf, Hdb. cbn [HabitTracker.logs_after].
  destruct (negb (HabitTracker.l_completed existing)); reflexivity.
Qed.

(** X13.  With a database that accepts the write (and answers an insert
    with the stored row), one toggle flips what [getHabitCompletion] shows
    for the habit today, whether a log of today existed or not. *)
Theorem accepted_toggle_flips_completion
    (db : HabitTracker.db_write -> HabitTracker.db_result)
    (c : HabitTracker.component) (today habitId : string) :
  HabitView.stores_rows db ->
  HabitView.getHabitCompletion
    (HabitTracker.logs (HabitView.after_toggle db c today habitId))
    today habitId
  = negb (HabitView.getHabitCompletion (HabitTracker.logs c) today habitId).
Proof.
  intros [Herr Hrow]. unfold HabitView.getHabitCompletion at 2.
  destruct (find (HabitView.on_day habitId today) (HabitTracker.logs c))
    as [existing|] eqn:Hf.
  - rewrite (toggle_existing_logs db c today habitId existing Herr Hf).
    unfold HabitView.getHabitCompletion. rewrite find_flip, Hf. simpl.
    unfold HabitView.flip_log. now rewrite String.eqb_refl.
  - destruct (Hrow habitId (HabitTracker.user_id c) today)
      as (row & Hd & Hh & Hl & Hc).
    unfold HabitView.after_toggle, HabitTracker.toggleHabit.
    cbn [HabitTracker.logs].
    change (find _ (HabitTracker.logs c))
      with (find (HabitView.on_day habitId today) (HabitTracker.logs c)).
    rewrite Hf, Herr, Hd. cbn [HabitTracker.logs_after].
    unfold HabitView.getHabitCompletion.
    rewrite (find_last_row habitId today _ row Hf).
    + now rewrite Hc.
    + unfold HabitView.on_day. now rewrite Hh, Hl, !String.eqb_refl.
Qed.

Lemma accepting_db_stores_rows : HabitView.stores_rows HabitView.accepting_db.
Proof.
  split; [intros []; reflexivity|].
  intros habitId user day. eexists. repeat split.
Qed.

Lemma accepted_toggle_flips_completion_witness :
  HabitView.getHabitCompletion
    (HabitTracker.logs
       (HabitView.after_toggle HabitView.accepting_db Scenario.screen
          "2024-01-01" "h1"))
    "2024-01-01" "h1"
  = negb (HabitView.getHabitCompletion (HabitTracker.logs Scenario.screen)
            "2024-01-01" "h1").
Proof.
  exact (accepted_toggle_flips_completion HabitView.accepting_db
           Scenario.screen "2024-01-01" "h1" accepting_db_stores_rows).
Defined.

(** X14.  When the habit already has a log of today and the database
    accepts both writes, toggling twice leaves the local logs exactly as
    they were. *)
Theorem toggling_twice_restores_logs
    (db : HabitTracker.db_write -> HabitTracker.db_result)
    (c : HabitTracker.component) (today habitId : string)
    (existing : HabitTracker.HabitLog) :
  (forall w, HabitTracker.error (db w) = None) ->
  find (HabitView.on_day habitId today) (HabitTracker.logs c)
  = Some existing ->
  HabitTracker.logs
    (HabitView.after_toggle db
       (HabitView.after_toggle db c today habitId) today habitId)
  = HabitTracker.logs c.
Proof.
  intros Hdb Hf.
  pose proof (toggle_existing_logs db c today habitId existing Hdb Hf) as H1.
  assert (Hf2 : find (HabitView.on_day habitId today)
                  (HabitTracker.logs
                     (HabitView.after_toggle db c today habitId))
                = Some (HabitView.flip_log (HabitTracker.l_id existing)
                          existing))
    by (rewrite H1, find_flip, Hf; reflexivity).
  rewrite (toggle_existing_logs db _ today habitId _ Hdb Hf2), H1.
  assert (Hid : HabitTracker.l_id
                  (HabitView.flip_log (HabitTracker.l_id existing) existing)
                = HabitTracker.l_id existing).
  { unfold HabitView.flip_log. now rewrite String.eqb_refl. }
  rewrite Hid, map_map.
  rewrite <- (map_id (HabitTracker.logs c)) at 2.
  apply map_ext. intros l. apply flip_log_twice.
Qed.

Lemma toggling_twice_restores_logs_witness :
  let c := HabitTracker.mkComponent []
             [ HabitTracker.mkHabitLog "l1" "h1" true (Some "note")
                 "2024-01-01";
               HabitTracker.mkHabitLog "l2" "h2" false None "2024-01-01" ]
             (Some "u1") in
  HabitTracker.logs
    (HabitView.after_toggle HabitView.accepting_db
       (HabitView.after_toggle HabitView.accepting_db c "2024-01-01" "h1")
       "2024-01-01" "h1")
  = HabitTracker.logs c.
Proof.
  intros c.
  exact (toggling_twice_restores_logs HabitView.accepting_db c
           "2024-01-01" "h1"
           (HabitTracker.mkHabitLog "l1" "h1" true (Some "note")
              "2024-01-01")
           (fun w => match w with
                     | HabitTracker.Update _ _ => eq_refl
                     | HabitTracker.Insert _ _ _ _ => eq_refl
                     end)
           eq_refl).
Defined.

(** X15.  After a first toggle has inserted today's row, the next toggle of
    the same habit does exactly two things: it sends one update that sets
    that row to not completed, and it flips the row in the local logs.  It
    sends no insert, so no second row is created, and it shows no toast. *)
Theorem second_toggle_updates_inserted_row
    (db : HabitTracker.db_write -> HabitTracker.db_result)
    (c : HabitTracker.component) (today habitId : string) :
  HabitView.stores_rows db ->
  find (HabitView.on_day habitId today) (HabitTracker.logs c) = None ->
  exists row,
    HabitTracker.data
      (db (HabitTracker.Insert habitId (HabitTracker.user_id c) true today))
    = Some row /\
    HabitTracker.toggleHabit db c today habitId
    = [ HabitTracker.Write
          (HabitTracker.Insert habitId (HabitTracker.user_id c) true today);
        HabitTracker.SetLogs (HabitTracker.logs c ++ [row])%list;
        HabitTracker.Toast
          (HabitTracker.habit_title (HabitTracker.habits c) habitId)
          "Keep up the great work!" false ] /\
    HabitTracker.logs (HabitView.after_toggle db c today habitId)
    = (HabitTracker.logs c ++ [row])%list /\
    HabitTracker.toggleHabit db
      (HabitView.after_toggle db c today habitId) today habitId
    = [ HabitTracker.Write
          (HabitTracker.Update (HabitTracker.l_id row) false);
        HabitTracker.SetLogs
          (map (HabitView.flip_log (HabitTracker.l_id row))
             (HabitTracker.logs c ++ [row])%list) ].
Proof.
  intros [Herr Hrow] Hf.
  destruct (Hrow habitId (HabitTracker.user_id c) today)
    as (row & Hd & Hh & Hl & Hc).
  assert (H0 : HabitTracker.toggleHabit db c today habitId
               = [ HabitTracker.Write
                     (HabitTracker.Insert habitId (HabitTracker.user_id c)
                        true today);
                   HabitTracker.SetLogs (HabitTracker.logs c ++ [row])%list;
                   HabitTracker.Toast
                     (HabitTracker.habit_title (HabitTracker.habits c)
                        habitId)
                     "Keep up the great work!" false ]).
  { unfold HabitTracker.toggleHabit.
    change (find _ (HabitTracker.logs c))
      with (find (HabitView.on_day habitId today) (HabitTracker.logs c)).
    now rewrite Hf, Herr, Hd. }
  assert (H1 : HabitTracker.logs (HabitView.after_toggle db c today habitId)
               = (HabitTracker.logs c ++ [row])%list).
  { unfold HabitView.after_toggle. cbn [HabitTracker.logs].
    now rewrite H0. }
  exists row. split; [exact Hd|]. split; [exact H0|]. split; [exact H1|].
  unfold HabitTracker.toggleHabit at 1.
  change (find _ (HabitTracker.logs
                    (HabitView.after_toggle db c today habitId)))
    with (find (HabitView.on_day habitId today)
            (HabitTracker.logs (HabitView.after_toggle db c today habitId))).
  rewrite H1, (find_last_row habitId today _ row Hf).
  - rewrite Hc, Herr. reflexivity.
  - unfold HabitView.on_day. now rewrite Hh, Hl, !String.eqb_refl.
Qed.

Lemma second_toggle_updates_inserted_row_witness :
  let row := HabitTracker.mkHabitLog "row-1" "h1" true None "2024-01-01" in
  HabitTracker.toggleHabit HabitView.accepting_db
    (HabitView.after_toggle HabitView.accepting_db Scenario.screen
       "2024-01-01" "h1") "2024-01-01" "h1"
  = [ HabitTracker.Write (HabitTracker.Update "row-1" false);
      HabitTracker.SetLogs
        (map (HabitView.flip_log "row-1")
           (HabitTracker.logs Scenario.screen ++ [row])%list) ].
Proof.
  intros row.
  destruct (second_toggle_updates_inserted_row HabitView.accepting_db
              Scenario.screen "2024-01-01" "h1" accepting_db_stores_rows
              eq_refl) as (row' & Hd & _ & _ & H2).
  injection Hd as <-. exact H2.
Defined.

(** ** The streak *)

Section StreakFacts.

Variable sort : list HabitTracker.HabitLog -> list HabitTracker.HabitLog.
Variable day : nat -> string.
Hypothesis sort_permutes : forall l, Permutation l (sort l).

Lemma existsb_permutation {A} (p : A -> bool) (l l' : list A) :
  Permutation l l' -> existsb p l = existsb p l'.
Proof.
  induction 1; simpl; try congruence.
  destruct (p x), (p y); reflexivity.
Qed.

Lemma logged_on_done (ls : list HabitTracker.HabitLog) (habitId : string)
    (i : nat) :
  HabitView.logged_on day (HabitView.completed_logs sort ls habitId) i
  = HabitView.done_on ls habitId (day i).
Proof.
  unfold HabitView.logged_on, HabitView.completed_logs, HabitView.done_on.
  rewrite <- (existsb_permutation _ _ _ (sort_permutes _)).
  induction ls as [|l ls IH]; [reflexivity|]. simpl.
  destruct (String.eqb (HabitTracker.l_habit_id l) habitId
            && HabitTracker.l_completed l)%bool; simpl; now rewrite IH.
Qed.

Lemma streak_loop_bound (hl : list HabitTracker.HabitLog) (fuel : nat) :
  forall i streak,
    HabitView.streak_loop day hl fuel i streak <= streak + fuel.
Proof.
  induction fuel as [|fuel IH]; intros i streak; simpl; [lia|].
  destruct (HabitView.logged_on day hl i).
  - specialize (IH (S i) (S streak)). lia.
  - destruct (Nat.ltb 0 i); [lia|]. specialize (IH (S i) streak). lia.
Qed.

Lemma streak_loop_step (hl : list HabitTracker.HabitLog)
    (fuel i streak : nat) :
  HabitView.streak_loop day hl (S fuel) i streak
  = if HabitView.logged_on day hl i
    then HabitView.streak_loop day hl fuel (S i) (S streak)
    else if Nat.ltb 0 i then streak
         else HabitView.streak_loop day hl fuel (S i) streak.
Proof. reflexivity. Qed.

(** From day [i >= 1] on, the loop counts the days up to the first one
    without a completed log. *)
Lemma streak_loop_run (hl : list HabitTracker.HabitLog) (k : nat) :
  forall fuel i streak,
    1 <= i -> i <= k -> k < i + fuel ->
    (forall j, i <= j -> j < k -> HabitView.logged_on day hl j = true) ->
    HabitView.logged_on day hl k = false ->
    HabitView.streak_loop day hl fuel i streak = streak + (k - i).
Proof.
  induction fuel as [|fuel IH]; intros i streak Hi Hik Hk Hall Hno;
    [lia|]. simpl.
  destruct (Nat.eq_dec i k) as [->|Hne].
  - rewrite Hno. destruct k; [lia|]. simpl. lia.
  - rewrite (Hall i (le_n _)) by lia.
    rewrite (IH (S i) (S streak)); try lia.
    + intros j Hj1 Hj2. apply Hall; lia.
    + exact Hno.
Qed.

(** X16.  [getStreak] counts consecutive dates of its loop with a completed
    log of the habit.  [day i] is the date string the loop computes at
    iteration [i]: the date part of [toISOString()] for the local midnight
    that began today, moved back [i] local days; [day 0] is the calendar
    date of today only where that instant falls on it in UTC.  If the dates
    [day 1 .. day (k-1)] all have a completed log and [day k] has none
    ([1 <= k < 30]), the streak is [k] when [day 0] has one too and [k - 1]
    when it has not, so a first date without a completed log does not break
    the streak.  It never exceeds 30, and the order the sort leaves the logs
    in plays no role. *)
Theorem streak_counts_consecutive_days
    (ls : list HabitTracker.HabitLog) (habitId : string) :
  HabitView.getStreak sort day ls habitId <= 30 /\
  forall k,
    1 <= k -> k < 30 ->
    (forall j, 1 <= j -> j < k ->
               HabitView.done_on ls habitId (day j) = true) ->
    HabitView.done_on ls habitId (day k) = false ->
    HabitView.getStreak sort day ls habitId
    = if HabitView.done_on ls habitId (day 0) then k else k - 1.
Proof.
  unfold HabitView.getStreak. split.
  - destruct (Nat.eqb _ 0); [lia|].
    pose proof (streak_loop_bound
                  (HabitView.completed_logs sort ls habitId) 30 0 0). lia.
  - intros k Hk1 Hk30 Hall Hno.
    set (hl := HabitView.completed_logs sort ls habitId).
    assert (Hl : forall i, HabitView.logged_on day hl i
                           = HabitView.done_on ls habitId (day i))
      by (intros i; apply logged_on_done).
    assert (Hrun : forall s, HabitView.streak_loop day hl 29 1 s
                             = s + (k - 1)).
    { intros s. apply (streak_loop_run hl k); try lia.
      - intros j Hj1 Hj2. rewrite Hl. now apply Hall.
      - now rewrite Hl. }
    destruct (Nat.eqb (List.length hl) 0) eqn:Hlen.
    + apply Nat.eqb_eq in Hlen. apply length_zero_iff_nil in Hlen.
      assert (H0 : HabitView.done_on ls habitId (day 0) = false)
        by (rewrite <- Hl, Hlen; reflexivity).
      rewrite H0.
      destruct (Nat.eq_dec k 1) as [->|Hne]; [reflexivity|].
      assert (H1 : HabitView.done_on ls habitId (day 1) = true)
        by (apply Hall; lia).
      rewrite <- Hl, Hlen in H1. discriminate.
    + rewrite streak_loop_step, Hl. cbn [Nat.ltb Nat.leb].
      destruct (HabitView.done_on ls habitId (day 0)); rewrite Hrun; lia.
Qed.

End StreakFacts.

Lemma streak_counts_consecutive_days_witness :
  let day := fun i => nth i ["2024-01-05"; "2024-01-04"; "2024-01-03";
                             "2024-01-02"] "earlier" in
  let ls := [ HabitTracker.mkHabitLog "a" "h1" true None "2024-01-04";
              HabitTracker.mkHabitLog "b" "h1" true None "2024-01-03";
              HabitTracker.mkHabitLog "c" "h1" false None "2024-01-02";
              HabitTracker.mkHabitLog "d" "h2" true None "2024-01-02" ] in
  HabitView.getStreak (fun l => rev l) day ls "h1" = 2.
Proof.
  intros day ls.
  refine (proj2 (streak_counts_consecutive_days (fun l => rev l) day
                   (fun l => Permutation_rev l) ls "h1") 3 _ _ _ _).
  - lia.
  - lia.
  - intros j Hj1 Hj2.
    assert (Hj : j = 1 \/ j = 2) by lia. destruct Hj as [-> | ->]; reflexivity.
  - reflexivity.
Defined.

(** * Properties of the support screen *)

Section SendFacts.

Variable invoke : value -> SupportScreen.invoke_result.
Variable update : string -> list (string * value) -> value.
Variables t_user t_reply t_saved t_listed : string.

Let click := SupportScreen.click invoke update t_user t_reply t_saved t_listed.
Let attempt := SupportScreen.attempt invoke update t_reply t_saved t_listed.

Lemma conversation_eta (c : SupportScreen.conversation) :
  SupportScreen.mkConversation (SupportScreen.conv_id c)
    (SupportScreen.conv_subject c) (SupportScreen.conv_messages c)
    (SupportScreen.conv_other c) = c.
Proof. now destruct c. Qed.

Lemma apply_events_app (st : SupportScreen.screen)
    (a b : list SupportScreen.event) :
  SupportScreen.apply_events st (a ++ b)
  = SupportScreen.apply_events (SupportScreen.apply_events st a) b.
Proof. apply fold_left_app. Qed.

(** The events of a failed [try] block change nothing on the screen. *)
Lemma failed_attempt_is_silent (input : string)
    (c : SupportScreen.conversation) (msgs : list value)
    (evs : list SupportScreen.event) (e : SupportScreen.thrown)
    (st : SupportScreen.screen) :
  attempt input c msgs = (evs, Some e) ->
  SupportScreen.apply_events st evs = st /\ SupportScreen.toasts evs = [].
Proof.
  unfold attempt, SupportScreen.attempt. intros H.
  repeat match type of H with
         | (if ?b then _ else _) = _ => destruct b
         | match ?x with Ok _ => _ | Throw _ => _ end = _ => destruct x
         end;
    try discriminate; injection H as <- _; split; reflexivity.
Qed.

(** X18.  When a send gets past its guard and anything in the [try] block
    fails (the function call or the table update reports an error, the
    answer carries an [error] field, or it is [null]), the screen ends with
    the active conversation exactly as it was before the click, the sending
    flag off, the conversation list untouched and one error toast; the input
    field stays cleared, so the typed text is gone. *)
Theorem failed_send_restores_conversation
    (st : SupportScreen.screen) (c : SupportScreen.conversation)
    (evs : list SupportScreen.event) (e : SupportScreen.thrown) :
  SupportScreen.activeConversation st = Some c ->
  JSString.blank (SupportScreen.inputValue st) = false ->
  SupportScreen.isSending st = false ->
  attempt (SupportScreen.inputValue st) c
    (SupportScreen.conv_messages c ++
     [SupportScreen.chat_entry (VStr "user")
        (VStr (SupportScreen.inputValue st)) t_user])%list
  = (evs, Some e) ->
  SupportScreen.apply_events st (click st)
  = SupportScreen.mkScreen (Some c) EmptyString false
      (SupportScreen.conversations st) /\
  SupportScreen.toasts (click st) = [SupportScreen.describe e].
Proof.
  intros Ha Hb Hs Hatt.
  unfold click, SupportScreen.click, SupportScreen.sendMessage.
  rewrite Ha, Hb, Hs. cbn [orb].
  fold attempt. rewrite Hatt.
  destruct (failed_attempt_is_silent _ _ _ _ _
              (SupportScreen.mkScreen
                 (Some (SupportScreen.mkConversation (SupportScreen.conv_id c)
                          (SupportScreen.conv_subject c)
                          (SupportScreen.conv_messages c ++
                           [SupportScreen.chat_entry (VStr "user")
                              (VStr (SupportScreen.inputValue st)) t_user])
                          (SupportScreen.conv_other c)))
                 EmptyString true (SupportScreen.conversations st))
              Hatt) as [Hsil Hto].
  split.
  - rewrite apply_events_app. cbn [SupportScreen.apply_events fold_left
      SupportScreen.apply_event SupportScreen.inputValue
      SupportScreen.isSending SupportScreen.conversations
      SupportScreen.activeConversation].
    rewrite apply_events_app. unfold SupportScreen.apply_events in Hsil.
    unfold SupportScreen.apply_events at 2. rewrite Hsil.
    cbn. now rewrite conversation_eta.
  - unfold SupportScreen.toasts in *. rewrite !flat_map_app, Hto.
    reflexivity.
Qed.

End SendFacts.

Lemma failed_send_restores_conversation_witness :
  let click :=
    SupportScreen.click SupportScenario.failing_invoke
      SupportScenario.accepting_update "t1" "t2" "t3" "t4" in
  SupportScreen.apply_events SupportScenario.before
    (click SupportScenario.before)
  = SupportScreen.mkScreen (Some SupportScenario.ticket) EmptyString false
      [SupportScenario.ticket; SupportScenario.other_ticket] /\
  SupportScreen.toasts (click SupportScenario.before)
  = [SupportScreen.Text
       (VStr "Edge Function returned a non-2xx status code")].
Proof.
  intros click.
  eassert (Hrun :
    SupportScreen.attempt SupportScenario.failing_invoke
      SupportScenario.accepting_update "t2" "t3" "t4"
      (SupportScreen.inputValue SupportScenario.before)
      SupportScenario.ticket
      (SupportScreen.conv_messages SupportScenario.ticket ++
       [SupportScreen.chat_entry (VStr "user")
          (VStr (SupportScreen.inputValue SupportScenario.before)) "t1"])%list
    = (_, Some _)) by (vm_compute; reflexivity).
  exact (failed_send_restores_conversation
           SupportScenario.failing_invoke SupportScenario.accepting_update
           "t1" "t2" "t3" "t4" SupportScenario.before SupportScenario.ticket
           _ _ eq_refl eq_refl eq_refl Hrun).
Defined.

Section SendAccepted.

Variable invoke : value -> SupportScreen.invoke_result.
Variable update : string -> list (string * value) -> value.
Variables t_user t_reply t_saved t_listed : string.

Let click := SupportScreen.click invoke update t_user t_reply t_saved t_listed.

(** X19.  When the function call and the table update both succeed and the
    answer carries no [error], one send adds exactly two entries after the
    messages the conversation had (the typed text as the user, then the
    answer as the assistant), sets the subject from the typed text only if
    the conversation was empty, changes in the list only the rows with the
    id of the active conversation, clears the input and shows no toast.
    The assistant text is [aiData.response]; an answer without a truthy
    [response], such as the [{reply, shouldEscalate}] object of the
    support-chat handler, is shown as the fixed apology. *)
Theorem accepted_send_appends_two_messages
    (st : SupportScreen.screen) (c : SupportScreen.conversation)
    (data : value) :
  SupportScreen.activeConversation st = Some c ->
  JSString.blank (SupportScreen.inputValue st) = false ->
  SupportScreen.isSending st = false ->
  (forall body, invoke body = SupportScreen.mkInvokeResult data VNull) ->
  JS.truthy (JS.lookup_in data "error") = false ->
  JS.is_nullish data = false ->
  (forall id changes, update id changes = VNull) ->
  let reply := JS.or_else (JS.lookup_in data "response")
                 (VStr SupportScreen.apology) in
  let final :=
    (SupportScreen.conv_messages c ++
     [ SupportScreen.chat_entry (VStr "user")
         (VStr (SupportScreen.inputValue st)) t_user;
       SupportScreen.chat_entry (VStr "assistant") reply t_reply ])%list in
  let subject :=
    match SupportScreen.conv_messages c with
    | [] => VStr (SupportScreen.subject_of (SupportScreen.inputValue st))
    | _ => SupportScreen.conv_subject c
    end in
  SupportScreen.apply_events st (click st)
  = SupportScreen.mkScreen
      (Some (SupportScreen.mkConversation (SupportScreen.conv_id c) subject
               final (SupportScreen.conv_other c)))
      EmptyString false
      (map (fun row =>
              if String.eqb (SupportScreen.conv_id row)
                   (SupportScreen.conv_id c)
              then SupportScreen.saved row final subject t_listed
              else row)
         (SupportScreen.conversations st)) /\
  SupportScreen.toasts (click st) = [] /\
  (JS.truthy (JS.lookup_in data "response") = false ->
   reply = VStr SupportScreen.apology).
Proof.
  intros Ha Hb Hs Hinv Herr Hnn Hupd reply final subject.
  assert (Hget : JS.get_prop data "error" = Ok (JS.lookup_in data "error")).
  { destruct data; try discriminate; reflexivity. }
  assert (Hsub : (if Nat.eqb (List.length (SupportScreen.conv_messages c)) 0
                  then VStr (SupportScreen.subject_of
                               (SupportScreen.inputValue st))
                  else SupportScreen.conv_subject c) = subject).
  { subst subject. now destruct (SupportScreen.conv_messages c). }
  unfold click, SupportScreen.click, SupportScreen.sendMessage,
    SupportScreen.attempt.
  rewrite Ha, Hb, Hs, Hinv. cbn [orb SupportScreen.ai_error
    SupportScreen.ai_data JS.truthy]. cbv iota.
  rewrite Hget, Herr, Hupd. cbn [JS.truthy]. cbv iota.
  rewrite Hsub. fold reply.
  replace ((SupportScreen.conv_messages c ++
            [SupportScreen.chat_entry (VStr "user")
               (VStr (SupportScreen.inputValue st)) t_user]) ++
           [SupportScreen.chat_entry (VStr "assistant") reply t_reply])%list
    with final by (subst final; now rewrite <- app_assoc).
  repeat split.
  intros Hr. subst reply. unfold JS.or_else. now rewrite Hr.
Qed.

(** X20.  The body [sendMessage] hands to the support-chat function has the
    two keys [messages] and [conversationId]; the handler reads [message],
    [conversationHistory] and [knowledgeBase].  So for that body (its keys
    survive the JSON round trip) the handler builds a system prompt without
    knowledge base, no history, and a user message whose content is
    [undefined]: the typed text does not reach the gateway. *)
Theorem sent_body_misses_handler_fields
    (st : SupportScreen.screen) (body : value) :
  In (SupportScreen.Invoke body) (click st) ->
  (exists c,
     SupportScreen.activeConversation st = Some c /\
     body = VObj [ ("messages",
                    VArr (SupportScreen.conv_messages c ++
                          [SupportScreen.chat_entry (VStr "user")
                             (VStr (SupportScreen.inputValue st)) t_user]));
                   ("conversationId", VStr (SupportScreen.conv_id c)) ]) /\
  messages_of SupportChat body
  = Ok [ mkMessage (VStr "system")
           (VStr (SupportChat.systemPrompt EmptyString));
         mkMessage (VStr "user") VUndef ].
Proof.
  unfold click, SupportScreen.click, SupportScreen.sendMessage. intros Hin.
  destruct (SupportScreen.activeConversation st) as [c|]; [|destruct Hin].
  destruct (JSString.blank (SupportScreen.inputValue st)
            || SupportScreen.isSending st)%bool; [destruct Hin|].
  assert (Hb : body
               = VObj [ ("messages",
                         VArr (SupportScreen.conv_messages c ++
                               [SupportScreen.chat_entry (VStr "user")
                                  (VStr (SupportScreen.inputValue st))
                                  t_user]));
                        ("conversationId", VStr (SupportScreen.conv_id c)) ]).
  { unfold SupportScreen.attempt in Hin.
    repeat match type of Hin with
           | context [if ?b then _ else _] => destruct b
           | context [match ?x with Ok _ => _ | Throw _ => _ end] =>
               destruct x
           end;
      cbn in Hin;
      repeat match type of Hin with
             | _ \/ _ => destruct Hin as [Hin|Hin]
             | False => destruct Hin
             | SupportScreen.Invoke _ = SupportScreen.Invoke _ =>
                 injection Hin as <-; reflexivity
             | _ = _ => discriminate
             end. }
  split; [exists c; split; [reflexivity|exact Hb]|].
  rewrite Hb. reflexivity.
Qed.

End SendAccepted.

Lemma accepted_send_appends_two_messages_witness :
  let click :=
    SupportScreen.click SupportScenario.fallback_invoke
      SupportScenario.accepting_update "t1" "t2" "t3" "t4" in
  let final :=
    (SupportScenario.earlier ++
     [ SupportScreen.chat_entry (VStr "user") (VStr "Any news?") "t1";
       SupportScreen.chat_entry (VStr "assistant")
         (VStr SupportScreen.apology) "t2" ])%list in
  SupportScreen.apply_events SupportScenario.before
    (click SupportScenario.before)
  = SupportScreen.mkScreen
      (Some (SupportScreen.mkConversation "c1" (VStr "Where is my order?")
               final
               [("status", VStr "open"); ("updated_at", VStr "t0b")]))
      EmptyString false
      [ SupportScreen.mkConversation "c1" (VStr "Where is my order?") final
          [("status", VStr "open"); ("updated_at", VStr "t4")];
        SupportScenario.other_ticket ].
Proof.
  intros click final.
  refine (proj1 (accepted_send_appends_two_messages
                   SupportScenario.fallback_invoke
                   SupportScenario.accepting_update "t1" "t2" "t3" "t4"
                   SupportScenario.before SupportScenario.ticket
                   (SupportChat.fallback (VStr "It ships tomorrow."))
                   eq_refl _ eq_refl (fun _ => eq_refl) eq_refl eq_refl
                   (fun _ _ => eq_refl))).
  vm_compute. reflexivity.
Defined.

Lemma sent_body_misses_handler_fields_witness :
  let body :=
    VObj [ ("messages",
            VArr (SupportScenario.earlier ++
                  [SupportScreen.chat_entry (VStr "user") (VStr "Any news?")
                     "t1"]));
           ("conversationId", VStr "c1") ] in
  messages_of SupportChat body
  = Ok [ mkMessage (VStr "system")
           (VStr (SupportChat.systemPrompt EmptyString));
         mkMessage (VStr "user") VUndef ].
Proof.
  intros body.
  refine (proj2 (sent_body_misses_handler_fields
                   SupportScenario.fallback_invoke
                   SupportScenario.accepting_update "t1" "t2" "t3" "t4"
                   SupportScenario.before body _)).
  vm_compute. right. right. right. left. reflexivity.
Defined.
